(** * Line-follower control loop and telemetry recorder (prog.py)

    A shallow embedding of [prog.py]: the telemetry recorder
    ([TelemetryLogger]), the PID controller, the IR sensor array, the motor
    pair, the track-state classifier, the best-effort HTTP forwarding
    helpers and the orchestrator ([LineFollowerRobot]).

    Modelling conventions.
    - In the control loop Python floats are idealised as exact rationals
      ([Q]): equality of numeric results is [Qeq] ([==]) and a statement
      about a numeric value holds up to rounding.
    - What turns on the last bit of a computation (the side of a threshold
      a computed mean falls on, the column a bar lands in, a divisor that
      is exactly zero) is stated over IEEE 754 binary64 numbers, the
      kernel's primitive floats: [TrackState64.update] and [_make_line]
      embed their lines of the source over them.
    - Python exceptions are values of [exn]; a computation is a function
      from a state to a new state and either a value or a raised exception.
      The state is kept when an exception is raised, as in Python.
    - [print] is not modelled: console output carries no state.  The
      text-only helper [_make_line], whose result is only printed, is
      modelled on its own and left out of the loop.
    - [commit()] is not modelled: every statement takes effect at once.
    - The outside world (database file, clock, random generator, network)
      is part of the explicit state [Globals]. *)

From Stdlib Require Import List String ZArith QArith Lia Lqa Bool Arith.
From Stdlib Require Import DecimalString.
From Stdlib Require Import Ascii.
From Stdlib Require Floats.
Import ListNotations.

Set Implicit Arguments.
Set Warnings "-inexact-float".

(* ================================================================= *)
(** ** Exceptions and the state-and-exception monad *)

Inductive exn : Type :=
| ZeroDivisionError
| IndexError
| KeyError
| AssertionError
| IntegrityError
| RequestException
| OverflowError
| ValueError.

(** [str(e)], as interpolated by the exception handler of [follow_line].
    The interpreter's wording varies with the operation that failed (a
    float division says "float division by zero", SQLite names the
    constraint): the text only reaches the message of an event. *)
Definition exn_str (e : exn) : string :=
  match e with
  | ZeroDivisionError => "division by zero"
  | IndexError => "list index out of range"
  | KeyError => "'id'"
  | AssertionError => ""
  | IntegrityError => "constraint failed"
  | RequestException => "request failed"
  | OverflowError => "cannot convert float infinity to integer"
  | ValueError => "cannot convert float NaN to integer"
  end.

Inductive result (A : Type) : Type :=
| Ok (a : A)
| Raise (e : exn).
Arguments Ok {A} a.
Arguments Raise {A} e.

Definition M (S A : Type) : Type := S -> S * result A.

Definition ret {S A} (a : A) : M S A := fun s => (s, Ok a).

Definition raise {S A} (e : exn) : M S A := fun s => (s, Raise e).

Definition bind {S A B} (m : M S A) (k : A -> M S B) : M S B :=
  fun s =>
    match m s with
    | (s', Ok a) => k a s'
    | (s', Raise e) => (s', Raise e)
    end.

Definition gets {S A} (f : S -> A) : M S A := fun s => (s, Ok (f s)).

Definition modify {S} (f : S -> S) : M S unit := fun s => (f s, Ok tt).

(** A pure computation that may raise. *)
Definition lift {S A} (r : result A) : M S A := fun s => (s, r).

(** [try: body  except Exception as e: handler(e)] *)
Definition try_except {S A} (body : M S A) (handler : exn -> M S A) : M S A :=
  fun s =>
    match body s with
    | (s', Ok a) => (s', Ok a)
    | (s', Raise e) => handler e s'
    end.

(** [assert c] *)
Definition py_assert {S} (c : bool) : M S unit :=
  if c then ret tt else raise AssertionError.

(** Run a computation on a component of the state. *)
Definition zoom {S T A} (proj : S -> T) (upd : T -> S -> S) (m : M T A)
  : M S A :=
  fun s => let (t', r) := m (proj s) in (upd t' s, r).

Declare Scope monad_scope.
Delimit Scope monad_scope with monad.
Notation "x <- c1 ;; c2" := (bind c1 (fun x => c2))
  (at level 61, c1 at next level, right associativity) : monad_scope.
Notation "' pat <- c1 ;; c2" := (bind c1 (fun x => match x with pat => c2 end))
  (at level 61, pat pattern, c1 at next level, right associativity)
  : monad_scope.
Notation "c1 ;; c2" := (bind c1 (fun _ => c2))
  (at level 61, right associativity) : monad_scope.
Open Scope monad_scope.

(** [for x in xs: body(x)] *)
Fixpoint for_each {S A} (xs : list A) (body : A -> M S unit) : M S unit :=
  match xs with
  | [] => ret tt
  | x :: xs' => body x;; for_each xs' body
  end.

(** [[f(x) for x in xs]] *)
Fixpoint list_comp {S A B} (xs : list A) (f : A -> M S B) : M S (list B) :=
  match xs with
  | [] => ret []
  | x :: xs' => y <- f x;; ys <- list_comp xs' f;; ret (y :: ys)
  end.

(** [enumerate(xs, start)] *)
Fixpoint enumerate {A} (start : nat) (xs : list A) : list (nat * A) :=
  match xs with
  | [] => []
  | x :: xs' => (start, x) :: enumerate (S start) xs'
  end.

(* ================================================================= *)
(** ** Python arithmetic on numbers *)

Definition py_lt (a b : Q) : bool := negb (Qle_bool b a).

(** [min(a, b)]: [b] when [b < a], otherwise [a]. *)
Definition py_min (a b : Q) : Q := if py_lt b a then b else a.

(** [max(a, b)]: [b] when [b > a], otherwise [a]. *)
Definition py_max (a b : Q) : Q := if py_lt a b then b else a.

(** [x / y], raising on a zero divisor. *)
Definition py_div (x y : Q) : result Q :=
  if Qeq_bool y 0 then Raise ZeroDivisionError else Ok (x / y).

(** [xs[i]] *)
Definition py_index {A} (xs : list A) (i : nat) : result A :=
  match nth_error xs i with
  | Some x => Ok x
  | None => Raise IndexError
  end.

(** [xs[i] = v] on a copy of [xs]. *)
Fixpoint py_setitem {A} (xs : list A) (i : nat) (v : A) : result (list A) :=
  match xs, i with
  | [], _ => Raise IndexError
  | _ :: xs', O => Ok (v :: xs')
  | x :: xs', S i' =>
      match py_setitem xs' i' v with
      | Ok ys => Ok (x :: ys)
      | Raise e => Raise e
      end
  end.

(** [sum(xs)]: left to right from [0]. *)
Definition py_sum (xs : list Q) : Q := fold_left Qplus xs 0.

(** [str(k)] for a natural number. *)
Definition str_nat (k : nat) : string :=
  NilEmpty.string_of_uint (Nat.to_uint k).

(* ================================================================= *)
(** ** The local store: the four tables of [init_schema] *)

(** A timestamp is the ordinal of the clock read that produced it; the
    wall-clock text of [datetime.utcnow().isoformat()] is not modelled. *)
Definition timestamp : Type := nat.

Record session_row : Type := {
  s_id : Z;
  s_variant_id : Z;
  s_started_at : timestamp;
  s_ended_at : option timestamp;
  s_status : string
}.

Record sensor_row : Type := {
  r_id : Z;
  r_session_id : Z;
  r_sensor_type : string;
  r_timestamp : timestamp;
  r_value : Q;
  r_unit : string
}.

Record command_row : Type := {
  c_id : Z;
  c_session_id : Z;
  c_actuator_type : string;
  c_timestamp : timestamp;
  c_command : Q;
  c_status : string
}.

Record event_row : Type := {
  e_id : Z;
  e_session_id : Z;
  e_timestamp : timestamp;
  e_event_type : string;
  e_severity : string;
  e_message : string
}.

(** The statements the connection has executed, in order. *)
Inductive sql_stmt : Type :=
| InsertSession (variant_id : Z) (ts : timestamp) (status : string)
| UpdateSession (ts : timestamp) (status : string) (id : Z)
| InsertSensor (session_id : Z) (sensor_type : string)
| InsertCommand (session_id : Z) (actuator_type : string)
| InsertEvent (session_id : Z) (event_type severity : string).

Record DB : Type := {
  sessions : list session_row;
  sensor_readings : list sensor_row;
  actuator_commands : list command_row;
  events : list event_row;
  sql_log : list sql_stmt
}.

Definition empty_db : DB :=
  {| sessions := []; sensor_readings := []; actuator_commands := [];
     events := []; sql_log := [] |}.

(** [CHECK(status IN ('running','completed','error'))] *)
Definition check_status (s : string) : bool :=
  (s =? "running")%string || (s =? "completed")%string || (s =? "error")%string.

(** [CHECK(severity IN ('info','warning','error'))] *)
Definition check_severity (s : string) : bool :=
  (s =? "info")%string || (s =? "warning")%string || (s =? "error")%string.

(** The foreign key [REFERENCES sessions(id)], enforced by
    [PRAGMA foreign_keys = ON]. *)
Definition has_session (d : DB) (sid : Z) : bool :=
  existsb (fun r => (s_id r =? sid)%Z) (sessions d).

(** The rowid given to a new row of an [INTEGER PRIMARY KEY] table: one
    more than the largest rowid in use, and 1 in an empty table.  This
    is SQLite's rule as long as the table is empty or holds a
    non-negative id and the largest id is below 2^63 - 1. *)
Definition next_rowid (ids : list Z) : Z :=
  (fold_right Z.max 0 ids + 1)%Z.

Definition db_insert_session (variant_id : Z) (ts : timestamp) (status : string)
  : M DB Z :=
  fun d =>
    if check_status status then
      let id := next_rowid (map s_id (sessions d)) in
      ({| sessions := sessions d ++
                        [{| s_id := id; s_variant_id := variant_id;
                            s_started_at := ts; s_ended_at := None;
                            s_status := status |}];
          sensor_readings := sensor_readings d;
          actuator_commands := actuator_commands d;
          events := events d;
          sql_log := sql_log d ++ [InsertSession variant_id ts status] |},
       Ok id)
    else (d, Raise IntegrityError).

(** [UPDATE sessions SET ended_at=?, status=? WHERE id=?] *)
Definition update_session_row (ts : timestamp) (status : string) (id : Z)
    (r : session_row) : session_row :=
  if (s_id r =? id)%Z then
    {| s_id := s_id r; s_variant_id := s_variant_id r;
       s_started_at := s_started_at r; s_ended_at := Some ts;
       s_status := status |}
  else r.

(** The [CHECK] on [status] is evaluated here whether or not a row has
    the id; SQLite evaluates it on the rows it updates.  The two agree
    whenever a row has the id, as after [start_session]. *)
Definition db_update_session (ts : timestamp) (status : string) (id : Z)
  : M DB unit :=
  fun d =>
    if check_status status then
      ({| sessions := map (update_session_row ts status id) (sessions d);
          sensor_readings := sensor_readings d;
          actuator_commands := actuator_commands d;
          events := events d;
          sql_log := sql_log d ++ [UpdateSession ts status id] |},
       Ok tt)
    else (d, Raise IntegrityError).

Definition db_insert_sensor (sid : Z) (sensor_type : string) (ts : timestamp)
    (value : Q) (unit_ : string) : M DB unit :=
  fun d =>
    if has_session d sid then
      ({| sessions := sessions d;
          sensor_readings := sensor_readings d ++
            [{| r_id := next_rowid (map r_id (sensor_readings d));
                r_session_id := sid; r_sensor_type := sensor_type;
                r_timestamp := ts; r_value := value; r_unit := unit_ |}];
          actuator_commands := actuator_commands d;
          events := events d;
          sql_log := sql_log d ++ [InsertSensor sid sensor_type] |},
       Ok tt)
    else (d, Raise IntegrityError).

Definition db_insert_command (sid : Z) (actuator_type : string)
    (ts : timestamp) (command : Q) (status : string) : M DB unit :=
  fun d =>
    if has_session d sid then
      ({| sessions := sessions d;
          sensor_readings := sensor_readings d;
          actuator_commands := actuator_commands d ++
            [{| c_id := next_rowid (map c_id (actuator_commands d));
                c_session_id := sid; c_actuator_type := actuator_type;
                c_timestamp := ts; c_command := command;
                c_status := status |}];
          events := events d;
          sql_log := sql_log d ++ [InsertCommand sid actuator_type] |},
       Ok tt)
    else (d, Raise IntegrityError).

Definition db_insert_event (sid : Z) (ts : timestamp)
    (event_type severity message : string) : M DB unit :=
  fun d =>
    if check_severity severity && has_session d sid then
      ({| sessions := sessions d;
          sensor_readings := sensor_readings d;
          actuator_commands := actuator_commands d;
          events := events d ++
            [{| e_id := next_rowid (map e_id (events d));
                e_session_id := sid; e_timestamp := ts;
                e_event_type := event_type; e_severity := severity;
                e_message := message |}];
          sql_log := sql_log d ++ [InsertEvent sid event_type severity] |},
       Ok tt)
    else (d, Raise IntegrityError).

(* ================================================================= *)
(** ** The outside world: store, clock, random generator, network *)

Inductive jval : Type :=
| JStr (s : string)
| JInt (z : Z)
| JNum (q : Q).

(** One [requests.post(url, json=payload, timeout=HTTP_TIMEOUT)]. *)
Record request : Type := {
  url : string;
  payload : list (string * jval)
}.

(** What the network does with a request: [requests] raises (connection
    refused, timeout), or a response comes back with its [ok] flag and, when
    the body decodes to an object with an ["id"], that id. *)
Inductive http_result : Type :=
| ConnectionFailed
| Response (ok : bool) (json_id : option Z).

Record response : Type := {
  resp_ok : bool;
  resp_json_id : option Z
}.

Record World : Type := {
  database : DB;
  clock : nat;
  random_source : nat -> Q;
  random_draws : nat;
  server : nat -> request -> http_result;
  http_sent : list request
}.

Definition set_database (d : DB) (w : World) : World :=
  {| database := d; clock := clock w; random_source := random_source w;
     random_draws := random_draws w; server := server w;
     http_sent := http_sent w |}.

(** Run a statement on the store. *)
Definition sql {A} (m : M DB A) : M World A := zoom database set_database m.

(** [datetime.utcnow().isoformat()] *)
Definition utcnow : M World timestamp :=
  fun w =>
    ({| database := database w; clock := S (clock w);
        random_source := random_source w; random_draws := random_draws w;
        server := server w; http_sent := http_sent w |},
     Ok (clock w)).

(** [random.random()]: the next value of the generator, in [0, 1). *)
Definition random_random : M World Q :=
  fun w =>
    ({| database := database w; clock := clock w;
        random_source := random_source w; random_draws := S (random_draws w);
        server := server w; http_sent := http_sent w |},
     Ok (random_source w (random_draws w))).

(** [random.uniform(a, b)], which is [a + (b - a) * random()]. *)
Definition random_uniform (a b : Q) : M World Q :=
  u <- random_random;; ret (a + (b - a) * u).

(** [requests.post]: the request goes out; a failure raises. *)
Definition requests_post (rq : request) : M World response :=
  fun w =>
    let w' := {| database := database w; clock := clock w;
                 random_source := random_source w;
                 random_draws := random_draws w; server := server w;
                 http_sent := http_sent w ++ [rq] |} in
    match server w (List.length (http_sent w)) rq with
    | ConnectionFailed => (w', Raise RequestException)
    | Response ok id => (w', Ok {| resp_ok := ok; resp_json_id := id |})
    end.

(** [r.json()["id"]] *)
Definition json_id {S} (r : response) : M S Z :=
  match resp_json_id r with
  | Some id => ret id
  | None => raise KeyError
  end.

(** Run a computation of the world from a state [(self, world)]. *)
Definition on_world {X A} (m : M World A) : M (X * World) A :=
  zoom snd (fun w s => (fst s, w)) m.

(** Run a method of [self] from a state [(self, world)]. *)
Definition on_self {X W A} (m : M X A) : M (X * W) A :=
  zoom fst (fun x s => (x, snd s)) m.

(* ================================================================= *)
(** ** class TelemetryLogger *)

Inductive Connection : Type := Connect (path : string).

Module TelemetryLogger.

Record t : Type := {
  db_path : string;
  _conn : option Connection;
  session_id : option Z
}.

Definition init (path : string) : t :=
  {| db_path := path; _conn := None; session_id := None |}.

Definition set_conn (c : option Connection) (self : t) : t :=
  {| db_path := db_path self; _conn := c; session_id := session_id self |}.

Definition set_session_id (i : option Z) (self : t) : t :=
  {| db_path := db_path self; _conn := _conn self; session_id := i |}.

Definition connect : M (t * World) unit :=
  on_self (modify (fun self => set_conn (Some (Connect (db_path self))) self)).

Definition close : M (t * World) unit :=
  on_self (modify (fun self =>
    match _conn self with
    | Some _ => set_conn None self
    | None => self
    end)).

(** [assert self._conn is not None] *)
Definition assert_conn : M (t * World) unit :=
  c <- gets (fun s => _conn (fst s));;
  py_assert (match c with Some _ => true | None => false end).

(** [assert self._conn is not None and self.session_id is not None];
    yields the bound session id. *)
Definition assert_active : M (t * World) Z :=
  assert_conn;;
  i <- gets (fun s => session_id (fst s));;
  match i with
  | Some sid => ret sid
  | None => raise AssertionError
  end.

(** [CREATE TABLE IF NOT EXISTS]: the four tables are always present in
    the model. *)
Definition init_schema : M (t * World) unit := assert_conn.

Definition start_session (variant_id : Z) : M (t * World) Z :=
  assert_conn;;
  ts <- on_world utcnow;;
  id <- on_world (sql (db_insert_session variant_id ts "running"));;
  on_self (modify (set_session_id (Some id)));;
  ret id.

Definition end_session (status : string) : M (t * World) unit :=
  sid <- assert_active;;
  ts <- on_world utcnow;;
  on_world (sql (db_update_session ts status sid)).

Definition log_sensor (sensor_type : string) (value : Q) (unit_ : string)
  : M (t * World) unit :=
  sid <- assert_active;;
  ts <- on_world utcnow;;
  on_world (sql (db_insert_sensor sid sensor_type ts value unit_)).

Definition log_command (actuator_type : string) (command : Q)
    (status : string) : M (t * World) unit :=
  sid <- assert_active;;
  ts <- on_world utcnow;;
  on_world (sql (db_insert_command sid actuator_type ts command status)).

Definition log_event (event_type severity message : string)
  : M (t * World) unit :=
  sid <- assert_active;;
  ts <- on_world utcnow;;
  on_world (sql (db_insert_event sid ts event_type severity message)).

End TelemetryLogger.

(* ================================================================= *)
(** ** Module-level globals *)

Definition VARIANT_ID : Z := 1.

Definition BASE : string := "http://127.0.0.1:8000".

(** The module-level state of [prog.py]: the [telemetry] instance and the
    world it talks to. *)
Record Globals : Type := {
  telemetry : TelemetryLogger.t;
  world : World
}.

(** A method call on the global [telemetry]. *)
Definition on_telemetry {A} (m : M (TelemetryLogger.t * World) A)
  : M Globals A :=
  zoom (fun g => (telemetry g, world g))
       (fun p _ => {| telemetry := fst p; world := snd p |}) m.

(** A module-level function that only touches the world. *)
Definition in_world {A} (m : M World A) : M Globals A :=
  zoom world (fun w g => {| telemetry := telemetry g; world := w |}) m.

(** Code running with the module globals from inside a method of [self]. *)
Definition on_globals {X A} (m : M Globals A) : M (X * Globals) A :=
  zoom snd (fun g s => (fst s, g)) m.

(* ================================================================= *)
(** ** class PIDController *)

Module PIDController.

Record t : Type := {
  kp : Q;
  ki : Q;
  kd : Q;
  prev_error : Q;
  integral : Q
}.

Definition init (kp ki kd : Q) : t :=
  {| kp := kp; ki := ki; kd := kd; prev_error := 0; integral := 0 |}.

Definition set_integral (v : Q) (self : t) : t :=
  {| kp := kp self; ki := ki self; kd := kd self;
     prev_error := prev_error self; integral := v |}.

Definition set_prev_error (v : Q) (self : t) : t :=
  {| kp := kp self; ki := ki self; kd := kd self;
     prev_error := v; integral := integral self |}.

Definition update (error dt : Q) : M t Q :=
  modify (fun self => set_integral (integral self + error * dt) self);;
  prev <- gets prev_error;;
  derivative <- lift (py_div (error - prev) dt);;
  self <- gets (fun self => self);;
  let output := kp self * error + ki self * integral self
                + kd self * derivative in
  modify (set_prev_error error);;
  ret (py_max (-1) (py_min 1 output)).

(** The default [dt=0.1]. *)
Definition default_dt : Q := 0.1.

End PIDController.

(* ================================================================= *)
(** ** class IRLineSensor *)

Module IRLineSensor.

Record t : Type := {
  n : nat;
  white : list Q;
  black : list Q
}.

Definition init (n_sensors : nat) : t :=
  {| n := n_sensors; white := repeat 1 n_sensors;
     black := repeat 0 n_sensors |}.

Definition set_white (v : list Q) (self : t) : t :=
  {| n := n self; white := v; black := black self |}.

Definition set_black (v : list Q) (self : t) : t :=
  {| n := n self; white := white self; black := v |}.

Definition epsilon : Q := 1e-6.

Definition calibrate (white_levels black_levels : list Q)
  : M (t * World) unit :=
  n_ <- gets (fun s => n (fst s));;
  for_each (seq 0 n_) (fun i =>
    noise_w <- on_world (random_uniform (-0.05) 0);;
    noise_b <- on_world (random_uniform 0 0.05);;
    wl <- lift (py_index white_levels i);;
    w <- gets (fun s => white (fst s));;
    w' <- lift (py_setitem w i (py_min 1 (py_max 0 (wl + noise_w))));;
    on_self (modify (set_white w'));;
    bl <- lift (py_index black_levels i);;
    b <- gets (fun s => black (fst s));;
    b' <- lift (py_setitem b i (py_min 1 (py_max 0 (bl + noise_b))));;
    on_self (modify (set_black b'))).

Definition read_normalized (raw_values : list Q) : M t (list Q) :=
  n_ <- gets n;;
  list_comp (seq 0 n_) (fun i =>
    w <- (ws <- gets white;; lift (py_index ws i));;
    b <- (bs <- gets black;; lift (py_index bs i));;
    r <- lift (py_index raw_values i);;
    value <- lift (py_div (r - b) (w - b + epsilon));;
    ret (py_max 0 (py_min 1 value))).

End IRLineSensor.

(* ================================================================= *)
(** ** class MotorPair *)

Module MotorPair.

Inductive t : Type := Build.

Definition drive (base_speed diff : Q) : M Globals (Q * Q) :=
  let left := py_max (-1) (py_min 1 (base_speed - diff)) in
  let right := py_max (-1) (py_min 1 (base_speed + diff)) in
  on_telemetry (TelemetryLogger.log_command "Motor_L" left "sent");;
  on_telemetry (TelemetryLogger.log_command "Motor_R" right "sent");;
  ret (left, right).

End MotorPair.

(* ================================================================= *)
(** ** class TrackState *)

(** Over exact rationals, as the loop uses it; [TrackState64] below
    embeds the same lines over binary64, where the ends of the band are
    settled. *)
Module TrackState.

Inductive t : Type := Build.

(** [len(xs)] as a number. *)
Definition len (xs : list Q) : Q := inject_Z (Z.of_nat (List.length xs)).

(** [avg = sum(normalized_values) / len(normalized_values)] *)
Definition avg (normalized_values : list Q) : result Q :=
  py_div (py_sum normalized_values) (len normalized_values).

Definition update (normalized_values : list Q) : result bool :=
  match avg normalized_values with
  | Ok a => Ok (Qle_bool 0.2 a && Qle_bool a 0.8)
  | Raise e => Raise e
  end.

End TrackState.

(* ================================================================= *)
(** ** Best-effort forwarding to the remote collector *)

(** [str(z)] for an integer. *)
Definition str_Z (z : Z) : string := NilEmpty.string_of_int (Z.to_int z).

Definition http_create_session : M World (option Z) :=
  try_except
    (r <- requests_post
            {| url := BASE ++ "/sessions";
               payload := [("variant_id"%string, JInt VARIANT_ID)] |};;
     if resp_ok r then (id <- json_id r;; ret (Some id)) else ret None)
    (fun _ => ret None).

Definition http_log_sensor (sid : option Z) (sensor_type : string) (value : Q)
    (unit_ : string) : M World unit :=
  match sid with
  | None => ret tt
  | Some sid =>
      try_except
        (requests_post
           {| url := BASE ++ "/sessions/" ++ str_Z sid ++ "/sensors";
              payload := [("sensor_type"%string, JStr sensor_type);
                          ("value"%string, JNum value);
                          ("unit"%string, JStr unit_)] |};;
         ret tt)
        (fun _ => ret tt)
  end.

Definition http_log_actuator (sid : option Z) (actuator_type : string)
    (command : Q) (status : string) : M World unit :=
  match sid with
  | None => ret tt
  | Some sid =>
      try_except
        (requests_post
           {| url := BASE ++ "/sessions/" ++ str_Z sid ++ "/actuators";
              payload := [("actuator_type"%string, JStr actuator_type);
                          ("command"%string, JNum command);
                          ("status"%string, JStr status)] |};;
         ret tt)
        (fun _ => ret tt)
  end.

Definition http_log_event (sid : option Z) (event_type severity message : string)
  : M World unit :=
  match sid with
  | None => ret tt
  | Some sid =>
      try_except
        (requests_post
           {| url := BASE ++ "/sessions/" ++ str_Z sid ++ "/events";
              payload := [("event_type"%string, JStr event_type);
                          ("severity"%string, JStr severity);
                          ("message"%string, JStr message)] |};;
         ret tt)
        (fun _ => ret tt)
  end.

Definition http_end_session (sid : option Z) (status : string) : M World unit :=
  match sid with
  | None => ret tt
  | Some sid =>
      try_except
        (requests_post
           {| url := BASE ++ "/sessions/" ++ str_Z sid ++ "/end";
              payload := [("status"%string, JStr status)] |};;
         ret tt)
        (fun _ => ret tt)
  end.

(* ================================================================= *)
(** ** class LineFollowerRobot *)

(** The values a step of [follow_line] computes (and prints). *)
Record step_locals : Type := {
  l_norm : list Q;
  l_error : Q;
  l_pid_out : Q;
  l_on_track : bool;
  l_left : Q;
  l_right : Q
}.

Module LineFollowerRobot.

Record t : Type := {
  sensor : IRLineSensor.t;
  pid : PIDController.t;
  motors : MotorPair.t;
  track : TrackState.t
}.

Definition init (n_sensors : nat) : t :=
  {| sensor := IRLineSensor.init n_sensors;
     pid := PIDController.init 0.8 0.0 0.2;
     motors := MotorPair.Build;
     track := TrackState.Build |}.

Definition set_sensor (v : IRLineSensor.t) (self : t) : t :=
  {| sensor := v; pid := pid self; motors := motors self;
     track := track self |}.

Definition set_pid (v : PIDController.t) (self : t) : t :=
  {| sensor := sensor self; pid := v; motors := motors self;
     track := track self |}.

(** A call [telemetry.m(...)] from a method of the robot. *)
Definition tele {A} (m : M (TelemetryLogger.t * World) A)
  : M (t * Globals) A :=
  on_globals (on_telemetry m).

(** A call of a module-level [http_*] function or of [random]. *)
Definition glob {A} (m : M World A) : M (t * Globals) A :=
  on_globals (in_world m).

(** A call [self.pid.m(...)]. *)
Definition self_pid {A} (m : M PIDController.t A) : M (t * Globals) A :=
  on_self (zoom pid set_pid m).

(** A call [self.sensor.m(...)] of a method that does not use the
    world. *)
Definition self_sensor {A} (m : M IRLineSensor.t A) : M (t * Globals) A :=
  on_self (zoom sensor set_sensor m).

(** A call [self.sensor.m(...)] of a method that uses the world. *)
Definition self_sensor_world {A} (m : M (IRLineSensor.t * World) A)
  : M (t * Globals) A :=
  zoom (fun s => (sensor (fst s), world (snd s)))
       (fun p s => (set_sensor (fst p) (fst s),
                    {| telemetry := telemetry (snd s); world := snd p |}))
       m.

Definition calibrate : M (t * Globals) unit :=
  tele (TelemetryLogger.start_session VARIANT_ID);;
  n_ <- gets (fun s => IRLineSensor.n (sensor (fst s)));;
  let white := repeat (1 : Q) n_ in
  let black := repeat (0 : Q) n_ in
  self_sensor_world (IRLineSensor.calibrate white black);;
  tele (TelemetryLogger.log_event "calibration" "info"
          "Калибровка завершена");;
  tele (TelemetryLogger.end_session "completed").

(** [(self.sensor.n - 1)/2] *)
Definition half_span (n_ : nat) : Q := inject_Z (Z.of_nat n_ - 1) / 2.

(** [position = sum((i - (n - 1)/2) * (1 - norm[i]) for i in range(n))] *)
Definition position {S} (n_ : nat) (norm : list Q) : M S Q :=
  terms <- list_comp (seq 0 n_) (fun i =>
             x <- lift (py_index norm i);;
             ret ((inject_Z (Z.of_nat i) - half_span n_) * (1 - x)));;
  ret (py_sum terms).

(** [error = position / ((n - 1)/2) if (n - 1) != 0 else 0.0] *)
Definition error_of {S} (n_ : nat) (position : Q) : M S Q :=
  if (Z.of_nat n_ - 1 =? 0)%Z then ret 0
  else lift (py_div position (half_span n_)).

(** The lateral error of a step, from the sensor count and [norm]. *)
Definition lateral_error {S} (n_ : nat) (norm : list Q) : M S Q :=
  p <- position n_ norm;; error_of n_ p.

(** One iteration of the [for step, raw in enumerate(measurements, 1)]
    loop; [counts] is [(on_track_count, off_track_count)]. *)
Definition follow_step (remote_session_id : option Z) (counts : nat * nat)
    (step : nat) (raw : list Q) : M (t * Globals) (nat * nat * step_locals) :=
  noisy <- list_comp raw (fun v =>
             noise <- glob (random_uniform (-0.05) 0.05);;
             ret (py_max 0 (py_min 1 (v + noise))));;
  norm <- self_sensor (IRLineSensor.read_normalized noisy);;
  for_each (enumerate 0 norm) (fun iv =>
    let name := ("IR_" ++ str_nat (fst iv + 1))%string in
    tele (TelemetryLogger.log_sensor name (snd iv) "норм");;
    glob (http_log_sensor remote_session_id name (snd iv) "норм"));;
  n_ <- gets (fun s => IRLineSensor.n (sensor (fst s)));;
  error <- lateral_error n_ norm;;
  pid_out <- self_pid (PIDController.update error PIDController.default_dt);;
  on_track <- lift (TrackState.update norm);;
  counts' <-
    (if on_track : bool then ret (S (fst counts), snd counts)
     else
       let msg := ("Сошёл с линии на шаге " ++ str_nat step)%string in
       tele (TelemetryLogger.log_event "line_tracking" "warning" msg);;
       glob (http_log_event remote_session_id "line_tracking" "warning" msg);;
       ret (fst counts, S (snd counts)));;
  lr <- on_globals (MotorPair.drive 0.5 pid_out);;
  glob (http_log_actuator remote_session_id "Motor_L" (fst lr) "sent");;
  glob (http_log_actuator remote_session_id "Motor_R" (snd lr) "sent");;
  ret (counts',
       {| l_norm := norm; l_error := error; l_pid_out := pid_out;
          l_on_track := on_track; l_left := fst lr; l_right := snd lr |}).

(** The loop over the enumerated frames; yields the final counters. *)
Fixpoint follow_steps (remote_session_id : option Z) (counts : nat * nat)
    (frames : list (nat * list Q)) : M (t * Globals) (nat * nat) :=
  match frames with
  | [] => ret counts
  | (step, raw) :: rest =>
      r <- follow_step remote_session_id counts step raw;;
      follow_steps remote_session_id (fst r) rest
  end.

(** [follow_line], up to the [try]: both sessions are opened and the
    start of the scenario is logged; yields [remote_session_id]. *)
Definition follow_line_entry (label : string) : M (t * Globals) (option Z) :=
  session_id <- tele (TelemetryLogger.start_session VARIANT_ID);;
  remote_session_id <- glob http_create_session;;
  match remote_session_id with
  | None =>
      tele (TelemetryLogger.log_event "server" "warning"
              "Не удалось подключиться к серверу телеметрии; записи будут только локально")
  | Some _ =>
      glob (http_log_event remote_session_id "scenario_start" "info"
              ("Начало сценария: " ++ label))
  end;;
  tele (TelemetryLogger.log_event "scenario_start_local" "info"
          ("Начало сценария локально: " ++ label));;
  ret remote_session_id.

(** The body of the [try]. *)
Definition follow_line_try (remote_session_id : option Z)
    (measurements : list (list Q)) : M (t * Globals) unit :=
  counts <- follow_steps remote_session_id (0, 0)%nat
              (enumerate 1 measurements);;
  let msg := ("Сценарий завершён. Сошёл " ++ str_nat (snd counts)
              ++ " раз(а).")%string in
  tele (TelemetryLogger.log_event "scenario_end" "info" msg);;
  glob (http_log_event remote_session_id "scenario_end" "info" msg);;
  tele (TelemetryLogger.end_session "completed");;
  glob (http_end_session remote_session_id "completed").

(** The [except Exception as e] handler. *)
Definition follow_line_except (remote_session_id : option Z) (e : exn)
  : M (t * Globals) unit :=
  let msg := ("Ошибка сценария: " ++ exn_str e)%string in
  tele (TelemetryLogger.log_event "exception" "error" msg);;
  glob (http_log_event remote_session_id "exception" "error" msg);;
  tele (TelemetryLogger.end_session "error");;
  glob (http_end_session remote_session_id "error").

Definition follow_line (measurements : list (list Q)) (label : string)
  : M (t * Globals) unit :=
  remote_session_id <- follow_line_entry label;;
  try_except (follow_line_try remote_session_id measurements)
             (follow_line_except remote_session_id).

End LineFollowerRobot.

(* ================================================================= *)
(** ** Specification-side definitions *)

(** The arithmetic mean of a list, as the specification words it. *)
Definition arithmetic_mean (xs : list Q) : Q :=
  fold_right Qplus 0 xs / inject_Z (Z.of_nat (List.length xs)).

(** The sum over the sensor index [i] (counted from [i0]) of
    [(i - c) * (1 - norm[i])]. *)
Fixpoint weighted_sum (c : Q) (i0 : nat) (norm : list Q) : Q :=
  match norm with
  | [] => 0
  | x :: rest =>
      (inject_Z (Z.of_nat i0) - c) * (1 - x) + weighted_sum c (S i0) rest
  end.

(** The lateral position error, as the specification words it: the weighted
    sum divided by [(N - 1)/2], and [0] when [N = 1]. *)
Definition spec_lateral_error (N : nat) (norm : list Q) : Q :=
  let c := (inject_Z (Z.of_nat N) - 1) / 2 in
  if Nat.eqb N 1 then 0 else weighted_sum c 0 norm / c.

(** [clamp01] and the clamp to [-1, 1], as the specification words them. *)
Definition clamp (lo hi x : Q) : Q :=
  if Qle_bool x lo then lo else if Qle_bool hi x then hi else x.


Unset Implicit Arguments.

(* ================================================================= *)
(** ** Predicates and observations used to state the properties *)

(** The logger has an open connection. *)
Definition connected (g : Globals) : bool :=
  match TelemetryLogger._conn (telemetry g) with
  | Some _ => true
  | None => false
  end.

(** The logger is connected and bound to session [sid], which exists in
    the store. *)
Definition active (sid : Z) (g : Globals) : Prop :=
  connected g = true
  /\ TelemetryLogger.session_id (telemetry g) = Some sid
  /\ has_session (database (world g)) sid = true.

Fixpoint all2 {A B} (f : A -> B -> bool) (xs : list A) (ys : list B) : bool :=
  match xs, ys with
  | [], [] => true
  | x :: xs', y :: ys' => f x y && all2 f xs' ys'
  | _, _ => false
  end.

(** The divisor of [read_normalized] is not zero on this channel. *)
Definition regular_channel (w b : Q) : bool :=
  negb (Qeq_bool (w - b + IRLineSensor.epsilon) 0).

(** The sensor holds one calibration pair per channel (the shape
    [__init__] sets up and [calibrate] keeps). *)
Definition sensor_shaped (s : IRLineSensor.t) : bool :=
  (List.length (IRLineSensor.white s) =? IRLineSensor.n s)%nat
  && (List.length (IRLineSensor.black s) =? IRLineSensor.n s)%nat.

(** The sensor is shaped and no channel divides by zero. *)
Definition sensor_regular (s : IRLineSensor.t) : bool :=
  sensor_shaped s
  && all2 regular_channel (IRLineSensor.white s) (IRLineSensor.black s).

(** Every frame has a value for each of the [n] channels. *)
Definition frames_fit (n : nat) (measurements : list (list Q)) : bool :=
  forallb (fun raw => (n <=? List.length raw)%nat) measurements.

(** The statements of a log that write the [sessions] table. *)
Definition is_session_stmt (s : sql_stmt) : bool :=
  match s with
  | InsertSession _ _ _ | UpdateSession _ _ _ => true
  | _ => false
  end.

Definition session_stmts (l : list sql_stmt) : list sql_stmt :=
  filter is_session_stmt l.

Definition sensor_key (r : sensor_row) : Z * string :=
  (r_session_id r, r_sensor_type r).

Definition command_key (c : command_row) : Z * string :=
  (c_session_id c, c_actuator_type c).

Definition event_key (e : event_row) : Z * (string * string) :=
  (e_session_id e, (e_event_type e, e_severity e)).

(** What a piece of the run adds: the sensor identifiers, actuator
    identifiers and (type, severity) of the events appended to the local
    store, and the requests sent to the remote collector. *)
Record delta : Type := {
  d_sensors : list string;
  d_commands : list string;
  d_events : list (string * string);
  d_sent : list request
}.

Definition d_nil : delta :=
  {| d_sensors := []; d_commands := []; d_events := []; d_sent := [] |}.

Definition d_app (a b : delta) : delta :=
  {| d_sensors := d_sensors a ++ d_sensors b;
     d_commands := d_commands a ++ d_commands b;
     d_events := d_events a ++ d_events b;
     d_sent := d_sent a ++ d_sent b |}.

(** [g'] is [g] with the rows of [dl] appended under session [sid] and the
    requests of [dl] sent; the logger, the [sessions] table and the
    statements on it are the same. *)
Definition effect (sid : Z) (dl : delta) (g g' : Globals) : Prop :=
  telemetry g' = telemetry g
  /\ sessions (database (world g')) = sessions (database (world g))
  /\ session_stmts (sql_log (database (world g')))
     = session_stmts (sql_log (database (world g)))
  /\ server (world g') = server (world g)
  /\ random_source (world g') = random_source (world g)
  /\ map sensor_key (sensor_readings (database (world g')))
     = map sensor_key (sensor_readings (database (world g)))
       ++ map (pair sid) (d_sensors dl)
  /\ map command_key (actuator_commands (database (world g')))
     = map command_key (actuator_commands (database (world g)))
       ++ map (pair sid) (d_commands dl)
  /\ map event_key (events (database (world g')))
     = map event_key (events (database (world g)))
       ++ map (pair sid) (d_events dl)
  /\ http_sent (world g') = http_sent (world g) ++ d_sent dl.

(** The sensor identifiers of one batch: [IR_1 .. IR_n]. *)
Definition ir_names (n : nat) : list string :=
  map (fun i => ("IR_" ++ str_nat (i + 1))%string) (seq 0 n).

(** The request [http_create_session] sends. *)
Definition create_request : request :=
  {| url := BASE ++ "/sessions";
     payload := [("variant_id"%string, JInt VARIANT_ID)] |}.

(** The answer of the collector to the session-creation request yields no
    remote id: the call failed or timed out, the response was not a
    success, or it carried no id. *)
Definition creation_fails (w : World) : bool :=
  match server w (List.length (http_sent w)) create_request with
  | Response true (Some _) => false
  | _ => true
  end.

(** [w'] is [w] with the requests [sent] sent: the store and the behaviour
    of the collector and of the random generator are the same. *)
Definition quiet (sent : list request) (w w' : World) : Prop :=
  database w' = database w
  /\ server w' = server w
  /\ random_source w' = random_source w
  /\ http_sent w' = http_sent w ++ sent.

(** A computation keeps a relation between the states before and after,
    whether it returns or raises. *)
Definition keeps {S A} (R : S -> S -> Prop) (m : M S A) : Prop :=
  forall s, R s (fst (m s)).

(** From a state where session [sid] is active, the run only appends rows
    under [sid] and sends requests. *)
Definition evolves (sid : Z) (s s' : LineFollowerRobot.t * Globals) : Prop :=
  active sid (snd s) -> exists dl, effect sid dl (snd s) (snd s').

(** The tables of readings, commands and events, the requests sent and the
    behaviour of the collector and the generator are the same in [g']. *)
Definition same_rows (g g' : Globals) : Prop :=
  sensor_readings (database (world g')) = sensor_readings (database (world g))
  /\ actuator_commands (database (world g'))
     = actuator_commands (database (world g))
  /\ events (database (world g')) = events (database (world g))
  /\ http_sent (world g') = http_sent (world g)
  /\ server (world g') = server (world g)
  /\ random_source (world g') = random_source (world g).

(** The row [start_session] inserts. *)
Definition new_session_row (sid : Z) (ts : timestamp) : session_row :=
  {| s_id := sid; s_variant_id := VARIANT_ID; s_started_at := ts;
     s_ended_at := None; s_status := "running" |}.

(** The row of a session once [end_session] has run. *)
Definition ended_session_row (sid : Z) (ts ts' : timestamp) (status : string)
  : session_row :=
  {| s_id := sid; s_variant_id := VARIANT_ID; s_started_at := ts;
     s_ended_at := Some ts'; s_status := status |}.

(** The id [start_session] gives to the next session. *)
Definition next_session_id (g : Globals) : Z :=
  next_rowid (map s_id (sessions (database (world g)))).

(** What a whole run leaves behind, from the globals [g] before it to the
    globals [g'] after it: the logger is bound to the new session [sid],
    the [sessions] table has one more row (ended at [ts'] with [status]),
    exactly two statements were run on it, and the rows and requests of
    [dl] were appended. *)
Definition run_summary (g g' : Globals) (sid : Z) (ts ts' : timestamp)
    (status : string) (dl : delta) : Prop :=
  telemetry g' = TelemetryLogger.set_session_id (Some sid) (telemetry g)
  /\ sessions (database (world g'))
     = sessions (database (world g)) ++ [ended_session_row sid ts ts' status]
  /\ session_stmts (sql_log (database (world g')))
     = session_stmts (sql_log (database (world g)))
       ++ [InsertSession VARIANT_ID ts "running";
           UpdateSession ts' status sid]
  /\ map sensor_key (sensor_readings (database (world g')))
     = map sensor_key (sensor_readings (database (world g)))
       ++ map (pair sid) (d_sensors dl)
  /\ map command_key (actuator_commands (database (world g')))
     = map command_key (actuator_commands (database (world g)))
       ++ map (pair sid) (d_commands dl)
  /\ map event_key (events (database (world g')))
     = map event_key (events (database (world g)))
       ++ map (pair sid) (d_events dl)
  /\ http_sent (world g') = http_sent (world g) ++ d_sent dl.

(** The events [follow_line] logs before the loop. *)
Definition entry_events (remote : option Z) : list (string * string) :=
  match remote with
  | None => [("server", "warning"); ("scenario_start_local", "info")]
  | Some _ => [("scenario_start_local", "info")]
  end%string.

(** The terminal status and the closing event, from the outcome of the
    loop. *)
Definition terminal_status {A} (res : result A) : string :=
  match res with
  | Ok _ => "completed"
  | Raise _ => "error"
  end.

Definition closing_event {A} (res : result A) : string * string :=
  match res with
  | Ok _ => ("scenario_end", "info")
  | Raise _ => ("exception", "error")
  end%string.

(** [x] and [y] differ by at most [tol]. *)
Definition close_to (tol x y : Q) : bool :=
  Qle_bool (x - y) tol && Qle_bool (y - x) tol.

(* ================================================================= *)
(** ** The scripted scenario *)

(** The module state after [telemetry.connect()] and
    [telemetry.init_schema()] on an empty store, with a random generator
    that always draws [0.5] (so that every [uniform(-a, a)] is [0]: noise
    disabled) and the collector [srv]. *)
Definition fresh_globals (srv : nat -> request -> http_result) : Globals :=
  {| telemetry :=
       {| TelemetryLogger.db_path := "robot_telemetry.db";
          TelemetryLogger._conn := Some (Connect "robot_telemetry.db");
          TelemetryLogger.session_id := None |};
     world :=
       {| database := empty_db; clock := 0;
          random_source := fun _ => 0.5; random_draws := 0;
          server := srv; http_sent := [] |} |}.

(** A collector that refuses every connection. *)
Definition unreachable : nat -> request -> http_result :=
  fun _ _ => ConnectionFailed.

(** A collector that accepts everything and names the session 7. *)
Definition reachable : nat -> request -> http_result :=
  fun _ _ => Response true (Some 7%Z).

(** The first frame of the scripted scenarios. *)
Definition frame1 : list Q := [0.9; 0.6; 0.2; 0.6; 0.9].

(** The first step of a run on [frame1]: a five-sensor robot fresh from
    [__init__], the local session just opened, no remote session. *)
Definition first_step
  : (LineFollowerRobot.t * Globals) * result (nat * nat * step_locals) :=
  let s0 := (LineFollowerRobot.init 5, fresh_globals unreachable) in
  let s1 := fst (LineFollowerRobot.tele
                   (TelemetryLogger.start_session VARIANT_ID) s0) in
  LineFollowerRobot.follow_step None (0, 0)%nat 1 frame1 s1.

(** The values the first step computes. *)
Definition first_step_locals : option step_locals :=
  match snd first_step with
  | Ok (_, l) => Some l
  | Raise _ => None
  end.

(* ================================================================= *)
(** ** Double precision: the numeric leaves that turn on rounding *)

(** The band test of [TrackState.update] and the column of [_make_line]
    depend on how the last bit of a sum is rounded.  They are embedded a
    second time here over IEEE 754 binary64 numbers (the kernel's
    primitive floats, round to nearest even, as CPython's [float]); a
    decimal literal denotes the nearest binary64 number, as in Python. *)
Module Float64.
Import Floats.
Local Open Scope float_scope.

(** [float(n)] for a non-negative integer below 2^63 (exact below 2^53). *)
Definition of_Z (z : Z) : float := of_uint63 (Uint63.of_Z z).

(** [sum(xs)]: the values added in order, starting from 0, each addition
    rounded (the loop of CPython's [sum] up to version 3.11). *)
Definition py_sum (xs : list float) : float := fold_left add xs 0.

(** [x / n] for a float and an integer: the integer is converted; a zero
    divisor raises. *)
Definition py_div_int (x : float) (n : Z) : result float :=
  if (n =? 0)%Z then Raise ZeroDivisionError else Ok (x / of_Z n).

(** [x / y] for two floats. *)
Definition py_div (x y : float) : result float :=
  if y =? 0 then Raise ZeroDivisionError else Ok (x / y).

(** [min(a, b)] and [max(a, b)]: [b] when it compares below (above) [a]. *)
Definition py_min (a b : float) : float := if b <? a then b else a.

Definition py_max (a b : float) : float := if a <? b then b else a.

(** [int(x)]: truncation toward zero; an infinity raises [OverflowError]
    and a NaN [ValueError]. *)
Definition py_int (x : float) : result Z :=
  match Prim2SF x with
  | S754_zero _ => Ok 0%Z
  | S754_infinity _ => Raise OverflowError
  | S754_nan => Raise ValueError
  | S754_finite s m e =>
      let a := if (0 <=? e)%Z then Z.shiftl (Z.pos m) e
               else Z.shiftr (Z.pos m) (- e) in
      Ok (if s then (- a)%Z else a)
  end.

(** The rational number a finite float stands for. *)
Definition exact (x : float) : Q :=
  match Prim2SF x with
  | S754_finite s m e =>
      ((if s then inject_Z (Z.neg m) else inject_Z (Z.pos m)) * 2 ^ e)%Q
  | _ => 0%Q
  end.

(** [random.uniform(a, b)] when [random()] draws [u]. *)
Definition uniform (a b u : float) : float := a + (b - a) * u.

(** The level [calibrate] stores: [min(1.0, max(0.0, level + noise))]. *)
Definition stored_level (level noise : float) : float :=
  py_min 1 (py_max 0 (level + noise)).

(** One channel of [read_normalized], on the stored levels [w] and [b]
    and the raw value [r]. *)
Definition normalized_channel (w b r : float) : result float :=
  match py_div (r - b) (w - b + 1e-6) with
  | Ok value => Ok (py_max 0 (py_min 1 value))
  | Raise e => Raise e
  end.



End Float64.

(** [TrackState] over binary64. *)
Module TrackState64.
Import Floats.
Local Open Scope float_scope.

(** [avg = sum(normalized_values) / len(normalized_values)] *)
Definition avg (normalized_values : list float) : result float :=
  Float64.py_div_int (Float64.py_sum normalized_values)
                     (Z.of_nat (List.length normalized_values)).

(** [return 0.2 <= avg <= 0.8] *)
Definition update (normalized_values : list float) : result bool :=
  match avg normalized_values with
  | Ok a => Ok ((0.2 <=? a) && (a <=? 0.8))
  | Raise e => Raise e
  end.

End TrackState64.

(* ================================================================= *)
(** ** The line display *)

(** [min(a, b)] and [max(a, b)] on integers. *)
Definition py_min_int (a b : Z) : Z := if (b <? a)%Z then b else a.

Definition py_max_int (a b : Z) : Z := if (a <? b)%Z then b else a.

(** [xs[i] = v] with an integer index: a negative index counts from the
    end. *)
Definition py_setitem_int {A} (xs : list A) (i : Z) (v : A)
  : result (list A) :=
  let j := if (i <? 0)%Z then (Z.of_nat (List.length xs) + i)%Z else i in
  if (j <? 0)%Z then Raise IndexError else py_setitem xs (Z.to_nat j) v.

Section MakeLine.
Import Floats.
Local Open Scope float_scope.

(** [LineFollowerRobot._make_line] (it does not use [self]); [error] is
    a float, so [center + error * center] is computed in binary64 and
    rounded before [int] truncates it. *)
Definition _make_line (error : float) : result string :=
  let scale := 9%Z in
  let center := (scale / 2)%Z in
  match Float64.py_int (Float64.of_Z center + error * Float64.of_Z center) with
  | Raise e => Raise e
  | Ok offset =>
      let offset := py_max_int 0 (py_min_int (scale - 1) offset) in
      let line := repeat " "%string (Z.to_nat scale) in
      match py_setitem_int line offset "|"%string with
      | Ok line' => Ok (String.concat "" line')
      | Raise e => Raise e
      end
  end.

End MakeLine.

(* ================================================================= *)
(** ** The rest of prog.py: the script *)

(** The two scripted scenarios of the [__main__] block. *)
Definition measurements_normal : list (list Q) :=
  [ [0.9; 0.6; 0.2; 0.6; 0.9];
    [0.85; 0.55; 0.25; 0.55; 0.85];
    [0.8; 0.5; 0.3; 0.5; 0.8];
    [0.9; 0.5; 0.25; 0.5; 0.9];
    [0.85; 0.55; 0.3; 0.55; 0.85];
    [0.8; 0.5; 0.25; 0.5; 0.8];
    [0.85; 0.55; 0.25; 0.55; 0.85];
    [0.9; 0.6; 0.2; 0.6; 0.9];
    [0.9; 0.55; 0.25; 0.55; 0.9];
    [0.85; 0.5; 0.3; 0.5; 0.85] ].

Definition measurements_offline : list (list Q) :=
  [ [0.9; 0.6; 0.2; 0.6; 0.9];
    [0.85; 0.55; 0.25; 0.55; 0.85];
    [0.8; 0.5; 0.3; 0.5; 0.8];
    [0.9; 0.5; 0.25; 0.5; 0.9];
    [0.6; 0.3; 0.2; 0.7; 0.9];
    [0.5; 0.25; 0.2; 0.8; 0.95];
    [0.4; 0.2; 0.2; 0.9; 1.0];
    [0.3; 0.15; 0.25; 0.95; 1.0];
    [0.9; 0.9; 0.9; 0.9; 0.9];
    [0.95; 0.95; 0.95; 0.95; 0.95] ].

(** The module-level set-up: [telemetry = TelemetryLogger(...)],
    [telemetry.connect()], [telemetry.init_schema()], on a world whose
    database file holds whatever earlier runs left. *)
Definition module_globals (w : World) : Globals * result unit :=
  let start := (TelemetryLogger.init "robot_telemetry.db", w) in
  let (s, r) := (TelemetryLogger.connect;; TelemetryLogger.init_schema) start in
  ({| telemetry := fst s; world := snd s |}, r).

(** The [__main__] block. *)
Definition main : M (LineFollowerRobot.t * Globals) unit :=
  LineFollowerRobot.calibrate;;
  LineFollowerRobot.follow_line measurements_normal "Робот идёт по линии";;
  LineFollowerRobot.follow_line measurements_offline "Робот сходит с линии";;
  LineFollowerRobot.tele TelemetryLogger.close.

(** The whole script on a world [w]: the robot is built after the module
    set-up. *)
Definition script (w : World) : (LineFollowerRobot.t * Globals) * result unit :=
  match module_globals w with
  | (g, Ok _) => main (LineFollowerRobot.init 5, g)
  | (g, Raise e) => ((LineFollowerRobot.init 5, g), Raise e)
  end.

(* ================================================================= *)
(** ** Further predicates and observations *)

(** Every draw of the random generator lies in [0, 1), as [random()]
    promises. *)
Definition unit_draws (w : World) : Prop :=
  forall k, 0 <= random_source w k /\ random_source w k < 1.

(** The integrity the schema asks of the store: session ids are unique,
    statuses and severities are among the allowed values, and every
    reading, command and event belongs to a session of the store. *)
Definition store_ok (d : DB) : Prop :=
  NoDup (map s_id (sessions d))
  /\ Forall (fun r => check_status (s_status r) = true) (sessions d)
  /\ Forall (fun r => has_session d (r_session_id r) = true) (sensor_readings d)
  /\ Forall (fun c => has_session d (c_session_id c) = true)
            (actuator_commands d)
  /\ Forall (fun e => has_session d (e_session_id e) = true
                      /\ check_severity (e_severity e) = true) (events d).

(** The number of characters [c] in a string. *)
Fixpoint count_char (c : Ascii.ascii) (s : string) : nat :=
  match s with
  | EmptyString => 0
  | String a rest =>
      (if Ascii.eqb a c then 1 else 0) + count_char c rest
  end.

(** The nine-character line with the bar in column [o] (counted from 0). *)
Definition bar_at (o : nat) : string :=
  String.concat "" (repeat " "%string o ++ "|"%string :: repeat " "%string (8 - o)).

(** [w'] is [w] with the requests [sent] sent and nothing else changed:
    neither the store, nor the clock, nor the random generator. *)
Definition only_sent (sent : list request) (w w' : World) : Prop :=
  database w' = database w
  /\ clock w' = clock w
  /\ random_source w' = random_source w
  /\ random_draws w' = random_draws w
  /\ server w' = server w
  /\ http_sent w' = http_sent w ++ sent.

(** The request a forwarding helper sends for a remote session id, if it
    has one. *)
Definition sent_for (sid : option Z) (rq : Z -> request) : list request :=
  match sid with
  | Some i => [rq i]
  | None => []
  end.

(** If the store was sound before, it is sound after. *)
Definition store_kept (s s' : LineFollowerRobot.t * Globals) : Prop :=
  store_ok (database (world (snd s))) ->
  store_ok (database (world (snd s'))).

(** The random generator and the collector behave the same after. *)
Definition sources_kept (s s' : LineFollowerRobot.t * Globals) : Prop :=
  random_source (world (snd s')) = random_source (world (snd s))
  /\ server (world (snd s')) = server (world (snd s)).

(** The calibration of the sensor and the gains of the controller are the
    same after. *)
Definition tuning_kept (s s' : LineFollowerRobot.t * Globals) : Prop :=
  LineFollowerRobot.sensor (fst s') = LineFollowerRobot.sensor (fst s)
  /\ PIDController.kp (LineFollowerRobot.pid (fst s'))
     = PIDController.kp (LineFollowerRobot.pid (fst s))
  /\ PIDController.ki (LineFollowerRobot.pid (fst s'))
     = PIDController.ki (LineFollowerRobot.pid (fst s))
  /\ PIDController.kd (LineFollowerRobot.pid (fst s'))
     = PIDController.kd (LineFollowerRobot.pid (fst s)).

(** What a run leaves alone. *)
Definition run_kept (s s' : LineFollowerRobot.t * Globals) : Prop :=
  tuning_kept s s' /\ sources_kept s s'.

(** The value the [i]-th next call of [random.uniform(a, b)] returns. *)
Definition drawn_uniform (a b : Q) (w : World) (i : nat) : Q :=
  a + (b - a) * random_source w (random_draws w + i).

(** The levels [calibrate] stores for channel [j], from the world it
    starts in: two draws per channel, white first. *)
Definition calibrated_white (white_levels : list Q) (w : World) (j : nat) : Q :=
  py_min 1 (py_max 0 (nth j white_levels 0
                      + drawn_uniform (-0.05) 0 w (2 * j))).

Definition calibrated_black (black_levels : list Q) (w : World) (j : nat) : Q :=
  py_min 1 (py_max 0 (nth j black_levels 0
                      + drawn_uniform 0 0.05 w (2 * j + 1))).

(* ================================================================= *)
(** ** Tactics for running the logger methods *)

Ltac run_logger :=
  unfold TelemetryLogger.log_sensor, TelemetryLogger.log_command,
    TelemetryLogger.log_event, TelemetryLogger.end_session,
    TelemetryLogger.start_session,
    TelemetryLogger.assert_active, TelemetryLogger.assert_conn,
    bind, gets, py_assert, ret, raise, modify, on_world, on_self, sql, zoom,
    utcnow, db_insert_sensor, db_insert_command, db_insert_event,
    db_update_session, db_insert_session; simpl.

Ltac solve_effect :=
  unfold effect, session_stmts; simpl;
  rewrite ?map_app, ?filter_app; simpl; rewrite ?app_nil_r;
  repeat split; reflexivity.

Ltac open_active g H :=
  let tl := fresh "tl" in let w := fresh "w" in
  let c := fresh "c" in
  destruct g as [tl w]; destruct tl as [? c ?];
  destruct H as (Hc & Hs & Hh); unfold connected in Hc; simpl in Hc, Hs, Hh;
  destruct c; [| discriminate]; subst.

Local Open Scope Q_scope.

(* ================================================================= *)
(** * Properties *)

(** ** Monad laws used for symbolic execution *)

Lemma bind_ok {S A B} (m : M S A) (k : A -> M S B) s s' a :
  m s = (s', Ok a) -> bind m k s = k a s'.
Proof. unfold bind; intros ->; reflexivity. Qed.

Lemma bind_raise {S A B} (m : M S A) (k : A -> M S B) s s' e :
  m s = (s', Raise e) -> bind m k s = (s', Raise e).
Proof. unfold bind; intros ->; reflexivity. Qed.

(** ** Python comparisons, [min] and [max] *)

Lemma py_lt_true a b : py_lt a b = true <-> a < b.
Proof.
  unfold py_lt. rewrite negb_true_iff.
  destruct (Qle_bool b a) eqn:E; split; intro H; try discriminate; try reflexivity.
  - apply Qle_bool_iff in E. lra.
  - apply Qnot_le_lt. intro H1. apply Qle_bool_iff in H1. congruence.
Qed.

Lemma py_lt_false a b : py_lt a b = false <-> b <= a.
Proof.
  unfold py_lt. rewrite negb_false_iff. apply Qle_bool_iff.
Qed.

Lemma py_clamp_range lo hi x :
  lo <= hi -> lo <= py_max lo (py_min hi x) <= hi.
Proof.
  intros Hlh. unfold py_max, py_min.
  destruct (py_lt x hi) eqn:E1.
  - apply py_lt_true in E1.
    destruct (py_lt lo x) eqn:E2.
    + apply py_lt_true in E2. lra.
    + lra.
  - destruct (py_lt lo hi) eqn:E2.
    + lra.
    + lra.
Qed.

Lemma py_clamp_spec lo hi x :
  lo <= hi -> py_max lo (py_min hi x) == clamp lo hi x.
Proof.
  intros Hlh. unfold py_max, py_min, clamp.
  destruct (py_lt x hi) eqn:E1.
  - apply py_lt_true in E1.
    destruct (py_lt lo x) eqn:E2.
    + apply py_lt_true in E2.
      destruct (Qle_bool x lo) eqn:E3.
      * apply Qle_bool_iff in E3. lra.
      * destruct (Qle_bool hi x) eqn:E4; [apply Qle_bool_iff in E4; lra | reflexivity].
    + apply py_lt_false in E2.
      destruct (Qle_bool x lo) eqn:E3; [reflexivity|].
      exfalso; apply Qle_bool_iff in E2; congruence.
  - apply py_lt_false in E1.
    destruct (py_lt lo hi) eqn:E2.
    + apply py_lt_true in E2.
      destruct (Qle_bool x lo) eqn:E3.
      * apply Qle_bool_iff in E3. lra.
      * destruct (Qle_bool hi x) eqn:E4; [reflexivity|].
        exfalso; apply Qle_bool_iff in E1; congruence.
    + apply py_lt_false in E2.
      destruct (Qle_bool x lo) eqn:E3; [reflexivity|].
      destruct (Qle_bool hi x) eqn:E4; [lra|].
      exfalso; apply Qle_bool_iff in E1; congruence.
Qed.

Lemma py_div_ok x y : ~ y == 0 -> py_div x y = Ok (x / y).
Proof.
  intro H. unfold py_div. destruct (Qeq_bool y 0) eqn:E; [|reflexivity].
  apply Qeq_bool_iff in E. contradiction.
Qed.

Lemma py_div_zero x y : y == 0 -> py_div x y = Raise ZeroDivisionError.
Proof.
  intro H. unfold py_div. apply Qeq_bool_iff in H. rewrite H. reflexivity.
Qed.

(** One call of [update] with a non-zero [dt]: the new state and the
    value returned. *)
Lemma pid_update_run (self : PIDController.t) (error dt : Q) :
  ~ dt == 0 ->
  PIDController.update error dt self =
    ({| PIDController.kp := PIDController.kp self;
        PIDController.ki := PIDController.ki self;
        PIDController.kd := PIDController.kd self;
        PIDController.prev_error := error;
        PIDController.integral := PIDController.integral self + error * dt |},
     Ok (py_max (-1)
           (py_min 1
              (PIDController.kp self * error
               + PIDController.ki self
                 * (PIDController.integral self + error * dt)
               + PIDController.kd self
                 * ((error - PIDController.prev_error self) / dt))))).
Proof.
  intro Hdt.
  unfold PIDController.update, bind, modify, gets, lift, ret. simpl.
  rewrite py_div_ok by exact Hdt. reflexivity.
Qed.

(** C5: for every error and every [dt > 0], [update] adds [error * dt] to
    the integral, takes [(error - prev_error) / dt] as derivative, returns
    [kp * error + ki * integral + kd * derivative] clamped to [-1, 1] and
    then stores [error] as the previous error; the result lies in
    [-1, 1]. *)
Theorem pid_update_clamped (self : PIDController.t) (error dt : Q) :
  0 < dt ->
  let integral' := PIDController.integral self + error * dt in
  let derivative := (error - PIDController.prev_error self) / dt in
  let output := PIDController.kp self * error
                + PIDController.ki self * integral'
                + PIDController.kd self * derivative in
  exists out,
    PIDController.update error dt self =
      ({| PIDController.kp := PIDController.kp self;
          PIDController.ki := PIDController.ki self;
          PIDController.kd := PIDController.kd self;
          PIDController.prev_error := error;
          PIDController.integral := integral' |}, Ok out)
    /\ out == clamp (-1) 1 output
    /\ -1 <= out <= 1.
Proof.
  intros Hdt integral' derivative output.
  assert (Hnz : ~ dt == 0) by lra.
  exists (py_max (-1) (py_min 1 output)).
  split; [| split].
  - exact (pid_update_run self error dt Hnz).
  - apply py_clamp_spec. lra.
  - apply py_clamp_range. lra.
Qed.

Lemma pid_update_clamped_witness :
  exists out,
    snd (PIDController.update 0.5 PIDController.default_dt
           (PIDController.init 0.8 0.0 0.2)) = Ok out
    /\ -1 <= out <= 1.
Proof.
  assert (Hdt : 0 < PIDController.default_dt) by reflexivity.
  destruct (pid_update_clamped (PIDController.init 0.8 0.0 0.2) 0.5
              PIDController.default_dt Hdt)
    as [out [H1 [_ H3]]].
  exists out. rewrite H1. split; [reflexivity | exact H3].
Defined.

(** ** Sums *)

Lemma fold_left_Qplus_acc (xs : list Q) (a : Q) :
  fold_left Qplus xs a == a + fold_right Qplus 0 xs.
Proof.
  revert a. induction xs as [|x xs IH]; intro a; simpl.
  - lra.
  - rewrite IH. lra.
Qed.

Lemma py_sum_fold_right (xs : list Q) : py_sum xs == fold_right Qplus 0 xs.
Proof. unfold py_sum. rewrite fold_left_Qplus_acc. lra. Qed.

Lemma len_cons_nonzero (v : Q) (vs : list Q) : ~ TrackState.len (v :: vs) == 0.
Proof.
  unfold TrackState.len. simpl List.length.
  unfold Qeq. simpl. lia.
Qed.

Lemma avg_cons (v : Q) (vs : list Q) :
  TrackState.avg (v :: vs)
  = Ok (py_sum (v :: vs) / TrackState.len (v :: vs)).
Proof. unfold TrackState.avg. apply py_div_ok, len_cons_nonzero. Qed.

Lemma avg_is_mean (v : Q) (vs : list Q) :
  py_sum (v :: vs) / TrackState.len (v :: vs) == arithmetic_mean (v :: vs).
Proof.
  unfold arithmetic_mean, TrackState.len.
  rewrite py_sum_fold_right. reflexivity.
Qed.

Lemma update_cons (v : Q) (vs : list Q) :
  TrackState.update (v :: vs)
  = Ok (Qle_bool 0.2 (arithmetic_mean (v :: vs))
        && Qle_bool (arithmetic_mean (v :: vs)) 0.8).
Proof.
  unfold TrackState.update. rewrite avg_cons.
  rewrite (Qleb_comp _ _ (Qeq_refl 0.2) _ _ (avg_is_mean v vs)).
  rewrite (Qleb_comp _ _ (avg_is_mean v vs) _ _ (Qeq_refl 0.8)).
  reflexivity.
Qed.

(** ** [TrackState.update] over binary64 *)

Section Binary64.
Import Floats.





(** Frames whose computed mean is an end point or just outside. *)
Example track_update_computed_boundaries :
  TrackState64.update [0.2]%float = Ok true
  /\ TrackState64.update [0.8; 0.8]%float = Ok true
  /\ TrackState64.update [0.1999]%float = Ok false
  /\ TrackState64.update [0.8001; 0.8001]%float = Ok false
  /\ TrackState64.update [] = Raise ZeroDivisionError.
Proof. repeat split; reflexivity. Qed.

End Binary64.

(** ** Effects: composition *)

Lemma effect_refl sid g : effect sid d_nil g g.
Proof.
  unfold effect; simpl. rewrite !app_nil_r. repeat split; reflexivity.
Qed.

Lemma effect_trans sid d1 d2 g g1 g2 :
  effect sid d1 g g1 -> effect sid d2 g1 g2 -> effect sid (d_app d1 d2) g g2.
Proof.
  unfold effect; simpl.
  intros (A1 & A2 & A3 & A4 & A5 & A6 & A7 & A8 & A9)
         (B1 & B2 & B3 & B4 & B5 & B6 & B7 & B8 & B9).
  rewrite !map_app, !app_assoc.
  rewrite B1, B2, B3, B4, B5, B6, B7, B8, B9, A1, A2, A3, A4, A5, A6, A7, A8, A9.
  repeat split; reflexivity.
Qed.

Lemma active_effect sid dl g g' :
  active sid g -> effect sid dl g g' -> active sid g'.
Proof.
  unfold active, effect, connected.
  intros (H1 & H2 & H3) (E1 & E2 & _).
  unfold has_session in *. rewrite E1, E2. auto.
Qed.

(** ** Calls through the lifting combinators *)

Lemma glob_run {A} (m : M World A) r g w' res :
  m (world g) = (w', res) ->
  LineFollowerRobot.glob m (r, g)
  = ((r, {| telemetry := telemetry g; world := w' |}), res).
Proof.
  intro E. unfold LineFollowerRobot.glob, on_globals, in_world, zoom.
  simpl. rewrite E. reflexivity.
Qed.

Lemma tele_run {A} (m : M (TelemetryLogger.t * World) A) r g tl w' res :
  m (telemetry g, world g) = ((tl, w'), res) ->
  LineFollowerRobot.tele m (r, g)
  = ((r, {| telemetry := tl; world := w' |}), res).
Proof.
  intro E. unfold LineFollowerRobot.tele, on_globals, on_telemetry, zoom.
  simpl. rewrite E. reflexivity.
Qed.

(** ** The logger methods on an active session *)

Lemma log_sensor_active sid g name v u :
  active sid g ->
  exists w',
    TelemetryLogger.log_sensor name v u (telemetry g, world g)
    = ((telemetry g, w'), Ok tt)
    /\ effect sid {| d_sensors := [name]; d_commands := []; d_events := [];
                     d_sent := [] |}
         g {| telemetry := telemetry g; world := w' |}.
Proof.
  intro H. open_active g H.
  run_logger. rewrite Hh. simpl.
  eexists. split; [reflexivity|].
  solve_effect.
Qed.

Lemma log_command_active sid g name v u :
  active sid g ->
  exists w',
    TelemetryLogger.log_command name v u (telemetry g, world g)
    = ((telemetry g, w'), Ok tt)
    /\ effect sid {| d_sensors := []; d_commands := [name]; d_events := [];
                     d_sent := [] |}
         g {| telemetry := telemetry g; world := w' |}.
Proof.
  intro H. open_active g H.
  run_logger. rewrite Hh. simpl.
  eexists. split; [reflexivity|].
  solve_effect.
Qed.

Lemma log_event_active sid g ty sev msg :
  active sid g -> check_severity sev = true ->
  exists w',
    TelemetryLogger.log_event ty sev msg (telemetry g, world g)
    = ((telemetry g, w'), Ok tt)
    /\ effect sid {| d_sensors := []; d_commands := [];
                     d_events := [(ty, sev)]; d_sent := [] |}
         g {| telemetry := telemetry g; world := w' |}.
Proof.
  intros H Hsev. open_active g H.
  run_logger. rewrite Hh, Hsev. simpl.
  eexists. split; [reflexivity|].
  solve_effect.
Qed.

Lemma tele_log_sensor sid r g name v u :
  active sid g ->
  exists g',
    LineFollowerRobot.tele (TelemetryLogger.log_sensor name v u) (r, g)
    = ((r, g'), Ok tt)
    /\ effect sid {| d_sensors := [name]; d_commands := []; d_events := [];
                     d_sent := [] |} g g'.
Proof.
  intro H. destruct (log_sensor_active sid g name v u H) as (w' & E & He).
  eexists. split; [apply tele_run; exact E | exact He].
Qed.

Lemma tele_log_command sid r g name v u :
  active sid g ->
  exists g',
    LineFollowerRobot.tele (TelemetryLogger.log_command name v u) (r, g)
    = ((r, g'), Ok tt)
    /\ effect sid {| d_sensors := []; d_commands := [name]; d_events := [];
                     d_sent := [] |} g g'.
Proof.
  intro H. destruct (log_command_active sid g name v u H) as (w' & E & He).
  eexists. split; [apply tele_run; exact E | exact He].
Qed.

Lemma tele_log_event sid r g ty sev msg :
  active sid g -> check_severity sev = true ->
  exists g',
    LineFollowerRobot.tele (TelemetryLogger.log_event ty sev msg) (r, g)
    = ((r, g'), Ok tt)
    /\ effect sid {| d_sensors := []; d_commands := [];
                     d_events := [(ty, sev)]; d_sent := [] |} g g'.
Proof.
  intros H Hs.
  destruct (log_event_active sid g ty sev msg H Hs) as (w' & E & He).
  eexists. split; [apply tele_run; exact E | exact He].
Qed.

(** ** The world-only functions *)

Lemma quiet_effect sid sent g w' :
  quiet sent (world g) w' ->
  effect sid {| d_sensors := []; d_commands := []; d_events := [];
                d_sent := sent |}
    g {| telemetry := telemetry g; world := w' |}.
Proof.
  intros (Q1 & Q2 & Q3 & Q4). unfold effect; simpl.
  rewrite Q1, Q2, Q3, Q4, !app_nil_r. repeat split; reflexivity.
Qed.

Lemma glob_quiet {A} (m : M World A) sid r g w' res sent :
  m (world g) = (w', res) -> quiet sent (world g) w' ->
  exists g',
    LineFollowerRobot.glob m (r, g) = ((r, g'), res)
    /\ effect sid {| d_sensors := []; d_commands := []; d_events := [];
                     d_sent := sent |} g g'.
Proof.
  intros E Q. eexists. split; [apply glob_run; exact E |].
  apply quiet_effect; exact Q.
Qed.

Lemma random_uniform_quiet a b w :
  exists w' x, random_uniform a b w = (w', Ok x) /\ quiet [] w w'.
Proof.
  do 2 eexists. split; [reflexivity|].
  unfold quiet; simpl. rewrite app_nil_r. repeat split; reflexivity.
Qed.

Lemma post_swallowed rq w :
  exists w',
    try_except (requests_post rq;; ret tt) (fun _ => ret tt) w = (w', Ok tt)
    /\ quiet [rq] w w'.
Proof.
  unfold try_except, bind, requests_post, ret.
  destruct (server w (List.length (http_sent w)) rq); simpl;
    (eexists; split; [reflexivity|]); unfold quiet; simpl;
    repeat split; reflexivity.
Qed.

Lemma quiet_nil w : quiet [] w w.
Proof. unfold quiet. rewrite app_nil_r. repeat split; reflexivity. Qed.

Lemma http_log_sensor_quiet sid ty v u w :
  exists w' sent,
    http_log_sensor sid ty v u w = (w', Ok tt) /\ quiet sent w w'
    /\ (sid = None -> sent = []).
Proof.
  destruct sid as [i|]; simpl.
  - edestruct post_swallowed as (w' & E & Q).
    exists w'. eexists. split; [exact E | split; [exact Q | discriminate]].
  - exists w, []. split; [reflexivity | split; [apply quiet_nil | reflexivity]].
Qed.

Lemma http_log_actuator_quiet sid ty v u w :
  exists w' sent,
    http_log_actuator sid ty v u w = (w', Ok tt) /\ quiet sent w w'
    /\ (sid = None -> sent = []).
Proof.
  destruct sid as [i|]; simpl.
  - edestruct post_swallowed as (w' & E & Q).
    exists w'. eexists. split; [exact E | split; [exact Q | discriminate]].
  - exists w, []. split; [reflexivity | split; [apply quiet_nil | reflexivity]].
Qed.

Lemma http_log_event_quiet sid ty sev msg w :
  exists w' sent,
    http_log_event sid ty sev msg w = (w', Ok tt) /\ quiet sent w w'
    /\ (sid = None -> sent = []).
Proof.
  destruct sid as [i|]; simpl.
  - edestruct post_swallowed as (w' & E & Q).
    exists w'. eexists. split; [exact E | split; [exact Q | discriminate]].
  - exists w, []. split; [reflexivity | split; [apply quiet_nil | reflexivity]].
Qed.

Lemma http_end_session_quiet sid st w :
  exists w' sent,
    http_end_session sid st w = (w', Ok tt) /\ quiet sent w w'
    /\ (sid = None -> sent = []).
Proof.
  destruct sid as [i|]; simpl.
  - edestruct post_swallowed as (w' & E & Q).
    exists w'. eexists. split; [exact E | split; [exact Q | discriminate]].
  - exists w, []. split; [reflexivity | split; [apply quiet_nil | reflexivity]].
Qed.

Lemma http_create_session_quiet w :
  exists w' remote,
    http_create_session w = (w', Ok remote)
    /\ quiet [create_request] w w'
    /\ (creation_fails w = true -> remote = None).
Proof.
  unfold http_create_session, try_except, bind, requests_post, creation_fails.
  fold create_request.
  destruct (server w (List.length (http_sent w)) create_request)
    as [|ok [id|]]; simpl.
  - do 2 eexists. split; [reflexivity|].
    split; [unfold quiet; simpl; repeat split; reflexivity | reflexivity].
  - destruct ok; simpl; do 2 eexists; (split; [reflexivity|]);
      (split; [unfold quiet; simpl; repeat split; reflexivity |]);
      [discriminate | reflexivity].
  - destruct ok; simpl; do 2 eexists; (split; [reflexivity|]);
      (split; [unfold quiet; simpl; repeat split; reflexivity |]);
      reflexivity.
Qed.

(** ** List comprehensions *)

Lemma list_comp_pure {S A B} (xs : list A) (f : A -> M S B) (g : A -> B) s :
  (forall x, In x xs -> f x s = (s, Ok (g x))) ->
  list_comp xs f s = (s, Ok (map g xs)).
Proof.
  induction xs as [|x xs IH]; intro H; cbn [list_comp map].
  - reflexivity.
  - rewrite (bind_ok _ _ _ _ _ (H x (or_introl eq_refl))).
    rewrite (bind_ok _ _ _ _ _ (IH (fun y Hy => H y (or_intror Hy)))).
    reflexivity.
Qed.

Lemma list_comp_length {S A B} (xs : list A) (f : A -> M S B) s s' ys :
  list_comp xs f s = (s', Ok ys) -> List.length ys = List.length xs.
Proof.
  revert s s' ys. induction xs as [|x xs IH]; intros s s' ys; cbn [list_comp].
  - unfold ret. intro E. inversion E. reflexivity.
  - unfold bind at 1. destruct (f x s) as [s1 [y|e]]; [|discriminate].
    unfold bind at 1.
    destruct (list_comp xs f s1) as [s2 [zs|e]] eqn:E2; [|discriminate].
    unfold ret. intro E. inversion E. simpl. f_equal. eapply IH; eauto.
Qed.

Lemma list_comp_frame {S A B} (xs : list A) (f : A -> M S B) s :
  (forall x s0, fst (f x s0) = s0) -> fst (list_comp xs f s) = s.
Proof.
  intro H. revert s. induction xs as [|x xs IH]; intro s; cbn [list_comp].
  - reflexivity.
  - unfold bind at 1. specialize (H x s).
    destruct (f x s) as [s1 [y|e]]; simpl in H; subst; [|reflexivity].
    unfold bind at 1. specialize (IH s).
    destruct (list_comp xs f s) as [s2 [zs|e]]; simpl in IH; subst;
      reflexivity.
Qed.

(** ** [read_normalized] *)

Lemma py_index_nth {A} (xs : list A) (i : nat) (d : A) :
  (i < List.length xs)%nat -> py_index xs i = Ok (nth i xs d).
Proof.
  intro H. unfold py_index.
  destruct (nth_error xs i) eqn:E.
  - f_equal. symmetry. apply nth_error_nth. exact E.
  - apply nth_error_None in E. lia.
Qed.

Lemma py_index_out {A} (xs : list A) (i : nat) :
  (List.length xs <= i)%nat -> py_index xs i = Raise IndexError.
Proof.
  intro H. unfold py_index.
  destruct (nth_error xs i) eqn:E; [|reflexivity].
  assert (nth_error xs i <> None) by congruence.
  apply nth_error_Some in H0. lia.
Qed.

Lemma all2_nth {A B} (f : A -> B -> bool) xs ys i dx dy :
  all2 f xs ys = true -> (i < List.length xs)%nat ->
  f (nth i xs dx) (nth i ys dy) = true.
Proof.
  revert ys i. induction xs as [|x xs IH]; intros [|y ys] i H Hi;
    simpl in *; try discriminate; try lia.
  apply andb_true_iff in H. destruct H as [H1 H2].
  destruct i; [exact H1 | apply IH; [exact H2 | lia]].
Qed.

(** The value [read_normalized] computes for channel [i]. *)
Lemma read_normalized_frame raw self :
  fst (IRLineSensor.read_normalized raw self) = self.
Proof.
  unfold IRLineSensor.read_normalized. unfold bind at 1, gets at 1.
  apply list_comp_frame. intros i s0.
  unfold bind, gets, lift, ret.
  destruct (py_index (IRLineSensor.white s0) i); [|reflexivity].
  destruct (py_index (IRLineSensor.black s0) i); [|reflexivity].
  destruct (py_index raw i); [|reflexivity].
  destruct (py_div _ _); reflexivity.
Qed.

Lemma read_normalized_length raw self self' norm :
  IRLineSensor.read_normalized raw self = (self', Ok norm) ->
  List.length norm = IRLineSensor.n self.
Proof.
  unfold IRLineSensor.read_normalized. unfold bind at 1, gets at 1.
  intro E. apply list_comp_length in E. rewrite E. apply length_seq.
Qed.

Lemma sensor_regular_parts self :
  sensor_regular self = true ->
  List.length (IRLineSensor.white self) = IRLineSensor.n self
  /\ List.length (IRLineSensor.black self) = IRLineSensor.n self
  /\ all2 regular_channel (IRLineSensor.white self) (IRLineSensor.black self)
     = true.
Proof.
  unfold sensor_regular, sensor_shaped.
  rewrite !andb_true_iff, !Nat.eqb_eq. tauto.
Qed.

Lemma read_normalized_regular raw self :
  sensor_regular self = true ->
  (IRLineSensor.n self <= List.length raw)%nat ->
  IRLineSensor.read_normalized raw self
  = (self,
     Ok (map (fun i =>
                py_max 0 (py_min 1
                  ((nth i raw 0 - nth i (IRLineSensor.black self) 0)
                   / (nth i (IRLineSensor.white self) 0
                      - nth i (IRLineSensor.black self) 0
                      + IRLineSensor.epsilon))))
             (seq 0 (IRLineSensor.n self)))).
Proof.
  intros Hreg Hraw.
  destruct (sensor_regular_parts self Hreg) as (Hw & Hb & Hall).
  unfold IRLineSensor.read_normalized. unfold bind at 1, gets at 1.
  apply list_comp_pure. intros i Hi. apply in_seq in Hi.
  unfold bind, gets, lift, ret.
  rewrite (py_index_nth (IRLineSensor.white self) i 0) by lia.
  rewrite (py_index_nth (IRLineSensor.black self) i 0) by lia.
  rewrite (py_index_nth raw i 0) by lia.
  rewrite py_div_ok; [reflexivity|].
  assert (Hr := all2_nth regular_channel _ _ i 0 0 Hall ltac:(lia)).
  unfold regular_channel in Hr. apply negb_true_iff in Hr.
  apply Qeq_bool_neq. exact Hr.
Qed.

(** On a regular calibration every channel is the clamped affine image of
    the raw value and lies between 0 and 1, and the sensor is unchanged. *)
Lemma read_normalized_in_unit_interval raw self :
  sensor_regular self = true ->
  (IRLineSensor.n self <= List.length raw)%nat ->
  exists norm,
    IRLineSensor.read_normalized raw self = (self, Ok norm)
    /\ List.length norm = IRLineSensor.n self
    /\ forall i, (i < IRLineSensor.n self)%nat ->
         nth i norm 0
         == clamp 0 1 ((nth i raw 0 - nth i (IRLineSensor.black self) 0)
                       / (nth i (IRLineSensor.white self) 0
                          - nth i (IRLineSensor.black self) 0
                          + IRLineSensor.epsilon))
         /\ 0 <= nth i norm 0 <= 1.
Proof.
  intros Hreg Hraw. eexists.
  split; [apply read_normalized_regular; assumption|].
  split; [rewrite length_map, length_seq; reflexivity|].
  intros i Hi.
  set (f := fun i : nat => py_max 0 (py_min 1 _)).
  assert (E : nth i (map f (seq 0 (IRLineSensor.n self))) 0 = f i).
  { rewrite (nth_indep _ 0 (f 0%nat)) by (rewrite length_map, length_seq; lia).
    rewrite map_nth, seq_nth by lia. reflexivity. }
  rewrite E. unfold f. split.
  - apply py_clamp_spec. lra.
  - apply py_clamp_range. lra.
Qed.

(** ** The lateral position error *)

Lemma half_span_spec (n : nat) :
  LineFollowerRobot.half_span n == (inject_Z (Z.of_nat n) - 1) / 2.
Proof.
  unfold LineFollowerRobot.half_span.
  unfold Zminus. rewrite inject_Z_plus, inject_Z_opp.
  change (inject_Z 1) with 1. unfold Qminus. reflexivity.
Qed.

Lemma half_span_nonzero (n : nat) :
  n <> 1%nat -> ~ LineFollowerRobot.half_span n == 0.
Proof.
  intros Hn H. unfold LineFollowerRobot.half_span in H.
  unfold Qeq, Qdiv, Qmult, Qinv, inject_Z in H. simpl in H. lia.
Qed.

Lemma position_terms (c : Q) (norm : list Q) (k : nat) :
  fold_right Qplus 0
    (map (fun i => (inject_Z (Z.of_nat i) - c) * (1 - nth (i - k) norm 0))
         (seq k (List.length norm)))
  == weighted_sum c k norm.
Proof.
  revert k. induction norm as [|x norm IH]; intro k.
  - reflexivity.
  - cbn [List.length seq map fold_right weighted_sum].
    rewrite Nat.sub_diag. change (nth 0 (x :: norm) 0) with x.
    rewrite <- (IH (S k)).
    apply Qplus_comp; [reflexivity|].
    assert (E : map (fun i => (inject_Z (Z.of_nat i) - c)
                              * (1 - nth (i - k) (x :: norm) 0))
                    (seq (S k) (List.length norm))
                = map (fun i => (inject_Z (Z.of_nat i) - c)
                                * (1 - nth (i - S k) norm 0))
                      (seq (S k) (List.length norm))).
    { apply map_ext_in. intros i Hi. apply in_seq in Hi.
      replace (i - k)%nat with (S (i - S k)) by lia. reflexivity. }
    rewrite E. reflexivity.
Qed.

Lemma position_run {S} (n : nat) (norm : list Q) (s : S) :
  (n <= List.length norm)%nat ->
  LineFollowerRobot.position n norm s
  = (s, Ok (py_sum (map (fun i => (inject_Z (Z.of_nat i)
                                   - LineFollowerRobot.half_span n)
                                  * (1 - nth i norm 0))
                        (seq 0 n)))).
Proof.
  intro H. unfold LineFollowerRobot.position.
  erewrite bind_ok; [reflexivity|].
  apply list_comp_pure. intros i Hi. apply in_seq in Hi.
  unfold bind, lift, ret. rewrite (py_index_nth norm i 0) by lia.
  reflexivity.
Qed.

Lemma fold_right_Qplus_ext (xs ys : list Q) :
  Forall2 Qeq xs ys -> fold_right Qplus 0 xs == fold_right Qplus 0 ys.
Proof.
  induction 1; simpl; [reflexivity|]. rewrite H, IHForall2. reflexivity.
Qed.

Lemma weighted_sum_ext (c c' : Q) (norm : list Q) (k : nat) :
  c == c' -> weighted_sum c k norm == weighted_sum c' k norm.
Proof.
  intro E. revert k. induction norm as [|x norm IH]; intro k; simpl.
  - reflexivity.
  - rewrite IH, E. reflexivity.
Qed.

Lemma position_value (n : nat) (norm : list Q) :
  List.length norm = n ->
  py_sum (map (fun i => (inject_Z (Z.of_nat i)
                         - LineFollowerRobot.half_span n)
                        * (1 - nth i norm 0))
              (seq 0 n))
  == weighted_sum ((inject_Z (Z.of_nat n) - 1) / 2) 0 norm.
Proof.
  intro Hn. rewrite py_sum_fold_right.
  rewrite <- (weighted_sum_ext _ _ norm 0 (half_span_spec n)).
  rewrite <- position_terms. subst n.
  apply fold_right_Qplus_ext.
  induction (seq 0 (List.length norm)) as [|i l IH]; simpl; constructor.
  - rewrite Nat.sub_0_r. reflexivity.
  - exact IH.
Qed.

(** The lateral error on a vector with a value for each of the [N]
    sensors: the computation returns and leaves the state alone. *)
Lemma lateral_error_run (S : Type) (N : nat) (norm : list Q) (s : S) :
  (N <= List.length norm)%nat ->
  LineFollowerRobot.lateral_error N norm s
  = (s,
     Ok (if (Z.of_nat N - 1 =? 0)%Z then 0
         else py_sum (map (fun i => (inject_Z (Z.of_nat i)
                                     - LineFollowerRobot.half_span N)
                                    * (1 - nth i norm 0))
                          (seq 0 N))
              / LineFollowerRobot.half_span N)).
Proof.
  intro Hn. unfold LineFollowerRobot.lateral_error.
  rewrite (bind_ok _ _ _ _ _ (position_run N norm s Hn)).
  unfold LineFollowerRobot.error_of.
  destruct (Z.of_nat N - 1 =? 0)%Z eqn:Ez; [reflexivity|].
  unfold lift. rewrite py_div_ok; [reflexivity|].
  apply half_span_nonzero. apply Z.eqb_neq in Ez. lia.
Qed.

(** C3: for [N] sensors and a normalized vector of [N] values the lateral
    error [follow_line] computes is the weighted sum over the sensor index
    divided by [(N - 1)/2], and 0 when [N = 1]; the computation returns
    (no division by zero) and leaves the state alone. *)
Theorem lateral_error_is_weighted_sum
    (S : Type) (N : nat) (norm : list Q) (s : S) :
  List.length norm = N ->
  exists e,
    LineFollowerRobot.lateral_error N norm s = (s, Ok e)
    /\ e == spec_lateral_error N norm
    /\ (N = 1%nat -> e == 0).
Proof.
  intro Hn. eexists.
  split; [apply lateral_error_run; lia|].
  unfold spec_lateral_error.
  destruct (Nat.eqb_spec N 1) as [E1|E1].
  - subst N. rewrite E1. simpl. split; [reflexivity | intros _; reflexivity].
  - assert (Ez : (Z.of_nat N - 1 =? 0)%Z = false) by (apply Z.eqb_neq; lia).
    rewrite Ez. split; [|intro; contradiction].
    rewrite (position_value N norm Hn), half_span_spec. reflexivity.
Qed.

Lemma lateral_error_is_weighted_sum_witness :
  exists e,
    LineFollowerRobot.lateral_error 3 [1; 1; 0] tt = (tt, Ok e)
    /\ e == spec_lateral_error 3 [1; 1; 0].
Proof.
  destruct (lateral_error_is_weighted_sum unit 3 [1; 1; 0] tt eq_refl)
    as (e & H1 & H2 & _).
  exists e. split; assumption.
Defined.

(** ** One step of the loop on a regular sensor *)

Lemma self_sensor_run {A} (m : M IRLineSensor.t A) r g res :
  m (LineFollowerRobot.sensor r) = (LineFollowerRobot.sensor r, res) ->
  LineFollowerRobot.self_sensor m (r, g) = ((r, g), res).
Proof.
  intro E. unfold LineFollowerRobot.self_sensor, on_self, zoom. simpl.
  rewrite E. destruct r; reflexivity.
Qed.

Lemma self_pid_run {A} (m : M PIDController.t A) r g p' res :
  m (LineFollowerRobot.pid r) = (p', res) ->
  LineFollowerRobot.self_pid m (r, g)
  = ((LineFollowerRobot.set_pid p' r, g), res).
Proof.
  intro E. unfold LineFollowerRobot.self_pid, on_self, zoom. simpl.
  rewrite E. reflexivity.
Qed.

Lemma effect_eq sid d d' g g' : effect sid d g g' -> d = d' -> effect sid d' g g'.
Proof. intros H <-. exact H. Qed.

Lemma noisy_run sid r g (raw : list Q) :
  exists g' noisy,
    list_comp raw (fun v =>
      noise <- LineFollowerRobot.glob (random_uniform (-0.05) 0.05);;
      ret (py_max 0 (py_min 1 (v + noise)))) (r, g)
    = ((r, g'), Ok noisy)
    /\ List.length noisy = List.length raw
    /\ effect sid d_nil g g'.
Proof.
  revert g. induction raw as [|v raw IH]; intro g; cbn [list_comp].
  - exists g, []. split; [reflexivity | split; [reflexivity | apply effect_refl]].
  - destruct (random_uniform_quiet (-0.05) 0.05 (world g)) as (w' & x & E & Q).
    destruct (glob_quiet _ sid r g w' _ [] E Q) as (g1 & E1 & H1).
    unfold bind at 1. unfold bind at 1. rewrite E1. unfold ret at 1.
    destruct (IH g1) as (g2 & noisy & E2 & L2 & H2).
    unfold bind at 1. rewrite E2. unfold ret.
    exists g2. eexists. split; [reflexivity|].
    split; [simpl; rewrite L2; reflexivity|].
    exact (effect_trans sid _ _ _ _ _ H1 H2).
Qed.

Lemma log_batch sid remote r g (norm : list Q) (k : nat) :
  active sid g ->
  exists g' sent,
    for_each (enumerate k norm) (fun iv =>
      let name := ("IR_" ++ str_nat (fst iv + 1))%string in
      LineFollowerRobot.tele
        (TelemetryLogger.log_sensor name (snd iv) "норм");;
      LineFollowerRobot.glob
        (http_log_sensor remote name (snd iv) "норм")) (r, g)
    = ((r, g'), Ok tt)
    /\ effect sid
         {| d_sensors := map (fun i => ("IR_" ++ str_nat (i + 1))%string)
                             (seq k (List.length norm));
            d_commands := []; d_events := []; d_sent := sent |} g g'
    /\ (remote = None -> sent = []).
Proof.
  cbv zeta. revert g k. induction norm as [|v norm IH]; intros g k Ha;
    cbn [enumerate for_each].
  - exists g, []. split; [reflexivity|]. split; [apply effect_refl | reflexivity].
  - cbn [fst snd].
    destruct (tele_log_sensor sid r g ("IR_" ++ str_nat (k + 1))%string v
                "норм"%string Ha) as (g1 & E1 & H1).
    destruct (http_log_sensor_quiet remote ("IR_" ++ str_nat (k + 1))%string v
                "норм"%string (world g1)) as (w2 & sent1 & E2 & Q2 & N2).
    destruct (glob_quiet _ sid r g1 w2 _ sent1 E2 Q2) as (g2 & E2' & H2).
    unfold bind at 1. unfold bind at 1. rewrite E1, E2'.
    assert (Ha2 : active sid g2).
    { eapply active_effect; [|exact H2]. eapply active_effect; eauto. }
    destruct (IH g2 (S k) Ha2) as (g3 & sent2 & E3 & H3 & N3).
    rewrite E3. exists g3, (sent1 ++ sent2).
    split; [reflexivity|]. split.
    + eapply effect_eq.
      * exact (effect_trans sid _ _ _ _ _
                 (effect_trans sid _ _ _ _ _ H1 H2) H3).
      * unfold d_app; simpl. reflexivity.
    + intro Hn. rewrite (N2 Hn), (N3 Hn). reflexivity.
Qed.

Lemma drive_active sid (r : LineFollowerRobot.t) g (base diff : Q) :
  active sid g ->
  exists g',
    on_globals (MotorPair.drive base diff) (r, g)
    = ((r, g'),
       Ok (py_max (-1) (py_min 1 (base - diff)),
           py_max (-1) (py_min 1 (base + diff))))
    /\ effect sid {| d_sensors := []; d_commands := ["Motor_L"; "Motor_R"]%string;
                     d_events := []; d_sent := [] |} g g'.
Proof.
  intro Ha.
  destruct (log_command_active sid g "Motor_L"
              (py_max (-1) (py_min 1 (base - diff))) "sent" Ha)
    as (w1 & E1 & H1).
  assert (Ha1 := active_effect sid _ _ _ Ha H1).
  destruct (log_command_active sid _ "Motor_R"
              (py_max (-1) (py_min 1 (base + diff))) "sent" Ha1)
    as (w2 & E2 & H2).
  simpl in E2.
  exists {| telemetry := telemetry g; world := w2 |}.
  split.
  - unfold on_globals, MotorPair.drive, on_telemetry, zoom, bind. simpl.
    rewrite E1. simpl. rewrite E2. reflexivity.
  - eapply effect_eq; [exact (effect_trans sid _ _ _ _ _ H1 H2) | reflexivity].
Qed.

Lemma update_nonempty (norm : list Q) :
  (1 <= List.length norm)%nat -> exists b, TrackState.update norm = Ok b.
Proof.
  destruct norm as [|v vs]; simpl; [lia|]. intros _.
  eexists. apply update_cons.
Qed.

Lemma follow_step_regular sid remote counts step raw r g :
  active sid g ->
  sensor_regular (LineFollowerRobot.sensor r) = true ->
  (1 <= IRLineSensor.n (LineFollowerRobot.sensor r))%nat ->
  (IRLineSensor.n (LineFollowerRobot.sensor r) <= List.length raw)%nat ->
  exists r' g' counts' loc evs sent,
    LineFollowerRobot.follow_step remote counts step raw (r, g)
    = ((r', g'), Ok (counts', loc))
    /\ LineFollowerRobot.sensor r' = LineFollowerRobot.sensor r
    /\ effect sid
         {| d_sensors := ir_names (IRLineSensor.n (LineFollowerRobot.sensor r));
            d_commands := ["Motor_L"; "Motor_R"]%string;
            d_events := evs; d_sent := sent |} g g'
    /\ (remote = None -> sent = [])
    /\ evs = (if l_on_track loc then []
              else [("line_tracking", "warning")]%string)
    /\ (fst counts' + snd counts' = fst counts + snd counts + 1)%nat.
Proof.
  intros Ha Hreg Hn1 Hraw.
  unfold LineFollowerRobot.follow_step. cbv zeta.
  (* noise *)
  destruct (noisy_run sid r g raw) as (g1 & noisy & E1 & L1 & H1).
  rewrite (bind_ok _ _ _ _ _ E1).
  assert (Ha1 := active_effect sid _ _ _ Ha H1).
  (* normalisation *)
  assert (Hnoisy : (IRLineSensor.n (LineFollowerRobot.sensor r)
                    <= List.length noisy)%nat) by lia.
  assert (E2 := read_normalized_regular noisy _ Hreg Hnoisy).
  set (norm := map _ (seq 0 _)) in E2.
  assert (Hlen : List.length norm = IRLineSensor.n (LineFollowerRobot.sensor r)).
  { unfold norm. rewrite length_map, length_seq. reflexivity. }
  rewrite (bind_ok _ _ _ _ _ (self_sensor_run _ r g1 _ E2)).
  (* sensor readings *)
  destruct (log_batch sid remote r g1 norm 0 Ha1) as (g2 & sent2 & E3 & H2 & N2).
  cbv zeta in E3. rewrite (bind_ok _ _ _ _ _ E3).
  rewrite Hlen in H2. fold (ir_names (IRLineSensor.n (LineFollowerRobot.sensor r))) in H2.
  assert (Ha2 := active_effect sid _ _ _ Ha1 H2).
  unfold bind at 1, gets at 1. cbn [fst].
  (* error and PID *)
  assert (E4 := lateral_error_run _ (IRLineSensor.n (LineFollowerRobot.sensor r))
                  norm (r, g2) ltac:(lia)).
  set (e := if (_ =? 0)%Z then _ else _) in E4.
  rewrite (bind_ok _ _ _ _ _ E4).
  assert (Hdt : ~ PIDController.default_dt == 0) by discriminate.
  assert (E5 := pid_update_run (LineFollowerRobot.pid r) e _ Hdt).
  set (out := py_max (-1) (py_min 1 _)) in E5.
  rewrite (bind_ok _ _ _ _ _ (self_pid_run _ r g2 _ _ E5)).
  set (r' := LineFollowerRobot.set_pid _ r).
  (* classification *)
  destruct (update_nonempty norm ltac:(lia)) as (b & E6).
  unfold bind at 1, lift at 1. rewrite E6.
  destruct b.
  - unfold bind at 1, ret at 1.
    destruct (drive_active sid r' g2 0.5 out Ha2) as (g3 & E7 & H3).
    rewrite (bind_ok _ _ _ _ _ E7). cbn [fst snd].
    assert (Ha3 := active_effect sid _ _ _ Ha2 H3).
    destruct (http_log_actuator_quiet remote "Motor_L"
                (py_max (-1) (py_min 1 (0.5 - out))) "sent" (world g3))
      as (w4 & sent4 & E8 & Q4 & N4).
    destruct (glob_quiet _ sid r' g3 w4 _ sent4 E8 Q4) as (g4 & E8' & H4).
    rewrite (bind_ok _ _ _ _ _ E8').
    destruct (http_log_actuator_quiet remote "Motor_R"
                (py_max (-1) (py_min 1 (0.5 + out))) "sent" (world g4))
      as (w5 & sent5 & E9 & Q5 & N5).
    destruct (glob_quiet _ sid r' g4 w5 _ sent5 E9 Q5) as (g5 & E9' & H5).
    rewrite (bind_ok _ _ _ _ _ E9'). unfold ret.
    exists r', g5. do 2 eexists. exists [], (sent2 ++ sent4 ++ sent5).
    split; [reflexivity|]. split; [reflexivity|]. split; [|split; [|split]].
    + eapply effect_eq.
      * exact (effect_trans sid _ _ _ _ _ H1
                (effect_trans sid _ _ _ _ _ H2
                  (effect_trans sid _ _ _ _ _ H3
                    (effect_trans sid _ _ _ _ _ H4 H5)))).
      * unfold d_app, d_nil; simpl. rewrite ?app_nil_r. reflexivity.
    + intro Hr. rewrite (N2 Hr), (N4 Hr), (N5 Hr). reflexivity.
    + reflexivity.
    + simpl. lia.
  - destruct (tele_log_event sid r' g2 "line_tracking" "warning"
                ("Сошёл с линии на шаге " ++ str_nat step) Ha2 eq_refl)
      as (g3 & E7 & H3).
    assert (Ha3 := active_effect sid _ _ _ Ha2 H3).
    destruct (http_log_event_quiet remote "line_tracking" "warning"
                ("Сошёл с линии на шаге " ++ str_nat step) (world g3))
      as (w4 & sent4 & E8 & Q4 & N4).
    destruct (glob_quiet _ sid r' g3 w4 _ sent4 E8 Q4) as (g4 & E8' & H4).
    assert (Ha4 := active_effect sid _ _ _ Ha3 H4).
    unfold bind at 1. unfold bind at 1. rewrite E7.
    unfold bind at 1. rewrite E8'. unfold ret at 1.
    destruct (drive_active sid r' g4 0.5 out Ha4) as (g5 & E9 & H5).
    rewrite (bind_ok _ _ _ _ _ E9). cbn [fst snd].
    destruct (http_log_actuator_quiet remote "Motor_L"
                (py_max (-1) (py_min 1 (0.5 - out))) "sent" (world g5))
      as (w6 & sent6 & E10 & Q6 & N6).
    destruct (glob_quiet _ sid r' g5 w6 _ sent6 E10 Q6) as (g6 & E10' & H6).
    rewrite (bind_ok _ _ _ _ _ E10').
    destruct (http_log_actuator_quiet remote "Motor_R"
                (py_max (-1) (py_min 1 (0.5 + out))) "sent" (world g6))
      as (w7 & sent7 & E11 & Q7 & N7).
    destruct (glob_quiet _ sid r' g6 w7 _ sent7 E11 Q7) as (g7 & E11' & H7).
    rewrite (bind_ok _ _ _ _ _ E11'). unfold ret.
    exists r', g7. do 2 eexists.
    exists [("line_tracking", "warning")]%string,
           (sent2 ++ sent4 ++ sent6 ++ sent7).
    split; [reflexivity|]. split; [reflexivity|]. split; [|split; [|split]].
    + eapply effect_eq.
      * exact (effect_trans sid _ _ _ _ _ H1
                (effect_trans sid _ _ _ _ _ H2
                  (effect_trans sid _ _ _ _ _ H3
                    (effect_trans sid _ _ _ _ _ H4
                      (effect_trans sid _ _ _ _ _ H5
                        (effect_trans sid _ _ _ _ _ H6 H7)))))).
      * unfold d_app, d_nil; simpl. rewrite ?app_nil_r. reflexivity.
    + intro Hr. rewrite (N2 Hr), (N4 Hr), (N6 Hr), (N7 Hr). reflexivity.
    + reflexivity.
    + simpl. lia.
Qed.

(** ** The loop on a regular sensor *)

Lemma frames_fit_cons n raw ms :
  frames_fit n (raw :: ms) = true ->
  (n <= List.length raw)%nat /\ frames_fit n ms = true.
Proof.
  unfold frames_fit; simpl. rewrite andb_true_iff, Nat.leb_le. tauto.
Qed.

Lemma follow_steps_regular sid remote ms :
  forall k counts r g,
  active sid g ->
  sensor_regular (LineFollowerRobot.sensor r) = true ->
  (1 <= IRLineSensor.n (LineFollowerRobot.sensor r))%nat ->
  frames_fit (IRLineSensor.n (LineFollowerRobot.sensor r)) ms = true ->
  exists r' g' counts' evs sent,
    LineFollowerRobot.follow_steps remote counts (enumerate k ms) (r, g)
    = ((r', g'), Ok counts')
    /\ LineFollowerRobot.sensor r' = LineFollowerRobot.sensor r
    /\ effect sid
         {| d_sensors :=
              List.concat (repeat (ir_names (IRLineSensor.n
                                          (LineFollowerRobot.sensor r)))
                             (List.length ms));
            d_commands :=
              List.concat (repeat ["Motor_L"; "Motor_R"]%string (List.length ms));
            d_events := evs; d_sent := sent |} g g'
    /\ (remote = None -> sent = [])
    /\ Forall (fun e => e = ("line_tracking", "warning")%string) evs
    /\ (fst counts' + snd counts'
        = fst counts + snd counts + List.length ms)%nat.
Proof.
  induction ms as [|raw ms IH]; intros k counts r g Ha Hreg Hn Hfit;
    cbn [enumerate LineFollowerRobot.follow_steps].
  - exists r, g, counts, [], []. unfold ret.
    split; [reflexivity|]. split; [reflexivity|].
    split; [apply effect_refl|]. split; [reflexivity|].
    split; [constructor | simpl; lia].
  - apply frames_fit_cons in Hfit. destruct Hfit as [Hraw Hfit].
    destruct (follow_step_regular sid remote counts k raw r g Ha Hreg Hn Hraw)
      as (r1 & g1 & c1 & loc & evs1 & sent1 & E1 & S1 & H1 & N1 & V1 & C1).
    rewrite (bind_ok _ _ _ _ _ E1). cbn [fst].
    assert (Ha1 := active_effect sid _ _ _ Ha H1).
    rewrite <- S1 in Hreg, Hn, Hfit.
    destruct (IH (S k) c1 r1 g1 Ha1 Hreg Hn Hfit)
      as (r2 & g2 & c2 & evs2 & sent2 & E2 & S2 & H2 & N2 & V2 & C2).
    rewrite E2. exists r2, g2, c2, (evs1 ++ evs2), (sent1 ++ sent2).
    split; [reflexivity|]. split; [congruence|].
    split; [|split; [|split]].
    + rewrite S1 in H2.
      eapply effect_eq; [exact (effect_trans sid _ _ _ _ _ H1 H2)|].
      unfold d_app; simpl. reflexivity.
    + intro Hr. rewrite (N1 Hr), (N2 Hr). reflexivity.
    + apply Forall_app. split; [|exact V2].
      subst evs1. destruct (l_on_track loc); repeat constructor.
    + simpl. lia.
Qed.

(** ** Opening and closing the local session *)

Lemma fold_max_bound (ids : list Z) :
  Forall (fun i => (i <= fold_right Z.max 0 ids)%Z) ids.
Proof.
  induction ids as [|i ids IH]; constructor; simpl.
  - lia.
  - eapply Forall_impl; [|exact IH]. simpl. intros. lia.
Qed.

Lemma next_rowid_fresh (rows : list session_row) :
  Forall (fun r => (s_id r =? next_rowid (map s_id rows))%Z = false) rows.
Proof.
  assert (H := fold_max_bound (map s_id rows)).
  rewrite Forall_map in H. unfold next_rowid.
  eapply Forall_impl; [|exact H]. simpl. intros r Hr.
  apply Z.eqb_neq. lia.
Qed.

Lemma update_fresh_rows ts st sid (rows : list session_row) :
  Forall (fun r => (s_id r =? sid)%Z = false) rows ->
  map (update_session_row ts st sid) rows = rows.
Proof.
  induction 1 as [|r rows Hr _ IH]; simpl; [reflexivity|].
  unfold update_session_row at 1. rewrite Hr, IH. reflexivity.
Qed.

Lemma start_session_connected g :
  connected g = true ->
  exists w',
    TelemetryLogger.start_session VARIANT_ID (telemetry g, world g)
    = ((TelemetryLogger.set_session_id (Some (next_session_id g))
          (telemetry g), w'),
       Ok (next_session_id g))
    /\ same_rows g {| telemetry := telemetry g; world := w' |}
    /\ sessions (database w')
       = sessions (database (world g))
         ++ [new_session_row (next_session_id g) (clock (world g))]
    /\ sql_log (database w')
       = sql_log (database (world g))
         ++ [InsertSession VARIANT_ID (clock (world g)) "running"].
Proof.
  intro Hc. destruct g as [tl w]. destruct tl as [p c s].
  unfold connected in Hc; simpl in Hc. destruct c; [|discriminate].
  run_logger. eexists. split; [reflexivity|].
  unfold same_rows; simpl. repeat split; reflexivity.
Qed.

Lemma end_session_active sid g st :
  active sid g -> check_status st = true ->
  exists w',
    TelemetryLogger.end_session st (telemetry g, world g)
    = ((telemetry g, w'), Ok tt)
    /\ same_rows g {| telemetry := telemetry g; world := w' |}
    /\ sessions (database w')
       = map (update_session_row (clock (world g)) st sid)
             (sessions (database (world g)))
    /\ sql_log (database w')
       = sql_log (database (world g))
         ++ [UpdateSession (clock (world g)) st sid].
Proof.
  intros H Hst. open_active g H.
  run_logger. rewrite Hst. simpl.
  eexists. split; [reflexivity|].
  unfold same_rows; simpl. repeat split; reflexivity.
Qed.

(** ** The entry of [follow_line] *)

Lemma tele_start_session r g :
  connected g = true ->
  exists g1,
    LineFollowerRobot.tele (TelemetryLogger.start_session VARIANT_ID) (r, g)
    = ((r, g1), Ok (next_session_id g))
    /\ telemetry g1
       = TelemetryLogger.set_session_id (Some (next_session_id g)) (telemetry g)
    /\ active (next_session_id g) g1
    /\ same_rows g g1
    /\ sessions (database (world g1))
       = sessions (database (world g))
         ++ [new_session_row (next_session_id g) (clock (world g))]
    /\ sql_log (database (world g1))
       = sql_log (database (world g))
         ++ [InsertSession VARIANT_ID (clock (world g)) "running"].
Proof.
  intro Hc. destruct (start_session_connected g Hc) as (w' & E & R & S & L).
  eexists. split; [apply tele_run; exact E|]. split; [reflexivity|].
  split; [|split; [exact R | split; [exact S | exact L]]].
  unfold active, connected, has_session; simpl.
  unfold connected in Hc. split; [exact Hc|]. split; [reflexivity|].
  rewrite S, existsb_app. simpl. rewrite Z.eqb_refl, orb_true_r. reflexivity.
Qed.

Lemma creation_fails_same g g1 :
  same_rows g g1 -> creation_fails (world g1) = creation_fails (world g).
Proof.
  intros (_ & _ & _ & H1 & H2 & _). unfold creation_fails.
  rewrite H1, H2. reflexivity.
Qed.

Lemma follow_line_entry_run label r g :
  connected g = true ->
  exists g1 g2 remote evs,
    LineFollowerRobot.tele (TelemetryLogger.start_session VARIANT_ID) (r, g)
    = ((r, g1), Ok (next_session_id g))
    /\ telemetry g1
       = TelemetryLogger.set_session_id (Some (next_session_id g)) (telemetry g)
    /\ active (next_session_id g) g1
    /\ same_rows g g1
    /\ sessions (database (world g1))
       = sessions (database (world g))
         ++ [new_session_row (next_session_id g) (clock (world g))]
    /\ sql_log (database (world g1))
       = sql_log (database (world g))
         ++ [InsertSession VARIANT_ID (clock (world g)) "running"]
    /\ LineFollowerRobot.follow_line_entry label (r, g)
       = ((r, g2), Ok remote)
    /\ effect (next_session_id g)
         {| d_sensors := []; d_commands := []; d_events := evs;
            d_sent := create_request
                      :: match remote with
                         | None => []
                         | Some i =>
                             [{| url := BASE ++ "/sessions/" ++ str_Z i
                                        ++ "/events";
                                 payload :=
                                   [("event_type"%string, JStr "scenario_start");
                                    ("severity"%string, JStr "info");
                                    ("message"%string,
                                     JStr ("Начало сценария: " ++ label))] |}]
                         end |} g1 g2
    /\ evs = match remote with
             | None => [("server", "warning"); ("scenario_start_local", "info")]
             | Some _ => [("scenario_start_local", "info")]
             end%string
    /\ (creation_fails (world g) = true -> remote = None).
Proof.
  intro Hc. set (sid := next_session_id g).
  destruct (tele_start_session r g Hc) as (g1 & E1 & T1 & Ha1 & R1 & S1 & L1).
  fold sid in E1, T1, Ha1, S1.
  unfold LineFollowerRobot.follow_line_entry.
  rewrite (bind_ok _ _ _ _ _ E1).
  destruct (http_create_session_quiet (world g1)) as (w2 & remote & E2 & Q2 & F2).
  destruct (glob_quiet _ sid r g1 w2 _ _ E2 Q2) as (g2 & E2' & H2).
  rewrite (bind_ok _ _ _ _ _ E2').
  assert (Ha2 := active_effect sid _ _ _ Ha1 H2).
  rewrite (creation_fails_same g g1 R1) in F2.
  destruct remote as [i|].
  - unfold http_log_event.
    destruct (post_swallowed
                {| url := BASE ++ "/sessions/" ++ str_Z i ++ "/events";
                   payload :=
                     [("event_type"%string, JStr "scenario_start");
                      ("severity"%string, JStr "info");
                      ("message"%string,
                       JStr ("Начало сценария: " ++ label))] |} (world g2))
      as (w3 & E3 & Q3).
    destruct (glob_quiet _ sid r g2 w3 _ _ E3 Q3) as (g3 & E3' & H3).
    rewrite (bind_ok _ _ _ _ _ E3').
    assert (Ha3 := active_effect sid _ _ _ Ha2 H3).
    destruct (tele_log_event sid r g3 "scenario_start_local" "info"
                ("Начало сценария локально: " ++ label) Ha3 eq_refl)
      as (g4 & E4 & H4).
    rewrite (bind_ok _ _ _ _ _ E4). unfold ret.
    exists g1, g4, (Some i). eexists.
    repeat (split; [first [reflexivity | assumption]|]).
    split; [|split; [reflexivity | exact F2]].
    eapply effect_eq;
      [exact (effect_trans sid _ _ _ _ _ H2 (effect_trans sid _ _ _ _ _ H3 H4))
      | reflexivity].
  - destruct (tele_log_event sid r g2 "server" "warning"
                "Не удалось подключиться к серверу телеметрии; записи будут только локально"
                Ha2 eq_refl) as (g3 & E3 & H3).
    rewrite (bind_ok _ _ _ _ _ E3).
    assert (Ha3 := active_effect sid _ _ _ Ha2 H3).
    destruct (tele_log_event sid r g3 "scenario_start_local" "info"
                ("Начало сценария локально: " ++ label) Ha3 eq_refl)
      as (g4 & E4 & H4).
    rewrite (bind_ok _ _ _ _ _ E4). unfold ret.
    exists g1, g4, None. eexists.
    repeat (split; [first [reflexivity | assumption]|]).
    split; [|split; [reflexivity | reflexivity]].
    eapply effect_eq;
      [exact (effect_trans sid _ _ _ _ _ H2 (effect_trans sid _ _ _ _ _ H3 H4))
      | reflexivity].
Qed.

(** ** Closing the run: the last four calls of either path *)

Lemma same_rows_effect g g' :
  same_rows g g' ->
  telemetry g' = telemetry g ->
  map sensor_key (sensor_readings (database (world g')))
  = map sensor_key (sensor_readings (database (world g)))
  /\ map command_key (actuator_commands (database (world g')))
     = map command_key (actuator_commands (database (world g)))
  /\ map event_key (events (database (world g')))
     = map event_key (events (database (world g)))
  /\ http_sent (world g') = http_sent (world g).
Proof.
  intros (R1 & R2 & R3 & R4 & _) _. rewrite R1, R2, R3, R4.
  repeat split; reflexivity.
Qed.

Lemma tele_end_session sid r g st :
  active sid g -> check_status st = true ->
  exists g',
    LineFollowerRobot.tele (TelemetryLogger.end_session st) (r, g)
    = ((r, g'), Ok tt)
    /\ telemetry g' = telemetry g
    /\ same_rows g g'
    /\ sessions (database (world g'))
       = map (update_session_row (clock (world g)) st sid)
             (sessions (database (world g)))
    /\ sql_log (database (world g'))
       = sql_log (database (world g))
         ++ [UpdateSession (clock (world g)) st sid].
Proof.
  intros Ha Hst.
  destruct (end_session_active sid g st Ha Hst) as (w' & E & R & S & L).
  eexists. split; [apply tele_run; exact E|].
  split; [reflexivity|]. split; [exact R|]. split; [exact S | exact L].
Qed.

Lemma close_run sid remote r g ty sev msg st :
  active sid g -> check_severity sev = true -> check_status st = true ->
  exists g' ts sent,
    (LineFollowerRobot.tele (TelemetryLogger.log_event ty sev msg);;
     LineFollowerRobot.glob (http_log_event remote ty sev msg);;
     LineFollowerRobot.tele (TelemetryLogger.end_session st);;
     LineFollowerRobot.glob (http_end_session remote st)) (r, g)
    = ((r, g'), Ok tt)
    /\ telemetry g' = telemetry g
    /\ sessions (database (world g'))
       = map (update_session_row ts st sid) (sessions (database (world g)))
    /\ session_stmts (sql_log (database (world g')))
       = session_stmts (sql_log (database (world g)))
         ++ [UpdateSession ts st sid]
    /\ map sensor_key (sensor_readings (database (world g')))
       = map sensor_key (sensor_readings (database (world g)))
    /\ map command_key (actuator_commands (database (world g')))
       = map command_key (actuator_commands (database (world g)))
    /\ map event_key (events (database (world g')))
       = map event_key (events (database (world g))) ++ [(sid, (ty, sev))]
    /\ http_sent (world g') = http_sent (world g) ++ sent
    /\ (remote = None -> sent = []).
Proof.
  intros Ha Hsev Hst.
  destruct (tele_log_event sid r g ty sev msg Ha Hsev) as (g1 & E1 & H1).
  rewrite (bind_ok _ _ _ _ _ E1).
  assert (Ha1 := active_effect sid _ _ _ Ha H1).
  destruct (http_log_event_quiet remote ty sev msg (world g1))
    as (w2 & sent2 & E2 & Q2 & N2).
  destruct (glob_quiet _ sid r g1 w2 _ sent2 E2 Q2) as (g2 & E2' & H2).
  rewrite (bind_ok _ _ _ _ _ E2').
  assert (Ha2 := active_effect sid _ _ _ Ha1 H2).
  destruct (tele_end_session sid r g2 st Ha2 Hst)
    as (g3 & E3 & T3 & R3 & S3 & L3).
  rewrite (bind_ok _ _ _ _ _ E3).
  destruct (http_end_session_quiet remote st (world g3))
    as (w4 & sent4 & E4 & Q4 & N4).
  destruct (glob_quiet _ sid r g3 w4 _ sent4 E4 Q4) as (g4 & E4' & H4).
  rewrite E4'.
  assert (H12 := effect_trans sid _ _ _ _ _ H1 H2).
  destruct H12 as (A1 & A2 & A3 & _ & _ & A6 & A7 & A8 & A9).
  destruct (same_rows_effect g2 g3 R3 T3) as (B6 & B7 & B8 & B9).
  destruct H4 as (C1 & C2 & C3 & _ & _ & C6 & C7 & C8 & C9).
  simpl in A6, A7, A8, A9, C6, C7, C8, C9.
  rewrite ?app_nil_r in *.
  exists g4, (clock (world g2)), (sent2 ++ sent4).
  split; [reflexivity|].
  split; [congruence|].
  split; [rewrite C2, S3, A2; reflexivity|].
  split.
  { rewrite C3, L3. unfold session_stmts in *. rewrite filter_app, A3.
    reflexivity. }
  split; [congruence|]. split; [congruence|].
  split; [rewrite C8, B8, A8; reflexivity|].
  split; [rewrite C9, B9, A9, app_assoc; reflexivity|].
  intro Hr. rewrite (N2 Hr), (N4 Hr). reflexivity.
Qed.

(** ** The whole run, from the outcome of the loop *)

Lemma ended_row_of_new sid ts ts' st :
  update_session_row ts' st sid (new_session_row sid ts)
  = ended_session_row sid ts ts' st.
Proof.
  unfold update_session_row, new_session_row, ended_session_row; simpl.
  rewrite Z.eqb_refl. reflexivity.
Qed.

Lemma follow_line_summary ms label r g :
  connected g = true ->
  exists g2 remote,
    LineFollowerRobot.follow_line_entry label (r, g) = ((r, g2), Ok remote)
    /\ active (next_session_id g) g2
    /\ (creation_fails (world g) = true -> remote = None)
    /\ forall r3 g3 res dl,
         LineFollowerRobot.follow_steps remote (0, 0)%nat (enumerate 1 ms)
           (r, g2) = ((r3, g3), res) ->
         effect (next_session_id g) dl g2 g3 ->
         exists g' ts sent0 sent1,
           LineFollowerRobot.follow_line ms label (r, g) = ((r3, g'), Ok tt)
           /\ run_summary g g' (next_session_id g) (clock (world g)) ts
                (terminal_status res)
                {| d_sensors := d_sensors dl;
                   d_commands := d_commands dl;
                   d_events := entry_events remote ++ d_events dl
                               ++ [closing_event res];
                   d_sent := create_request :: sent0 ++ d_sent dl ++ sent1 |}
           /\ (remote = None -> sent0 = [] /\ sent1 = []).
Proof.
  intro Hc. set (sid := next_session_id g).
  destruct (follow_line_entry_run label r g Hc)
    as (g1 & g2 & remote & evs & E1 & T1 & Ha1 & R1 & S1 & L1 & E2 & H2
        & V2 & F2).
  fold sid in E1, T1, Ha1, S1, H2.
  assert (Ha2 := active_effect sid _ _ _ Ha1 H2).
  exists g2, remote. split; [exact E2|]. split; [exact Ha2|].
  split; [exact F2|].
  intros r3 g3 res dl E3 H3.
  assert (Ha3 := active_effect sid _ _ _ Ha2 H3).
  assert (H13 := effect_trans sid _ _ _ _ _ H2 H3).
  set (sent0 := match remote with None => [] | Some i => _ end) in H2, H13.
  assert (Hclose :
    forall body : M (LineFollowerRobot.t * Globals) unit,
    forall ty sev,
      closing_event res = (ty, sev) ->
      (forall g4 ts sent1,
         body (r3, g3) = ((r3, g4), Ok tt) ->
         telemetry g4 = telemetry g3 ->
         sessions (database (world g4))
         = map (update_session_row ts (terminal_status res) sid)
               (sessions (database (world g3))) ->
         session_stmts (sql_log (database (world g4)))
         = session_stmts (sql_log (database (world g3)))
           ++ [UpdateSession ts (terminal_status res) sid] ->
         map sensor_key (sensor_readings (database (world g4)))
         = map sensor_key (sensor_readings (database (world g3))) ->
         map command_key (actuator_commands (database (world g4)))
         = map command_key (actuator_commands (database (world g3))) ->
         map event_key (events (database (world g4)))
         = map event_key (events (database (world g3))) ++ [(sid, (ty, sev))] ->
         http_sent (world g4) = http_sent (world g3) ++ sent1 ->
         run_summary g g4 sid (clock (world g)) ts (terminal_status res)
           {| d_sensors := d_sensors dl; d_commands := d_commands dl;
              d_events := entry_events remote ++ d_events dl
                          ++ [closing_event res];
              d_sent := create_request :: sent0 ++ d_sent dl ++ sent1 |})).
  { intros body ty sev Hce g4 ts sent1 _ C1 C2 C3 C6 C7 C8 C9.
    destruct H13 as (A1 & A2 & A3 & _ & _ & A6 & A7 & A8 & A9).
    simpl in A6, A7, A8, A9.
    destruct R1 as (R11 & R12 & R13 & R14 & _).
    unfold run_summary. simpl.
    split; [congruence|].
    split.
    { rewrite C2, A2, S1, map_app.
      rewrite (update_fresh_rows ts (terminal_status res) sid
                 (sessions (database (world g))) (next_rowid_fresh _)).
      simpl. rewrite ended_row_of_new. reflexivity. }
    split.
    { rewrite C3, A3, L1. unfold session_stmts. rewrite filter_app. simpl.
      rewrite <- app_assoc. reflexivity. }
    split; [rewrite C6, A6, R11; reflexivity|].
    split; [rewrite C7, A7, R12; reflexivity|].
    split.
    { rewrite C8, A8, R13, Hce, V2, !map_app, <- !app_assoc.
      unfold entry_events. reflexivity. }
    rewrite C9, A9, R14. rewrite <- !app_assoc. simpl.
    rewrite <- ?app_assoc. reflexivity. }
  unfold LineFollowerRobot.follow_line.
  rewrite (bind_ok _ _ _ _ _ E2).
  unfold try_except, LineFollowerRobot.follow_line_try.
  destruct res as [counts|e].
  - rewrite (bind_ok _ _ _ _ _ E3). cbv zeta.
    destruct (close_run sid remote r3 g3 "scenario_end" "info"
                ("Сценарий завершён. Сошёл " ++ str_nat (snd counts)
                 ++ " раз(а).") "completed" Ha3 eq_refl eq_refl)
      as (g4 & ts & sent1 & E4 & C1 & C2 & C3 & C6 & C7 & C8 & C9 & N4).
    rewrite E4. exists g4, ts, sent0, sent1.
    split; [reflexivity|]. split.
    + eapply (Hclose _ _ _ eq_refl); eauto.
    + intro Hr. split; [subst remote; reflexivity | exact (N4 Hr)].
  - rewrite (bind_raise _ _ _ _ _ E3).
    unfold LineFollowerRobot.follow_line_except. cbv zeta.
    destruct (close_run sid remote r3 g3 "exception" "error"
                ("Ошибка сценария: " ++ exn_str e) "error" Ha3 eq_refl eq_refl)
      as (g4 & ts & sent1 & E4 & C1 & C2 & C3 & C6 & C7 & C8 & C9 & N4).
    rewrite E4. exists g4, ts, sent0, sent1.
    split; [reflexivity|]. split.
    + eapply (Hclose _ _ _ eq_refl); eauto.
    + intro Hr. split; [subst remote; reflexivity | exact (N4 Hr)].
Qed.

(** ** Relations kept by a computation, whatever its outcome *)

Section Keeps.
Context {S : Type} (R : S -> S -> Prop).
Hypothesis R_refl : forall s, R s s.
Hypothesis R_trans : forall s1 s2 s3, R s1 s2 -> R s2 s3 -> R s1 s3.

Lemma keeps_ret {A} (a : A) : keeps R (ret a).
Proof. intro s. apply R_refl. Qed.

Lemma keeps_lift {A} (r : result A) : keeps R (lift r).
Proof. intro s. apply R_refl. Qed.

Lemma keeps_gets {A} (f : S -> A) : keeps R (gets f).
Proof. intro s. apply R_refl. Qed.

Lemma keeps_unchanged {A} (m : M S A) :
  (forall s, fst (m s) = s) -> keeps R m.
Proof. intros H s. rewrite H. apply R_refl. Qed.

Lemma keeps_bind {A B} (m : M S A) (k : A -> M S B) :
  keeps R m -> (forall a, keeps R (k a)) -> keeps R (bind m k).
Proof.
  intros Hm Hk s. unfold bind. specialize (Hm s).
  destruct (m s) as [s1 [a|e]]; simpl in *.
  - eapply R_trans; [exact Hm | apply Hk].
  - exact Hm.
Qed.

Lemma keeps_for_each {A} (xs : list A) (body : A -> M S unit) :
  (forall x, keeps R (body x)) -> keeps R (for_each xs body).
Proof.
  intro H. induction xs as [|x xs IH]; cbn [for_each].
  - apply keeps_ret.
  - apply keeps_bind; [apply H | intros _; exact IH].
Qed.

Lemma keeps_list_comp {A B} (xs : list A) (f : A -> M S B) :
  (forall x, keeps R (f x)) -> keeps R (list_comp xs f).
Proof.
  intro H. induction xs as [|x xs IH]; cbn [list_comp].
  - apply keeps_ret.
  - apply keeps_bind; [apply H | intro y].
    apply keeps_bind; [exact IH | intro ys; apply keeps_ret].
Qed.
End Keeps.

Lemma evolves_refl sid s : evolves sid s s.
Proof. intros _. exists d_nil. apply effect_refl. Qed.

Lemma evolves_trans sid s1 s2 s3 :
  evolves sid s1 s2 -> evolves sid s2 s3 -> evolves sid s1 s3.
Proof.
  intros H12 H23 Ha. destruct (H12 Ha) as (d1 & E1).
  destruct (H23 (active_effect sid _ _ _ Ha E1)) as (d2 & E2).
  exists (d_app d1 d2). eapply effect_trans; eauto.
Qed.

Lemma keeps_tele_log_sensor sid name v u :
  keeps (evolves sid)
    (LineFollowerRobot.tele (TelemetryLogger.log_sensor name v u)).
Proof.
  intros [r g] Ha. simpl in Ha.
  destruct (tele_log_sensor sid r g name v u Ha) as (g' & E & H).
  rewrite E. eexists. exact H.
Qed.

Lemma keeps_tele_log_event sid ty sev msg :
  check_severity sev = true ->
  keeps (evolves sid)
    (LineFollowerRobot.tele (TelemetryLogger.log_event ty sev msg)).
Proof.
  intros Hs [r g] Ha. simpl in Ha.
  destruct (tele_log_event sid r g ty sev msg Ha Hs) as (g' & E & H).
  rewrite E. eexists. exact H.
Qed.

Lemma keeps_glob {A} sid (m : M World A) :
  (forall w, exists sent, quiet sent w (fst (m w))) ->
  keeps (evolves sid) (LineFollowerRobot.glob m).
Proof.
  intros Hq [r g] _. destruct (Hq (world g)) as (sent & Q).
  destruct (m (world g)) as [w' res] eqn:E. simpl in Q.
  destruct (glob_quiet m sid r g w' res sent E Q) as (g' & E' & H).
  rewrite E'. eexists. exact H.
Qed.

Lemma keeps_drive sid base diff :
  keeps (evolves sid) (on_globals (MotorPair.drive base diff)).
Proof.
  intros [r g] Ha. simpl in Ha.
  destruct (drive_active sid r g base diff Ha) as (g' & E & H).
  rewrite E. eexists. exact H.
Qed.

Lemma keeps_same_globals {A} sid (m : M (LineFollowerRobot.t * Globals) A) :
  (forall s, snd (fst (m s)) = snd s) -> keeps (evolves sid) m.
Proof.
  intros H s _. rewrite H. exists d_nil. apply effect_refl.
Qed.

Lemma lateral_error_unchanged {S} n norm (s : S) :
  fst (LineFollowerRobot.lateral_error n norm s) = s.
Proof.
  unfold LineFollowerRobot.lateral_error, LineFollowerRobot.position,
    LineFollowerRobot.error_of.
  assert (H : fst (list_comp (seq 0 n)
                     (fun i => x <- lift (py_index norm i);;
                               ret ((inject_Z (Z.of_nat i)
                                     - LineFollowerRobot.half_span n)
                                    * (1 - x))) s) = s).
  { apply list_comp_frame. intros i s0. unfold bind, lift, ret.
    destruct (py_index norm i); reflexivity. }
  unfold bind at 1. unfold bind at 1.
  destruct (list_comp _ _ s) as [s1 [terms|e]]; simpl in H; subst;
    [|reflexivity].
  unfold ret at 1. destruct (Z.of_nat n - 1 =? 0)%Z; [reflexivity|].
  unfold lift. reflexivity.
Qed.

Lemma ev_ret {A} sid (a : A) : keeps (evolves sid) (ret a).
Proof. apply keeps_ret, evolves_refl. Qed.

Lemma ev_bind {A B} sid (m : M (LineFollowerRobot.t * Globals) A)
    (k : A -> M (LineFollowerRobot.t * Globals) B) :
  keeps (evolves sid) m -> (forall a, keeps (evolves sid) (k a)) ->
  keeps (evolves sid) (bind m k).
Proof. apply keeps_bind, evolves_trans. Qed.

Lemma self_pid_same_globals {A} (m : M PIDController.t A) s :
  snd (fst (LineFollowerRobot.self_pid m s)) = snd s.
Proof.
  destruct s as [r g]. unfold LineFollowerRobot.self_pid, on_self, zoom.
  cbn [fst snd]. destruct (m (LineFollowerRobot.pid r)). reflexivity.
Qed.

Lemma self_sensor_same_globals {A} (m : M IRLineSensor.t A) s :
  snd (fst (LineFollowerRobot.self_sensor m s)) = snd s.
Proof.
  destruct s as [r g]. unfold LineFollowerRobot.self_sensor, on_self, zoom.
  cbn [fst snd]. destruct (m (LineFollowerRobot.sensor r)). reflexivity.
Qed.

Lemma keeps_follow_step sid remote counts step raw :
  keeps (evolves sid) (LineFollowerRobot.follow_step remote counts step raw).
Proof.
  unfold LineFollowerRobot.follow_step.
  apply ev_bind; [| intro noisy].
  { apply keeps_list_comp; [apply evolves_refl | apply evolves_trans | intro v].
    apply ev_bind; [| intro; apply ev_ret].
    apply keeps_glob. intro w.
    destruct (random_uniform_quiet (-0.05) 0.05 w) as (w' & x & E & Q).
    rewrite E. eexists; exact Q. }
  apply ev_bind; [| intro norm].
  { apply keeps_same_globals, self_sensor_same_globals. }
  apply ev_bind; [| intros _].
  { apply keeps_for_each; [apply evolves_refl | apply evolves_trans | intro iv].
    cbv zeta.
    apply ev_bind; [| intros _].
    - apply keeps_tele_log_sensor.
    - apply keeps_glob. intro w.
      destruct (http_log_sensor_quiet remote
                  ("IR_" ++ str_nat (fst iv + 1))%string (snd iv) "норм"%string w)
        as (w' & sent & E & Q & _).
      rewrite E. eexists; exact Q. }
  apply ev_bind; [apply keeps_gets, evolves_refl | intro n_].
  apply ev_bind; [| intro error].
  { apply keeps_unchanged; [apply evolves_refl|]. apply lateral_error_unchanged. }
  apply ev_bind; [| intro pid_out].
  { apply keeps_same_globals, self_pid_same_globals. }
  apply ev_bind; [apply keeps_lift, evolves_refl | intro on_track].
  apply ev_bind; [| intro counts'].
  { destruct on_track; [apply ev_ret|]. cbv zeta.
    apply ev_bind; [| intros _].
    - apply keeps_tele_log_event. reflexivity.
    - apply ev_bind; [| intros _; apply ev_ret].
      apply keeps_glob. intro w.
      destruct (http_log_event_quiet remote "line_tracking" "warning"
                  ("Сошёл с линии на шаге " ++ str_nat step) w)
        as (w' & sent & E & Q & _).
      rewrite E. eexists; exact Q. }
  apply ev_bind; [apply keeps_drive | intro lr].
  apply ev_bind; [| intros _].
  { apply keeps_glob. intro w.
    destruct (http_log_actuator_quiet remote "Motor_L" (fst lr) "sent" w)
      as (w' & sent & E & Q & _).
    rewrite E. eexists; exact Q. }
  apply ev_bind; [| intros _; apply ev_ret].
  apply keeps_glob. intro w.
  destruct (http_log_actuator_quiet remote "Motor_R" (snd lr) "sent" w)
    as (w' & sent & E & Q & _).
  rewrite E. eexists; exact Q.
Qed.

Lemma keeps_follow_steps sid remote frames :
  forall counts,
  keeps (evolves sid) (LineFollowerRobot.follow_steps remote counts frames).
Proof.
  induction frames as [|[step raw] rest IH]; intro counts;
    cbn [LineFollowerRobot.follow_steps].
  - apply ev_ret.
  - apply ev_bind; [apply keeps_follow_step | intro r; apply IH].
Qed.

(** ** Calibration *)

Lemma py_setitem_ok {A} (xs : list A) (i : nat) (v : A) :
  (i < List.length xs)%nat ->
  exists ys, py_setitem xs i v = Ok ys /\ List.length ys = List.length xs.
Proof.
  revert i. induction xs as [|x xs IH]; intros i Hi; simpl in Hi; [lia|].
  destruct i as [|i]; simpl.
  - eexists; split; reflexivity.
  - destruct (IH i ltac:(lia)) as (ys & E & L). rewrite E.
    eexists; split; [reflexivity | simpl; congruence].
Qed.

Lemma lift_ok {S A} (r : result A) (a : A) (s : S) :
  r = Ok a -> lift r s = (s, Ok a).
Proof. intros ->. reflexivity. Qed.

Lemma gets_run {S A} (f : S -> A) (s : S) : gets f s = (s, Ok (f s)).
Proof. reflexivity. Qed.

Lemma on_self_modify {X W} (f : X -> X) (x : X) (w : W) :
  on_self (modify f) (x, w) = ((f x, w), Ok tt).
Proof. reflexivity. Qed.

Lemma on_world_run {X A} (m : M World A) (x : X) w w' res :
  m w = (w', res) -> on_world m (x, w) = ((x, w'), res).
Proof. intro E. unfold on_world, zoom. simpl. rewrite E. reflexivity. Qed.

Lemma quiet_trans s1 s2 w w1 w2 :
  quiet s1 w w1 -> quiet s2 w1 w2 -> quiet (s1 ++ s2) w w2.
Proof.
  intros (A1 & A2 & A3 & A4) (B1 & B2 & B3 & B4). unfold quiet.
  rewrite B1, B2, B3, B4, A1, A2, A3, A4, app_assoc. repeat split; reflexivity.
Qed.

Lemma sensor_shaped_parts s :
  sensor_shaped s = true <->
  List.length (IRLineSensor.white s) = IRLineSensor.n s
  /\ List.length (IRLineSensor.black s) = IRLineSensor.n s.
Proof.
  unfold sensor_shaped. rewrite andb_true_iff, !Nat.eqb_eq. reflexivity.
Qed.

Lemma for_each_cons {S A} (x : A) (xs : list A) (body : A -> M S unit) s :
  for_each (x :: xs) body s = bind (body x) (fun _ => for_each xs body) s.
Proof. reflexivity. Qed.

Lemma calibrate_loop (wl bl : list Q) (m : nat) :
  forall k sens w,
  (k + m = IRLineSensor.n sens)%nat ->
  sensor_shaped sens = true ->
  (IRLineSensor.n sens <= List.length wl)%nat ->
  (IRLineSensor.n sens <= List.length bl)%nat ->
  exists sens' w',
    for_each (seq k m) (fun i =>
      noise_w <- on_world (random_uniform (-0.05) 0);;
      noise_b <- on_world (random_uniform 0 0.05);;
      wl_i <- lift (py_index wl i);;
      w0 <- gets (fun s => IRLineSensor.white (fst s));;
      w1 <- lift (py_setitem w0 i (py_min 1 (py_max 0 (wl_i + noise_w))));;
      on_self (modify (IRLineSensor.set_white w1));;
      bl_i <- lift (py_index bl i);;
      b0 <- gets (fun s => IRLineSensor.black (fst s));;
      b1 <- lift (py_setitem b0 i (py_min 1 (py_max 0 (bl_i + noise_b))));;
      on_self (modify (IRLineSensor.set_black b1))) (sens, w)
    = ((sens', w'), Ok tt)
    /\ sensor_shaped sens' = true
    /\ IRLineSensor.n sens' = IRLineSensor.n sens
    /\ quiet [] w w'.
Proof.
  induction m as [|m IH]; intros k sens w Hk Hs Hwl Hbl.
  - exists sens, w. split; [reflexivity|]. split; [exact Hs|].
    split; [reflexivity | apply quiet_nil].
  - assert (Hs0 := Hs).
    apply sensor_shaped_parts in Hs. destruct Hs as [Hw Hb].
    destruct (random_uniform_quiet (-0.05) 0 w) as (w1 & x1 & E1 & Q1).
    destruct (random_uniform_quiet 0 0.05 w1) as (w2 & x2 & E2 & Q2).
    destruct (py_setitem_ok (IRLineSensor.white sens) k
                (py_min 1 (py_max 0 (nth k wl 0 + x1))) ltac:(lia))
      as (ws & Ew & Lw).
    destruct (py_setitem_ok (IRLineSensor.black sens) k
                (py_min 1 (py_max 0 (nth k bl 0 + x2))) ltac:(lia))
      as (bs & Eb & Lb).
    set (sens1 := IRLineSensor.set_black bs (IRLineSensor.set_white ws sens)).
    change (seq k (S m)) with (k :: seq (S k) m).
    match goal with
    | |- context [for_each (k :: _) ?f _] =>
        assert (Ebody : f k (sens, w) = ((sens1, w2), Ok tt))
    end.
    { cbv beta.
      rewrite (bind_ok _ _ _ _ _ (on_world_run _ sens _ _ _ E1)).
      rewrite (bind_ok _ _ _ _ _ (on_world_run _ sens _ _ _ E2)).
      rewrite (bind_ok _ _ _ _ _
                 (lift_ok _ _ _ (py_index_nth wl k 0 ltac:(lia)))).
      rewrite (bind_ok _ _ _ _ _ (gets_run _ _)). cbn [fst].
      rewrite (bind_ok _ _ _ _ _ (lift_ok _ _ _ Ew)).
      rewrite (bind_ok _ _ _ _ _ (on_self_modify _ _ _)).
      rewrite (bind_ok _ _ _ _ _
                 (lift_ok _ _ _ (py_index_nth bl k 0 ltac:(lia)))).
      rewrite (bind_ok _ _ _ _ _ (gets_run _ _)).
      cbn [fst IRLineSensor.set_white IRLineSensor.black].
      rewrite (bind_ok _ _ _ _ _ (lift_ok _ _ _ Eb)).
      apply on_self_modify. }
    rewrite for_each_cons. cbv beta in Ebody |- *.
    rewrite (bind_ok _ _ _ _ _ Ebody).
    assert (Hs1 : sensor_shaped sens1 = true).
    { apply sensor_shaped_parts. unfold sens1; simpl. split; congruence. }
    destruct (IH (S k) sens1 w2 ltac:(unfold sens1; simpl; lia) Hs1
                ltac:(exact Hwl) ltac:(exact Hbl))
      as (sens' & w' & E & Hs' & Hn' & Q').
    rewrite E. exists sens', w'. split; [reflexivity|].
    split; [exact Hs'|]. split; [exact Hn'|].
    exact (quiet_trans [] [] _ _ _ (quiet_trans [] [] _ _ _ Q1 Q2) Q').
Qed.

Lemma sensor_calibrate_shaped (wl bl : list Q) sens w :
  sensor_shaped sens = true ->
  (IRLineSensor.n sens <= List.length wl)%nat ->
  (IRLineSensor.n sens <= List.length bl)%nat ->
  exists sens' w',
    IRLineSensor.calibrate wl bl (sens, w) = ((sens', w'), Ok tt)
    /\ sensor_shaped sens' = true
    /\ IRLineSensor.n sens' = IRLineSensor.n sens
    /\ quiet [] w w'.
Proof.
  intros Hs Hwl Hbl. unfold IRLineSensor.calibrate.
  unfold bind at 1, gets at 1. cbn [fst].
  apply (calibrate_loop wl bl (IRLineSensor.n sens) 0 sens w);
    [reflexivity | assumption..].
Qed.

Lemma self_sensor_world_run {A} (m : M (IRLineSensor.t * World) A)
    r g sens' w' res :
  m (LineFollowerRobot.sensor r, world g) = ((sens', w'), res) ->
  LineFollowerRobot.self_sensor_world m (r, g)
  = ((LineFollowerRobot.set_sensor sens' r,
      {| telemetry := telemetry g; world := w' |}), res).
Proof.
  intro E. unfold LineFollowerRobot.self_sensor_world, zoom. simpl.
  rewrite E. reflexivity.
Qed.

Lemma robot_calibrate_summary r g :
  connected g = true ->
  sensor_shaped (LineFollowerRobot.sensor r) = true ->
  exists r' g' ts,
    LineFollowerRobot.calibrate (r, g) = ((r', g'), Ok tt)
    /\ run_summary g g' (next_session_id g) (clock (world g)) ts "completed"
         {| d_sensors := []; d_commands := [];
            d_events := [("calibration", "info")]%string; d_sent := [] |}
    /\ sensor_shaped (LineFollowerRobot.sensor r') = true
    /\ IRLineSensor.n (LineFollowerRobot.sensor r')
       = IRLineSensor.n (LineFollowerRobot.sensor r).
Proof.
  intros Hc Hs. set (sid := next_session_id g).
  destruct (tele_start_session r g Hc) as (g1 & E1 & T1 & Ha1 & R1 & S1 & L1).
  fold sid in E1, T1, Ha1, S1.
  unfold LineFollowerRobot.calibrate.
  rewrite (bind_ok _ _ _ _ _ E1).
  rewrite (bind_ok _ _ _ _ _ (gets_run _ _)). cbn [fst]. cbv zeta.
  set (n_ := IRLineSensor.n (LineFollowerRobot.sensor r)).
  destruct (sensor_calibrate_shaped (repeat 1 n_) (repeat 0 n_)
              (LineFollowerRobot.sensor r) (world g1) Hs
              ltac:(rewrite repeat_length; reflexivity)
              ltac:(rewrite repeat_length; reflexivity))
    as (sens' & w2 & E2 & Hs2 & Hn2 & Q2).
  rewrite (bind_ok _ _ _ _ _ (self_sensor_world_run _ r g1 _ _ _ E2)).
  set (r' := LineFollowerRobot.set_sensor sens' r).
  assert (H2 := quiet_effect sid [] g1 w2 Q2).
  assert (Ha2 := active_effect sid _ _ _ Ha1 H2).
  destruct (tele_log_event sid r' _ "calibration" "info"
              "Калибровка завершена" Ha2 eq_refl) as (g3 & E3 & H3).
  rewrite (bind_ok _ _ _ _ _ E3).
  assert (Ha3 := active_effect sid _ _ _ Ha2 H3).
  destruct (tele_end_session sid r' g3 "completed" Ha3 eq_refl)
    as (g4 & E4 & T4 & R4 & S4 & L4).
  rewrite E4. exists r', g4, (clock (world g3)).
  split; [reflexivity|]. split; [|split; [exact Hs2 | exact Hn2]].
  assert (H13 := effect_trans sid _ _ _ _ _ H2 H3).
  destruct H13 as (A1 & A2 & A3 & _ & _ & A6 & A7 & A8 & A9).
  simpl in A6, A7, A8, A9. rewrite ?app_nil_r in *.
  destruct (same_rows_effect g3 g4 R4 T4) as (B6 & B7 & B8 & B9).
  destruct R1 as (R11 & R12 & R13 & R14 & _).
  unfold run_summary. simpl. rewrite ?app_nil_r.
  split; [congruence|].
  split.
  { rewrite S4, A2, S1, map_app.
    rewrite (update_fresh_rows (clock (world g3)) "completed" sid
               (sessions (database (world g))) (next_rowid_fresh _)).
    simpl. rewrite ended_row_of_new. reflexivity. }
  split.
  { unfold session_stmts in *. rewrite L4, filter_app, A3, L1, filter_app.
    simpl. rewrite <- app_assoc. reflexivity. }
  split; [rewrite B6, A6, R11; reflexivity|].
  split; [rewrite B7, A7, R12; reflexivity|].
  split; [rewrite B8, A8, R13; reflexivity|].
  rewrite B9, A9, R14. reflexivity.
Qed.

(** A sensor fresh from [__init__] is regular. *)
Lemma init_regular (n : nat) : sensor_regular (IRLineSensor.init n) = true.
Proof.
  unfold sensor_regular, sensor_shaped, IRLineSensor.init; simpl.
  rewrite !repeat_length, Nat.eqb_refl. simpl.
  induction n as [|n IH]; simpl; [reflexivity | exact IH].
Qed.

(* ================================================================= *)
(** * Main results *)

Lemma length_concat_repeat {A} (l : list A) (k : nat) :
  List.length (List.concat (repeat l k)) = (k * List.length l)%nat.
Proof.
  induction k as [|k IH]; simpl; [reflexivity|].
  rewrite length_app, IH. reflexivity.
Qed.

Lemma ir_names_length (n : nat) : List.length (ir_names n) = n.
Proof. unfold ir_names. rewrite length_map, length_seq. reflexivity. Qed.

Lemma keyed_length {A B} (f : A -> B) (xs ys : list A) (zs : list B) :
  map f xs = map f ys ++ zs ->
  List.length xs = (List.length ys + List.length zs)%nat.
Proof.
  intro H. apply (f_equal (@List.length B)) in H.
  rewrite length_app, !length_map in H. exact H.
Qed.

(** The run on a regular sensor and fitting frames: it returns, the local
    session ends as completed, and the rows it appends are known. *)
Lemma follow_line_regular ms label r g :
  connected g = true ->
  sensor_regular (LineFollowerRobot.sensor r) = true ->
  (1 <= IRLineSensor.n (LineFollowerRobot.sensor r))%nat ->
  frames_fit (IRLineSensor.n (LineFollowerRobot.sensor r)) ms = true ->
  exists r' g' ts remote trk sent,
    LineFollowerRobot.follow_line ms label (r, g) = ((r', g'), Ok tt)
    /\ run_summary g g' (next_session_id g) (clock (world g)) ts "completed"
         {| d_sensors :=
              List.concat
                (repeat (ir_names (IRLineSensor.n (LineFollowerRobot.sensor r)))
                        (List.length ms));
            d_commands :=
              List.concat (repeat ["Motor_L"; "Motor_R"]%string
                                  (List.length ms));
            d_events := entry_events remote ++ trk
                        ++ [("scenario_end", "info")]%string;
            d_sent := create_request :: sent |}
    /\ Forall (fun e => e = ("line_tracking", "warning")%string) trk
    /\ (creation_fails (world g) = true -> remote = None /\ sent = []).
Proof.
  intros Hc Hreg Hn Hfit.
  destruct (follow_line_summary ms label r g Hc)
    as (g2 & remote & E2 & Ha2 & F2 & Hrun).
  destruct (follow_steps_regular (next_session_id g) remote ms 1 (0, 0)%nat
              r g2 Ha2 Hreg Hn Hfit)
    as (r3 & g3 & counts & trk & sent3 & E3 & _ & H3 & N3 & V3 & _).
  destruct (Hrun r3 g3 _ _ E3 H3) as (g' & ts & sent0 & sent1 & E & S & N).
  exists r3, g', ts, remote, trk, (sent0 ++ sent3 ++ sent1).
  split; [exact E|]. split; [exact S|]. split; [exact V3|].
  intro Hf. specialize (F2 Hf). split; [exact F2|].
  destruct (N F2) as [-> ->]. rewrite (N3 F2). reflexivity.
Qed.

(** C7: a run over [K] frames with [N] sensors appends to the local store
    exactly [K * N] sensor readings, one batch [IR_1 .. IR_N] per step, and
    exactly [K] pairs of actuator commands ([Motor_L], [Motor_R]), whatever
    the remote collector answers. *)
Theorem follow_line_row_counts (ms : list (list Q)) (label : string)
    (r : LineFollowerRobot.t) (g : Globals) :
  connected g = true ->
  sensor_regular (LineFollowerRobot.sensor r) = true ->
  (1 <= IRLineSensor.n (LineFollowerRobot.sensor r))%nat ->
  frames_fit (IRLineSensor.n (LineFollowerRobot.sensor r)) ms = true ->
  let K := List.length ms in
  let N := IRLineSensor.n (LineFollowerRobot.sensor r) in
  let sid := next_session_id g in
  exists r' g',
    LineFollowerRobot.follow_line ms label (r, g) = ((r', g'), Ok tt)
    /\ map sensor_key (sensor_readings (database (world g')))
       = map sensor_key (sensor_readings (database (world g)))
         ++ map (pair sid) (List.concat (repeat (ir_names N) K))
    /\ List.length (sensor_readings (database (world g')))
       = (List.length (sensor_readings (database (world g))) + K * N)%nat
    /\ map command_key (actuator_commands (database (world g')))
       = map command_key (actuator_commands (database (world g)))
         ++ map (pair sid)
                (List.concat (repeat ["Motor_L"; "Motor_R"]%string K))
    /\ List.length (actuator_commands (database (world g')))
       = (List.length (actuator_commands (database (world g))) + 2 * K)%nat.
Proof.
  intros Hc Hreg Hn Hfit K N sid.
  destruct (follow_line_regular ms label r g Hc Hreg Hn Hfit)
    as (r' & g' & ts & remote & trk & sent & E & S & _ & _).
  destruct S as (_ & _ & _ & S4 & S5 & _). simpl in S4, S5.
  exists r', g'. split; [exact E|].
  split; [exact S4|]. split.
  { rewrite (keyed_length _ _ _ _ S4), length_map, length_concat_repeat,
      ir_names_length. reflexivity. }
  split; [exact S5|].
  rewrite (keyed_length _ _ _ _ S5), length_map, length_concat_repeat.
  simpl. lia.
Qed.

Lemma follow_line_row_counts_witness :
  exists r' g',
    LineFollowerRobot.follow_line [frame1; frame1] "x"
      (LineFollowerRobot.init 5, fresh_globals reachable) = ((r', g'), Ok tt)
    /\ List.length (sensor_readings (database (world g'))) = 10%nat
    /\ List.length (actuator_commands (database (world g'))) = 4%nat.
Proof.
  destruct (follow_line_row_counts [frame1; frame1] "x"
              (LineFollowerRobot.init 5) (fresh_globals reachable)
              eq_refl eq_refl ltac:(simpl; lia) eq_refl)
    as (r' & g' & E & _ & L1 & _ & L2).
  exists r', g'. split; [exact E|]. split; [exact L1 | exact L2].
Defined.

Lemma creation_fails_iff (w : World) :
  creation_fails w = true <-> snd (http_create_session w) = Ok None.
Proof.
  unfold creation_fails, http_create_session, try_except, bind, requests_post.
  fold create_request.
  destruct (server w (List.length (http_sent w)) create_request)
    as [|[|] [id|]]; simpl; split; intro H; try reflexivity;
    try discriminate.
Qed.

Lemma no_server_among_tracking (trk : list (string * string)) :
  Forall (fun e => e = ("line_tracking", "warning")%string) trk ->
  filter (fun e => (fst e =? "server")%string) trk = [].
Proof.
  induction 1 as [|e trk He _ IH]; simpl; [reflexivity|].
  subst e. simpl. exact IH.
Qed.

(** C1: when the session-creation call yields no remote id, the run
    records exactly one degradation event (type "server", severity
    "warning") in the local store, the forwarding helpers called with the
    absent id return without sending anything (so the creation request is
    the only request of the run), every step is processed and the local
    session ends with status "completed". *)
Theorem remote_failure_runs_local_only (ms : list (list Q)) (label : string)
    (r : LineFollowerRobot.t) (g : Globals) :
  connected g = true ->
  creation_fails (world g) = true ->
  sensor_regular (LineFollowerRobot.sensor r) = true ->
  (1 <= IRLineSensor.n (LineFollowerRobot.sensor r))%nat ->
  frames_fit (IRLineSensor.n (LineFollowerRobot.sensor r)) ms = true ->
  let K := List.length ms in
  let N := IRLineSensor.n (LineFollowerRobot.sensor r) in
  let sid := next_session_id g in
  snd (http_create_session (world g)) = Ok None
  /\ (forall w ty v u, http_log_sensor None ty v u w = (w, Ok tt))
  /\ (forall w ty v st, http_log_actuator None ty v st w = (w, Ok tt))
  /\ (forall w ty sev msg, http_log_event None ty sev msg w = (w, Ok tt))
  /\ (forall w st, http_end_session None st w = (w, Ok tt))
  /\ exists r' g' ts evs,
       LineFollowerRobot.follow_line ms label (r, g) = ((r', g'), Ok tt)
       /\ map event_key (events (database (world g')))
          = map event_key (events (database (world g))) ++ map (pair sid) evs
       /\ filter (fun e => (fst e =? "server")%string) evs
          = [("server", "warning")]%string
       /\ http_sent (world g') = http_sent (world g) ++ [create_request]
       /\ List.length (sensor_readings (database (world g')))
          = (List.length (sensor_readings (database (world g))) + K * N)%nat
       /\ List.length (actuator_commands (database (world g')))
          = (List.length (actuator_commands (database (world g))) + 2 * K)%nat
       /\ sessions (database (world g'))
          = sessions (database (world g))
            ++ [ended_session_row sid (clock (world g)) ts "completed"].
Proof.
  intros Hc Hf Hreg Hn Hfit K N sid.
  split; [apply creation_fails_iff; exact Hf|].
  repeat (split; [reflexivity|]).
  destruct (follow_line_regular ms label r g Hc Hreg Hn Hfit)
    as (r' & g' & ts & remote & trk & sent & E & S & V & F).
  destruct (F Hf) as [-> ->].
  destruct S as (_ & S2 & _ & S4 & S5 & S6 & S7).
  cbn [d_sensors d_commands d_events d_sent] in S4, S5, S6, S7.
  exists r', g', ts,
    (entry_events None ++ trk ++ [("scenario_end", "info")]%string).
  split; [exact E|]. split; [exact S6|]. split.
  { simpl. rewrite filter_app, (no_server_among_tracking trk V). reflexivity. }
  split; [exact S7|]. split.
  { rewrite (keyed_length _ _ _ _ S4), length_map, length_concat_repeat,
      ir_names_length. reflexivity. }
  split; [|exact S2].
  rewrite (keyed_length _ _ _ _ S5), length_map, length_concat_repeat.
  simpl. lia.
Qed.

Lemma remote_failure_runs_local_only_witness :
  exists r' g' ts,
    LineFollowerRobot.follow_line [frame1; frame1; frame1] "x"
      (LineFollowerRobot.init 5, fresh_globals unreachable) = ((r', g'), Ok tt)
    /\ http_sent (world g') = [create_request]
    /\ sessions (database (world g'))
       = [ended_session_row 1 0%nat ts "completed"].
Proof.
  destruct (remote_failure_runs_local_only [frame1; frame1; frame1] "x"
              (LineFollowerRobot.init 5) (fresh_globals unreachable)
              eq_refl eq_refl eq_refl ltac:(simpl; lia) eq_refl)
    as (_ & _ & _ & _ & _ & r' & g' & ts & evs & E & _ & _ & H & _ & _ & S).
  exists r', g', ts. split; [exact E|]. split; [exact H | exact S].
Defined.

(** C2: every run of [follow_line], and of [calibrate], creates its
    session with status "running" and no ended-at, and runs exactly one
    update on the [sessions] table after the insert: it sets ended-at and
    moves the status to "completed" when the loop returned and to "error"
    when a step raised.  The rows of earlier sessions are untouched. *)
Theorem session_lifecycle (ms : list (list Q)) (label : string)
    (r : LineFollowerRobot.t) (g : Globals) :
  connected g = true ->
  let sid := next_session_id g in
  let ts0 := clock (world g) in
  (exists g1 row,
     LineFollowerRobot.tele (TelemetryLogger.start_session VARIANT_ID) (r, g)
     = ((r, g1), Ok sid)
     /\ sessions (database (world g1))
        = sessions (database (world g)) ++ [row]
     /\ s_id row = sid /\ s_status row = "running"%string
     /\ s_ended_at row = None)
  /\ (exists g2 remote r3 g3 res g' ts st dl,
        LineFollowerRobot.follow_line_entry label (r, g)
        = ((r, g2), Ok remote)
        /\ LineFollowerRobot.follow_steps remote (0, 0)%nat (enumerate 1 ms)
             (r, g2) = ((r3, g3), res)
        /\ LineFollowerRobot.follow_line ms label (r, g) = ((r3, g'), Ok tt)
        /\ ((st = "completed"%string /\ exists c, res = Ok c)
            \/ (st = "error"%string /\ exists e, res = Raise e))
        /\ sessions (database (world g'))
           = sessions (database (world g))
             ++ [{| s_id := sid; s_variant_id := VARIANT_ID;
                    s_started_at := ts0; s_ended_at := Some ts;
                    s_status := st |}]
        /\ session_stmts (sql_log (database (world g')))
           = session_stmts (sql_log (database (world g)))
             ++ [InsertSession VARIANT_ID ts0 "running";
                 UpdateSession ts st sid]
        /\ run_summary g g' sid ts0 ts st dl)
  /\ (sensor_shaped (LineFollowerRobot.sensor r) = true ->
      exists r' g' ts dl,
        LineFollowerRobot.calibrate (r, g) = ((r', g'), Ok tt)
        /\ sessions (database (world g'))
           = sessions (database (world g))
             ++ [{| s_id := sid; s_variant_id := VARIANT_ID;
                    s_started_at := ts0; s_ended_at := Some ts;
                    s_status := "completed" |}]
        /\ session_stmts (sql_log (database (world g')))
           = session_stmts (sql_log (database (world g)))
             ++ [InsertSession VARIANT_ID ts0 "running";
                 UpdateSession ts "completed" sid]
        /\ run_summary g g' sid ts0 ts "completed" dl).
Proof.
  intros Hc sid ts0. split; [|split].
  - destruct (tele_start_session r g Hc) as (g1 & E1 & _ & _ & _ & S1 & _).
    exists g1, (new_session_row sid ts0).
    split; [exact E1|]. split; [exact S1|]. repeat split; reflexivity.
  - destruct (follow_line_summary ms label r g Hc)
      as (g2 & remote & E2 & Ha2 & _ & Hrun).
    destruct (LineFollowerRobot.follow_steps remote (0, 0)%nat
                (enumerate 1 ms) (r, g2)) as [[r3 g3] res] eqn:E3.
    assert (Hev := keeps_follow_steps (next_session_id g) remote
                     (enumerate 1 ms) (0, 0)%nat (r, g2)).
    rewrite E3 in Hev. destruct (Hev Ha2) as (dl & H3). simpl in H3.
    destruct (Hrun r3 g3 res dl eq_refl H3)
      as (g' & ts & sent0 & sent1 & E & S & _).
    exists g2, remote, r3, g3, res, g', ts, (terminal_status res).
    eexists. split; [exact E2|]. split; [exact E3|]. split; [exact E|].
    split.
    { destruct res as [c|e]; [left | right]; (split; [reflexivity|]);
        eexists; reflexivity. }
    split; [exact (proj1 (proj2 S))|].
    split; [exact (proj1 (proj2 (proj2 S))) | exact S].
  - intro Hs.
    destruct (robot_calibrate_summary r g Hc Hs) as (r' & g' & ts & E & S & _).
    exists r', g', ts. eexists. split; [exact E|].
    split; [exact (proj1 (proj2 S))|].
    split; [exact (proj1 (proj2 (proj2 S))) | exact S].
Qed.

Lemma session_lifecycle_witness :
  exists r' g' ts st,
    LineFollowerRobot.follow_line [frame1; [0.9]] "x"
      (LineFollowerRobot.init 5, fresh_globals reachable) = ((r', g'), Ok tt)
    /\ sessions (database (world g'))
       = [{| s_id := 1; s_variant_id := VARIANT_ID; s_started_at := 0%nat;
             s_ended_at := Some ts; s_status := st |}]
    /\ (st = "completed" \/ st = "error")%string.
Proof.
  destruct (session_lifecycle [frame1; [0.9]] "x" (LineFollowerRobot.init 5)
              (fresh_globals reachable) eq_refl)
    as (_ & (g2 & remote & r3 & g3 & res & g' & ts & st & dl
             & _ & _ & E & Hst & S & _) & _).
  exists r3, g', ts, st. split; [exact E|]. split; [exact S|].
  destruct Hst as [[H _] | [H _]]; [left | right]; exact H.
Defined.

Lemma ended_row_exists ts st sid (rows : list session_row) :
  existsb (fun r => (s_id r =? sid)%Z) rows = true ->
  exists row,
    In row (map (update_session_row ts st sid) rows)
    /\ s_id row = sid /\ s_status row = st /\ s_ended_at row = Some ts.
Proof.
  intro H. apply existsb_exists in H. destruct H as (r & Hin & Hid).
  exists (update_session_row ts st sid r).
  split; [apply in_map; exact Hin|].
  unfold update_session_row. rewrite Hid. simpl.
  apply Z.eqb_eq in Hid. repeat split; [exact Hid]. 
Qed.

(** C9: [end_session] sets ended-at and the status of the bound session
    and returns the logger itself: [session_id], the connection and the
    path are the same, as are the other tables; a later [log_sensor],
    [log_command] or [log_event] returns normally and appends a row keyed
    to the session that has ended. *)
Theorem end_session_keeps_binding (sid : Z) (g : Globals) (st : string) :
  active sid g -> check_status st = true ->
  exists w' ts,
    TelemetryLogger.end_session st (telemetry g, world g)
    = ((telemetry g, w'), Ok tt)
    /\ sessions (database w')
       = map (update_session_row ts st sid) (sessions (database (world g)))
    /\ (exists row,
          In row (sessions (database w'))
          /\ s_id row = sid /\ s_status row = st /\ s_ended_at row = Some ts)
    /\ same_rows g {| telemetry := telemetry g; world := w' |}
    /\ (forall name v u,
          exists w2,
            TelemetryLogger.log_sensor name v u (telemetry g, w')
            = ((telemetry g, w2), Ok tt)
            /\ map sensor_key (sensor_readings (database w2))
               = map sensor_key (sensor_readings (database w'))
                 ++ [(sid, name)])
    /\ (forall name v u,
          exists w2,
            TelemetryLogger.log_command name v u (telemetry g, w')
            = ((telemetry g, w2), Ok tt)
            /\ map command_key (actuator_commands (database w2))
               = map command_key (actuator_commands (database w'))
                 ++ [(sid, name)])
    /\ (forall ty sev msg,
          check_severity sev = true ->
          exists w2,
            TelemetryLogger.log_event ty sev msg (telemetry g, w')
            = ((telemetry g, w2), Ok tt)
            /\ map event_key (events (database w2))
               = map event_key (events (database w'))
                 ++ [(sid, (ty, sev))]).
Proof.
  intros Ha Hst.
  destruct (end_session_active sid g st Ha Hst) as (w' & E & R & S & L).
  set (g' := {| telemetry := telemetry g; world := w' |}).
  assert (Ha' : active sid g').
  { destruct Ha as (H1 & H2 & H3). unfold active, connected, has_session.
    simpl. split; [exact H1|]. split; [exact H2|].
    rewrite S. unfold has_session in H3.
    destruct (ended_row_exists (clock (world g)) st sid _ H3)
      as (row & Hin & Hid & _).
    apply existsb_exists. exists row. split; [exact Hin|].
    apply Z.eqb_eq. exact Hid. }
  exists w', (clock (world g)).
  split; [exact E|]. split; [exact S|]. split.
  { rewrite S. apply ended_row_exists. apply Ha. }
  split; [exact R|]. split; [|split].
  - intros name v u.
    destruct (log_sensor_active sid g' name v u Ha') as (w2 & E2 & H2).
    exists w2. split; [exact E2|].
    destruct H2 as (_ & _ & _ & _ & _ & H6 & _). exact H6.
  - intros name v u.
    destruct (log_command_active sid g' name v u Ha') as (w2 & E2 & H2).
    exists w2. split; [exact E2|].
    destruct H2 as (_ & _ & _ & _ & _ & _ & H7 & _). exact H7.
  - intros ty sev msg Hsev.
    destruct (log_event_active sid g' ty sev msg Ha' Hsev) as (w2 & E2 & H2).
    exists w2. split; [exact E2|].
    destruct H2 as (_ & _ & _ & _ & _ & _ & _ & H8 & _). exact H8.
Qed.

(** On the scripted state: the session has ended and the logger, still
    bound to it, accepts a late event. *)
Lemma end_session_keeps_binding_witness :
  let g := snd (fst (LineFollowerRobot.tele
                       (TelemetryLogger.start_session VARIANT_ID)
                       (LineFollowerRobot.init 5, fresh_globals unreachable))) in
  exists w' ts,
    TelemetryLogger.end_session "completed" (telemetry g, world g)
    = ((telemetry g, w'), Ok tt)
    /\ (exists row,
          In row (sessions (database w'))
          /\ s_id row = 1%Z /\ s_status row = "completed"%string
          /\ s_ended_at row = Some ts)
    /\ exists w2,
         TelemetryLogger.log_event "late" "info" "after the end"
           (telemetry g, w') = ((telemetry g, w2), Ok tt).
Proof.
  intro g.
  assert (Ha : active 1 g).
  { unfold active. repeat split; reflexivity. }
  destruct (end_session_keeps_binding 1 g "completed" Ha eq_refl)
    as (w' & ts & E & _ & Hrow & _ & _ & _ & Hev).
  exists w', ts. split; [exact E|]. split; [exact Hrow|].
  destruct (Hev "late"%string "info"%string "after the end"%string eq_refl)
    as (w2 & E2 & _).
  exists w2. exact E2.
Defined.

(** C10: [TrackState.update] raises [ZeroDivisionError] on the empty list
    and returns a boolean on every non-empty list.  [read_normalized]
    yields one value per sensor, so the orchestrator feeds it a non-empty
    list exactly when the sensor count is at least 1: with no sensor every
    step of [follow_step] raises [ZeroDivisionError]. *)
Theorem track_update_needs_nonempty :
  TrackState.update [] = Raise ZeroDivisionError
  /\ (forall v vs, exists b, TrackState.update (v :: vs) = Ok b)
  /\ (forall raw self self' norm,
        IRLineSensor.read_normalized raw self = (self', Ok norm) ->
        List.length norm = IRLineSensor.n self)
  /\ (forall remote counts step raw r g,
        IRLineSensor.n (LineFollowerRobot.sensor r) = 0%nat ->
        snd (LineFollowerRobot.follow_step remote counts step raw (r, g))
        = Raise ZeroDivisionError).
Proof.
  split; [reflexivity|]. split; [|split].
  - intros v vs. eexists. apply update_cons.
  - apply read_normalized_length.
  - intros remote counts step raw r g Hn0.
    unfold LineFollowerRobot.follow_step. cbv zeta.
    destruct (noisy_run 0 r g raw) as (g1 & noisy & E1 & _ & _).
    rewrite (bind_ok _ _ _ _ _ E1).
    assert (E2 : IRLineSensor.read_normalized noisy (LineFollowerRobot.sensor r)
                 = (LineFollowerRobot.sensor r, Ok [])).
    { unfold IRLineSensor.read_normalized.
      rewrite (bind_ok _ _ _ _ _ (gets_run _ _)). rewrite Hn0. reflexivity. }
    rewrite (bind_ok _ _ _ _ _ (self_sensor_run _ r g1 _ E2)).
    cbn [enumerate for_each].
    rewrite (bind_ok _ _ _ _ _ (eq_refl : ret tt (r, g1) = ((r, g1), Ok tt))).
    rewrite (bind_ok _ _ _ _ _ (gets_run _ _)). cbn [fst]. rewrite Hn0.
    assert (E4 := lateral_error_run _ 0%nat [] (r, g1) (le_n 0)).
    set (e := if (_ =? 0)%Z then _ else _) in E4.
    rewrite (bind_ok _ _ _ _ _ E4).
    assert (Hdt : ~ PIDController.default_dt == 0) by discriminate.
    assert (E5 := pid_update_run (LineFollowerRobot.pid r) e _ Hdt).
    rewrite (bind_ok _ _ _ _ _ (self_pid_run _ r g1 _ _ E5)).
    reflexivity.
Qed.

(** C8 (as amended): with five sensors fresh from [__init__] (white 1.0,
    black 0.0), noise disabled and fresh controller state, the frame
    [0.9, 0.6, 0.2, 0.6, 0.9] gives normalized values within 1e-6 of the
    frame, lateral error 0, PID output 0, motor commands (0.5, 0.5) and a
    track-state mean within 1e-6 of 0.64, classified on track. *)
Theorem first_step_on_symmetric_frame :
  exists loc a,
    first_step_locals = Some loc
    /\ all2 (close_to 1e-6) (l_norm loc) frame1 = true
    /\ l_error loc == 0
    /\ l_pid_out loc == 0
    /\ l_left loc == 0.5
    /\ l_right loc == 0.5
    /\ TrackState.avg (l_norm loc) = Ok a
    /\ close_to 1e-6 a 0.64 = true
    /\ l_on_track loc = true.
Proof.
  do 2 eexists.
  split; [vm_compute; reflexivity|].
  split; [vm_compute; reflexivity|].
  split; [vm_compute; reflexivity|].
  split; [vm_compute; reflexivity|].
  split; [vm_compute; reflexivity|].
  split; [vm_compute; reflexivity|].
  split; [vm_compute; reflexivity|].
  split; vm_compute; reflexivity.
Qed.

(** C8 (as stated) fails: the track-state mean of that step is not 0.46,
    not even within 0.1. *)
Lemma first_step_mean_is_not_046 :
  ~ (exists loc a,
       first_step_locals = Some loc
       /\ TrackState.avg (l_norm loc) = Ok a
       /\ close_to 0.1 a 0.46 = true).
Proof.
  intros (loc & a & H1 & H2 & H3).
  vm_compute in H1. injection H1 as <-.
  vm_compute in H2. injection H2 as <-.
  vm_compute in H3. discriminate.
Qed.

(** ** [read_normalized] on ordered levels *)

Lemma all2_from_nth {A B} (f : A -> B -> bool) (dx : A) (dy : B) :
  forall (xs : list A) (ys : list B),
  List.length xs = List.length ys ->
  (forall j, (j < List.length xs)%nat -> f (nth j xs dx) (nth j ys dy) = true) ->
  all2 f xs ys = true.
Proof.
  induction xs as [|x xs IH]; intros [|y ys] HL H; simpl in *;
    try discriminate; [reflexivity|].
  rewrite (H 0%nat ltac:(lia)). simpl.
  apply IH; [lia|]. intros j Hj. apply (H (S j)). lia.
Qed.

Lemma ordered_levels_regular (self : IRLineSensor.t) :
  sensor_shaped self = true ->
  (forall i, (i < IRLineSensor.n self)%nat ->
     nth i (IRLineSensor.black self) 0 <= nth i (IRLineSensor.white self) 0) ->
  sensor_regular self = true.
Proof.
  intros Hs Hord. unfold sensor_regular. rewrite Hs. simpl.
  apply sensor_shaped_parts in Hs. destruct Hs as [Lw Lb].
  apply (all2_from_nth regular_channel 0 0); [congruence|].
  intros j Hj. rewrite Lw in Hj. specialize (Hord j Hj).
  unfold regular_channel. apply negb_true_iff.
  destruct (Qeq_bool _ 0) eqn:Eq; [|reflexivity].
  apply Qeq_bool_iff in Eq. exfalso.
  assert (Ee : IRLineSensor.epsilon == 1 # 1000000) by reflexivity.
  rewrite Ee in Eq. lra.
Qed.

(** C4 (as amended): on a stored calibration in which no black level
    exceeds its white level (equal levels included), [read_normalized]
    returns, for each channel, the clamp to [0, 1] of
    [(raw - black) / (white - black + 1e-6)]; every value lies in
    [0, 1], there is one per channel, and the calibration is not
    modified.  With equal levels the divisor is 1e-6. *)
Theorem read_normalized_clamps_ordered_levels
    (raw : list Q) (self : IRLineSensor.t) :
  sensor_shaped self = true ->
  (forall i, (i < IRLineSensor.n self)%nat ->
     nth i (IRLineSensor.black self) 0 <= nth i (IRLineSensor.white self) 0) ->
  (IRLineSensor.n self <= List.length raw)%nat ->
  exists norm,
    IRLineSensor.read_normalized raw self = (self, Ok norm)
    /\ List.length norm = IRLineSensor.n self
    /\ forall i, (i < IRLineSensor.n self)%nat ->
         let w := nth i (IRLineSensor.white self) 0 in
         let b := nth i (IRLineSensor.black self) 0 in
         let r := nth i raw 0 in
         nth i norm 0 == clamp 0 1 ((r - b) / (w - b + 1e-6))
         /\ 0 <= nth i norm 0 <= 1
         /\ (w == b -> nth i norm 0 == clamp 0 1 ((r - b) / 1e-6)).
Proof.
  intros Hs Hord Hraw.
  assert (Hreg := ordered_levels_regular self Hs Hord).
  destruct (read_normalized_in_unit_interval raw self Hreg Hraw)
    as (norm & E & L & H).
  exists norm. split; [exact E|]. split; [exact L|].
  intros i Hi w b r. destruct (H i Hi) as [V R].
  fold w b r in V. change IRLineSensor.epsilon with 1e-6 in V.
  split; [exact V|]. split; [exact R|].
  intro Ewb. rewrite V.
  assert (Ed : w - b + 1e-6 == 1e-6) by (rewrite Ewb; ring).
  unfold clamp.
  rewrite (Qleb_comp _ _ (Qdiv_comp _ _ (Qeq_refl (r - b)) _ _ Ed)
                     _ _ (Qeq_refl 0)).
  rewrite (Qleb_comp _ _ (Qeq_refl 1)
                     _ _ (Qdiv_comp _ _ (Qeq_refl (r - b)) _ _ Ed)).
  destruct (Qle_bool ((r - b) / 1e-6) 0); [reflexivity|].
  destruct (Qle_bool 1 ((r - b) / 1e-6)); [reflexivity|].
  rewrite Ed. reflexivity.
Qed.

Lemma read_normalized_clamps_ordered_levels_witness :
  exists norm,
    IRLineSensor.read_normalized [0.25; 0.5]
      {| IRLineSensor.n := 2; IRLineSensor.white := [0.5; 1];
         IRLineSensor.black := [0.5; 0] |}
    = ({| IRLineSensor.n := 2; IRLineSensor.white := [0.5; 1];
          IRLineSensor.black := [0.5; 0] |}, Ok norm)
    /\ 0 <= nth 0 norm 0 <= 1.
Proof.
  destruct (read_normalized_clamps_ordered_levels [0.25; 0.5]
              {| IRLineSensor.n := 2; IRLineSensor.white := [0.5; 1];
                 IRLineSensor.black := [0.5; 0] |} eq_refl)
    as (norm & E & _ & H).
  - intros i Hi. simpl in Hi.
    destruct i as [|[|i]]; simpl; try lia; discriminate.
  - simpl. lia.
  - exists norm. split; [exact E|].
    destruct (H 0%nat ltac:(simpl; lia)) as (_ & R & _). exact R.
Defined.

Section ZeroDivisor.
Import Floats.

(** C4 (as stated) fails: with white level 0 and black level 1e-6 on a
    channel (both within [0, 1]) the divisor [w - b + 1e-6] is zero and
    [read_normalized] raises [ZeroDivisionError] instead of returning a
    value in [0, 1].  [calibrate] stores this calibration from the levels
    [0.0] and [1e-6] when both draws of the generator are 0.  Every step
    is exact in binary64 as well. *)
Lemma read_normalized_zero_divisor :
  let self := {| IRLineSensor.n := 1; IRLineSensor.white := [0];
                 IRLineSensor.black := [1e-6] |} in
  let w := {| database := empty_db; clock := 0;
              random_source := fun _ => 0; random_draws := 0;
              server := fun _ _ => ConnectionFailed; http_sent := [] |} in
  IRLineSensor.read_normalized [0.5] self = (self, Raise ZeroDivisionError)
  /\ (let s := fst (IRLineSensor.calibrate [0] [1e-6]
                      (IRLineSensor.init 1, w)) in
      map Qred (IRLineSensor.white (fst s)) = [0]
      /\ map Qred (IRLineSensor.black (fst s)) = [1e-6]
      /\ snd (IRLineSensor.read_normalized [0.5] (fst s))
         = Raise ZeroDivisionError)
  /\ Float64.stored_level 0 (Float64.uniform (-0.05) 0 0) = 0%float
  /\ Float64.stored_level 1e-6 (Float64.uniform 0 0.05 0) = 1e-6%float
  /\ Float64.normalized_channel 0 1e-6 0.5 = Raise ZeroDivisionError.
Proof.
  cbv zeta. split; [reflexivity|]. repeat split; vm_compute; reflexivity.
Qed.

End ZeroDivisor.

(* ================================================================= *)
(** * Further properties of the code *)

(** ** The recorder without a connection or a session *)

(** X1: unless the logger holds both an open connection and a started
    session, [end_session], [log_sensor], [log_command] and [log_event]
    raise [AssertionError] and change neither the logger nor the world;
    without a connection [start_session] does the same. *)
Theorem logger_needs_connection_and_session
    (self : TelemetryLogger.t) (w : World) :
  TelemetryLogger._conn self = None \/ TelemetryLogger.session_id self = None ->
  (forall st, TelemetryLogger.end_session st (self, w)
              = ((self, w), Raise AssertionError))
  /\ (forall ty v u, TelemetryLogger.log_sensor ty v u (self, w)
                     = ((self, w), Raise AssertionError))
  /\ (forall ty v st, TelemetryLogger.log_command ty v st (self, w)
                      = ((self, w), Raise AssertionError))
  /\ (forall ty sev msg, TelemetryLogger.log_event ty sev msg (self, w)
                         = ((self, w), Raise AssertionError))
  /\ (TelemetryLogger._conn self = None ->
      forall v, TelemetryLogger.start_session v (self, w)
                = ((self, w), Raise AssertionError)).
Proof.
  intro H. destruct self as [p c s]. simpl in H.
  repeat split; intros;
    destruct c as [c|]; destruct s as [s|];
    try (destruct H; discriminate); try discriminate; reflexivity.
Qed.

Lemma logger_needs_connection_and_session_witness :
  TelemetryLogger.log_event "late" "info" "x"
    (TelemetryLogger.init "robot_telemetry.db",
     world (fresh_globals unreachable))
  = ((TelemetryLogger.init "robot_telemetry.db",
      world (fresh_globals unreachable)), Raise AssertionError).
Proof.
  apply (logger_needs_connection_and_session
           (TelemetryLogger.init "robot_telemetry.db")
           (world (fresh_globals unreachable)) (or_introl eq_refl)).
Defined.

(** X2: [close] drops the connection and nothing else: the bound session
    id, the path and the world stay, closing twice is closing once, and
    afterwards every recording method ([start_session], [end_session],
    [log_sensor], [log_command], [log_event]) raises [AssertionError]
    and changes nothing; [connect] restores the connection with the
    session id still bound. *)
Theorem close_disables_recording (self : TelemetryLogger.t) (w : World) :
  let s := fst (TelemetryLogger.close (self, w)) in
  TelemetryLogger.close (self, w)
  = ((TelemetryLogger.set_conn None self, w), Ok tt)
  /\ TelemetryLogger.close s = (s, Ok tt)
  /\ (forall v, TelemetryLogger.start_session v s = (s, Raise AssertionError))
  /\ (forall st, TelemetryLogger.end_session st s = (s, Raise AssertionError))
  /\ (forall ty v u,
        TelemetryLogger.log_sensor ty v u s = (s, Raise AssertionError))
  /\ (forall ty c st,
        TelemetryLogger.log_command ty c st s = (s, Raise AssertionError))
  /\ (forall ty sev msg,
        TelemetryLogger.log_event ty sev msg s = (s, Raise AssertionError))
  /\ (let s2 := fst (TelemetryLogger.connect s) in
      TelemetryLogger._conn (fst s2)
      = Some (Connect (TelemetryLogger.db_path self))
      /\ TelemetryLogger.session_id (fst s2) = TelemetryLogger.session_id self
      /\ snd s2 = w).
Proof.
  destruct self as [p [c|] [i|]]; repeat split; reflexivity.
Qed.

(** ** Constraints of the schema *)

Lemma update_twice ts1 st1 ts2 st2 sid (rows : list session_row) :
  map (update_session_row ts2 st2 sid)
      (map (update_session_row ts1 st1 sid) rows)
  = map (update_session_row ts2 st2 sid) rows.
Proof.
  rewrite map_map. apply map_ext. intro r.
  unfold update_session_row.
  destruct (s_id r =? sid)%Z eqn:E; simpl; rewrite E; reflexivity.
Qed.

(** X3: [end_session] does not look at the current status: called again
    on a session that has already ended it succeeds and overwrites both
    the status and ended-at, leaving the table as a single call with the
    second status at the later time would. *)
Theorem end_session_twice_overwrites (sid : Z) (g : Globals) (st1 st2 : string) :
  active sid g -> check_status st1 = true -> check_status st2 = true ->
  exists w2,
    (TelemetryLogger.end_session st1;; TelemetryLogger.end_session st2)
      (telemetry g, world g) = ((telemetry g, w2), Ok tt)
    /\ sessions (database w2)
       = map (update_session_row (S (clock (world g))) st2 sid)
             (sessions (database (world g)))
    /\ (exists row,
          In row (sessions (database w2)) /\ s_id row = sid
          /\ s_status row = st2
          /\ s_ended_at row = Some (S (clock (world g)))).
Proof.
  intros Ha H1 H2.
  destruct (end_session_active sid g st1 Ha H1) as (w1 & E1 & R1 & S1 & L1).
  set (g1 := {| telemetry := telemetry g; world := w1 |}).
  assert (Ha1 : active sid g1).
  { destruct Ha as (A1 & A2 & A3). unfold active, connected, has_session.
    simpl. split; [exact A1|]. split; [exact A2|]. rewrite S1.
    destruct (ended_row_exists (clock (world g)) st1 sid _ A3)
      as (row & Hin & Hid & _).
    apply existsb_exists. exists row. split; [exact Hin|].
    apply Z.eqb_eq. exact Hid. }
  destruct (end_session_active sid g1 st2 Ha1 H2) as (w2 & E2 & R2 & S2 & L2).
  simpl in E2, S2.
  assert (Hclock : clock w1 = S (clock (world g))).
  { revert E1. open_active g Ha. run_logger. rewrite H1. simpl.
    intro E. inversion E. reflexivity. }
  exists w2. split; [|split].
  - rewrite (bind_ok _ _ _ _ _ E1). exact E2.
  - rewrite S2, S1, update_twice, Hclock. reflexivity.
  - rewrite S2, S1, update_twice, Hclock.
    apply ended_row_exists. apply Ha.
Qed.

Lemma end_session_twice_overwrites_witness :
  let g := snd (fst (LineFollowerRobot.tele
                       (TelemetryLogger.start_session VARIANT_ID)
                       (LineFollowerRobot.init 5, fresh_globals unreachable))) in
  exists w2,
    (TelemetryLogger.end_session "completed";;
     TelemetryLogger.end_session "error") (telemetry g, world g)
    = ((telemetry g, w2), Ok tt)
    /\ exists row,
         In row (sessions (database w2)) /\ s_id row = 1%Z
         /\ s_status row = "error"%string.
Proof.
  intro g.
  assert (Ha : active 1 g) by (unfold active; repeat split; reflexivity).
  destruct (end_session_twice_overwrites 1 g "completed" "error" Ha
              eq_refl eq_refl) as (w2 & E & _ & row & Hin & Hid & Hst & _).
  exists w2. split; [exact E|]. exists row. repeat split; assumption.
Defined.

(** X4: a status outside running/completed/error makes [end_session]
    raise [IntegrityError], and a severity outside info/warning/error
    makes [log_event] raise it; the store and the logger are unchanged
    (only the clock has been read), so the session stays as it was. *)
Theorem schema_checks_reject_bad_values (sid : Z) (g : Globals) :
  active sid g ->
  (forall st,
     check_status st = false ->
     exists w',
       TelemetryLogger.end_session st (telemetry g, world g)
       = ((telemetry g, w'), Raise IntegrityError)
       /\ database w' = database (world g))
  /\ (forall ty sev msg,
        check_severity sev = false ->
        exists w',
          TelemetryLogger.log_event ty sev msg (telemetry g, world g)
          = ((telemetry g, w'), Raise IntegrityError)
          /\ database w' = database (world g)).
Proof.
  intro Ha. split.
  - intros st Hst. open_active g Ha. run_logger. rewrite Hst. simpl.
    eexists. split; reflexivity.
  - intros ty sev msg Hsev. open_active g Ha. run_logger. rewrite Hsev. simpl.
    eexists. split; reflexivity.
Qed.

Lemma schema_checks_reject_bad_values_witness :
  let g := snd (fst (LineFollowerRobot.tele
                       (TelemetryLogger.start_session VARIANT_ID)
                       (LineFollowerRobot.init 5, fresh_globals unreachable))) in
  exists w',
    TelemetryLogger.end_session "done" (telemetry g, world g)
    = ((telemetry g, w'), Raise IntegrityError)
    /\ database w' = database (world g).
Proof.
  intro g.
  assert (Ha : active 1 g) by (unfold active; repeat split; reflexivity).
  destruct (schema_checks_reject_bad_values 1 g Ha) as [H _].
  exact (H "done"%string eq_refl).
Defined.

(** ** Relations kept by the whole run *)

Lemma keeps_try_except {S A} (R : S -> S -> Prop)
    (body : M S A) (handler : exn -> M S A) :
  (forall s1 s2 s3, R s1 s2 -> R s2 s3 -> R s1 s3) ->
  keeps R body -> (forall e, keeps R (handler e)) ->
  keeps R (try_except body handler).
Proof.
  intros Rt Hb Hh s. unfold try_except. specialize (Hb s).
  destruct (body s) as [s1 [a|e]]; simpl in *.
  - exact Hb.
  - eapply Rt; [exact Hb | apply Hh].
Qed.

Lemma keeps_ext {S A} (R : S -> S -> Prop) (m m' : M S A) :
  (forall s, m s = m' s) -> keeps R m' -> keeps R m.
Proof. intros E H s. rewrite E. apply H. Qed.

Lemma on_globals_bind {X A B} (m : M Globals A) (k : A -> M Globals B)
    (s : X * Globals) :
  on_globals (bind m k) s
  = bind (on_globals m) (fun a => on_globals (k a)) s.
Proof.
  destruct s as [x g]. unfold on_globals, zoom, bind. simpl.
  destruct (m g) as [g1 [a|e]]; simpl; reflexivity.
Qed.

Section RunKeeps.
Variable R : LineFollowerRobot.t * Globals ->
             LineFollowerRobot.t * Globals -> Prop.
Hypothesis R_refl : forall s, R s s.
Hypothesis R_trans : forall s1 s2 s3, R s1 s2 -> R s2 s3 -> R s1 s3.
Hypothesis R_start :
  forall v, keeps R (LineFollowerRobot.tele (TelemetryLogger.start_session v)).
Hypothesis R_end :
  forall st, keeps R (LineFollowerRobot.tele (TelemetryLogger.end_session st)).
Hypothesis R_log_sensor :
  forall ty v u,
    keeps R (LineFollowerRobot.tele (TelemetryLogger.log_sensor ty v u)).
Hypothesis R_log_command :
  forall ty v st,
    keeps R (LineFollowerRobot.tele (TelemetryLogger.log_command ty v st)).
Hypothesis R_log_event :
  forall ty sev msg,
    keeps R (LineFollowerRobot.tele (TelemetryLogger.log_event ty sev msg)).
Hypothesis R_glob :
  forall A (m : M World A),
    (forall w, exists sent, quiet sent w (fst (m w))) ->
    keeps R (LineFollowerRobot.glob m).
Hypothesis R_pid :
  forall e dt,
    keeps R (LineFollowerRobot.self_pid (PIDController.update e dt)).
Hypothesis R_read :
  forall raw,
    keeps R (LineFollowerRobot.self_sensor
               (IRLineSensor.read_normalized raw)).

Local Ltac kbind := apply keeps_bind; [exact R_trans | |].

Lemma run_keeps_drive base diff :
  keeps R (on_globals (MotorPair.drive base diff)).
Proof.
  unfold MotorPair.drive. cbv zeta.
  eapply keeps_ext; [intro s; apply on_globals_bind|].
  kbind; [apply R_log_command | intros _].
  eapply keeps_ext; [intro s; apply on_globals_bind|].
  kbind; [apply R_log_command | intros _].
  apply keeps_unchanged; [exact R_refl|]. intros [r g]. reflexivity.
Qed.

Lemma run_keeps_http_sensor remote ty v u :
  keeps R (LineFollowerRobot.glob (http_log_sensor remote ty v u)).
Proof.
  apply R_glob. intro w.
  destruct (http_log_sensor_quiet remote ty v u w) as (w' & sent & E & Q & _).
  rewrite E. eexists; exact Q.
Qed.

Lemma run_keeps_http_actuator remote ty v st :
  keeps R (LineFollowerRobot.glob (http_log_actuator remote ty v st)).
Proof.
  apply R_glob. intro w.
  destruct (http_log_actuator_quiet remote ty v st w)
    as (w' & sent & E & Q & _).
  rewrite E. eexists; exact Q.
Qed.

Lemma run_keeps_http_event remote ty sev msg :
  keeps R (LineFollowerRobot.glob (http_log_event remote ty sev msg)).
Proof.
  apply R_glob. intro w.
  destruct (http_log_event_quiet remote ty sev msg w)
    as (w' & sent & E & Q & _).
  rewrite E. eexists; exact Q.
Qed.

Lemma run_keeps_http_end remote st :
  keeps R (LineFollowerRobot.glob (http_end_session remote st)).
Proof.
  apply R_glob. intro w.
  destruct (http_end_session_quiet remote st w) as (w' & sent & E & Q & _).
  rewrite E. eexists; exact Q.
Qed.

Lemma run_keeps_follow_step remote counts step raw :
  keeps R (LineFollowerRobot.follow_step remote counts step raw).
Proof.
  unfold LineFollowerRobot.follow_step.
  kbind; [|intro noisy].
  { apply keeps_list_comp; [exact R_refl | exact R_trans | intro v].
    kbind; [|intro; apply keeps_ret, R_refl].
    apply R_glob. intro w.
    destruct (random_uniform_quiet (-0.05) 0.05 w) as (w' & x & E & Q).
    rewrite E. eexists; exact Q. }
  kbind; [apply R_read | intro norm].
  kbind; [|intros _].
  { apply keeps_for_each; [exact R_refl | exact R_trans | intro iv].
    cbv zeta. kbind; [apply R_log_sensor | intros _].
    apply run_keeps_http_sensor. }
  kbind; [apply keeps_gets, R_refl | intro n_].
  kbind; [|intro error].
  { apply keeps_unchanged; [exact R_refl|]. apply lateral_error_unchanged. }
  kbind; [apply R_pid | intro pid_out].
  kbind; [apply keeps_lift, R_refl | intro on_track].
  kbind; [|intro counts'].
  { destruct on_track; [apply keeps_ret, R_refl|]. cbv zeta.
    kbind; [apply R_log_event | intros _].
    kbind; [apply run_keeps_http_event | intros _; apply keeps_ret, R_refl]. }
  kbind; [apply run_keeps_drive | intro lr].
  kbind; [apply run_keeps_http_actuator | intros _].
  kbind; [apply run_keeps_http_actuator | intros _; apply keeps_ret, R_refl].
Qed.

Lemma run_keeps_follow_steps remote frames :
  forall counts,
  keeps R (LineFollowerRobot.follow_steps remote counts frames).
Proof.
  induction frames as [|[step raw] rest IH]; intro counts;
    cbn [LineFollowerRobot.follow_steps].
  - apply keeps_ret, R_refl.
  - kbind; [apply run_keeps_follow_step | intro r; apply IH].
Qed.

Lemma run_keeps_follow_line ms label :
  keeps R (LineFollowerRobot.follow_line ms label).
Proof.
  unfold LineFollowerRobot.follow_line.
  kbind; [|intro remote].
  { unfold LineFollowerRobot.follow_line_entry.
    kbind; [apply R_start | intro sid].
    kbind; [|intro remote].
    { apply R_glob. intro w.
      destruct (http_create_session_quiet w) as (w' & rem & E & Q & _).
      rewrite E. eexists; exact Q. }
    kbind; [|intros _].
    { destruct remote; [apply run_keeps_http_event | apply R_log_event]. }
    kbind; [apply R_log_event | intros _; apply keeps_ret, R_refl]. }
  apply keeps_try_except; [exact R_trans | | intro e].
  - unfold LineFollowerRobot.follow_line_try.
    kbind; [apply run_keeps_follow_steps | intro counts]. cbv zeta.
    kbind; [apply R_log_event | intros _].
    kbind; [apply run_keeps_http_event | intros _].
    kbind; [apply R_end | intros _]. apply run_keeps_http_end.
  - unfold LineFollowerRobot.follow_line_except. cbv zeta.
    kbind; [apply R_log_event | intros _].
    kbind; [apply run_keeps_http_event | intros _].
    kbind; [apply R_end | intros _]. apply run_keeps_http_end.
Qed.
End RunKeeps.

(** ** The integrity of the store *)

Lemma update_keeps_id ts st sid r : s_id (update_session_row ts st sid r) = s_id r.
Proof. unfold update_session_row. destruct (s_id r =? sid)%Z; reflexivity. Qed.

Lemma has_session_ext (d d' : DB) :
  map s_id (sessions d') = map s_id (sessions d) ->
  forall x, has_session d' x = has_session d x.
Proof.
  intros E x. unfold has_session.
  assert (H : forall rows,
            existsb (fun r => (s_id r =? x)%Z) rows
            = existsb (fun i => (i =? x)%Z) (map s_id rows)).
  { induction rows as [|r rows IH]; simpl; [reflexivity|].
    rewrite IH. reflexivity. }
  rewrite !H, E. reflexivity.
Qed.

Lemma store_ok_same_sessions (d d' : DB) :
  map s_id (sessions d') = map s_id (sessions d) ->
  Forall (fun r => check_status (s_status r) = true) (sessions d') ->
  Forall (fun r => has_session d' (r_session_id r) = true) (sensor_readings d') ->
  Forall (fun c => has_session d' (c_session_id c) = true)
         (actuator_commands d') ->
  Forall (fun e => has_session d' (e_session_id e) = true
                   /\ check_severity (e_severity e) = true) (events d') ->
  store_ok d -> store_ok d'.
Proof.
  intros E H2 H3 H4 H5 (K1 & _). unfold store_ok. rewrite E.
  repeat split; assumption.
Qed.

Lemma next_rowid_not_in (ids : list Z) : ~ In (next_rowid ids) ids.
Proof.
  intro H. assert (B := fold_max_bound ids).
  rewrite Forall_forall in B. specialize (B _ H). unfold next_rowid in B. lia.
Qed.

Lemma db_insert_session_ok v ts st d :
  store_ok d -> store_ok (fst (db_insert_session v ts st d)).
Proof.
  intros (K1 & K2 & K3 & K4 & K5). unfold db_insert_session.
  destruct (check_status st) eqn:Hst; simpl;
    [|repeat split; assumption].
  assert (Hmono : forall x, has_session d x = true ->
            existsb (fun r => (s_id r =? x)%Z)
              (sessions d ++
               [{| s_id := next_rowid (map s_id (sessions d));
                   s_variant_id := v; s_started_at := ts;
                   s_ended_at := None; s_status := st |}]) = true).
  { intros x Hx. rewrite existsb_app. unfold has_session in Hx.
    rewrite Hx. reflexivity. }
  unfold store_ok, has_session; simpl. split; [|split; [|split; [|split]]].
  - rewrite map_app. simpl.
    apply NoDup_app; [exact K1 | repeat constructor; intros [] |].
    intros x Hx [<-|[]]. exact (next_rowid_not_in _ Hx).
  - apply Forall_app. split; [exact K2 | repeat constructor; exact Hst].
  - eapply Forall_impl; [|exact K3]. intros r Hr. apply Hmono, Hr.
  - eapply Forall_impl; [|exact K4]. intros r Hr. apply Hmono, Hr.
  - eapply Forall_impl; [|exact K5]. intros r [Hr Hs].
    split; [apply Hmono, Hr | exact Hs].
Qed.

Lemma db_update_session_ok ts st sid d :
  store_ok d -> store_ok (fst (db_update_session ts st sid d)).
Proof.
  intros K. unfold db_update_session.
  destruct (check_status st) eqn:Hst; simpl; [|exact K].
  match goal with |- store_ok ?x => set (d' := x) end.
  assert (E : map s_id (sessions d') = map s_id (sessions d)).
  { unfold d'; simpl. rewrite map_map. apply map_ext. intro r.
    apply update_keeps_id. }
  assert (Hh := has_session_ext d d' E).
  assert (K' := K). destruct K' as (K1 & K2 & K3 & K4 & K5).
  apply (store_ok_same_sessions d d' E); [ | | | | exact K].
  - unfold d'; simpl. rewrite Forall_map.
    eapply Forall_impl; [|exact K2]. intros r Hr.
    unfold update_session_row. destruct (s_id r =? sid)%Z; [exact Hst | exact Hr].
  - eapply Forall_impl; [|exact K3]. intros r Hr. rewrite Hh. exact Hr.
  - eapply Forall_impl; [|exact K4]. intros r Hr. rewrite Hh. exact Hr.
  - eapply Forall_impl; [|exact K5]. intros r [Hr Hs].
    rewrite Hh. split; assumption.
Qed.

Lemma db_insert_sensor_ok sid ty ts v u d :
  store_ok d -> store_ok (fst (db_insert_sensor sid ty ts v u d)).
Proof.
  intros K. unfold db_insert_sensor.
  destruct (has_session d sid) eqn:Hs; simpl; [|exact K].
  destruct K as (K1 & K2 & K3 & K4 & K5).
  unfold store_ok, has_session; simpl. repeat split; try assumption.
  apply Forall_app. split; [exact K3 | repeat constructor; exact Hs].
Qed.

Lemma db_insert_command_ok sid ty ts v st d :
  store_ok d -> store_ok (fst (db_insert_command sid ty ts v st d)).
Proof.
  intros K. unfold db_insert_command.
  destruct (has_session d sid) eqn:Hs; simpl; [|exact K].
  destruct K as (K1 & K2 & K3 & K4 & K5).
  unfold store_ok, has_session; simpl. repeat split; try assumption.
  apply Forall_app. split; [exact K4 | repeat constructor; exact Hs].
Qed.

Lemma db_insert_event_ok sid ts ty sev msg d :
  store_ok d -> store_ok (fst (db_insert_event sid ts ty sev msg d)).
Proof.
  intros K. unfold db_insert_event.
  destruct (check_severity sev) eqn:Hv; simpl; [|exact K].
  destruct (has_session d sid) eqn:Hs; simpl; [|exact K].
  destruct K as (K1 & K2 & K3 & K4 & K5).
  unfold store_ok, has_session; simpl. repeat split; try assumption.
  apply Forall_app. split; [exact K5 | repeat constructor; assumption].
Qed.

(** The database after a logger method is the one before it or the result
    of the statement the method runs. *)
Lemma logger_method_store (s : TelemetryLogger.t * World) :
  (forall v,
     database (snd (fst (TelemetryLogger.start_session v s)))
     = database (snd s)
     \/ exists ts,
          database (snd (fst (TelemetryLogger.start_session v s)))
          = fst (db_insert_session v ts "running" (database (snd s))))
  /\ (forall st,
        database (snd (fst (TelemetryLogger.end_session st s)))
        = database (snd s)
        \/ exists ts sid,
             database (snd (fst (TelemetryLogger.end_session st s)))
             = fst (db_update_session ts st sid (database (snd s))))
  /\ (forall ty v u,
        database (snd (fst (TelemetryLogger.log_sensor ty v u s)))
        = database (snd s)
        \/ exists ts sid,
             database (snd (fst (TelemetryLogger.log_sensor ty v u s)))
             = fst (db_insert_sensor sid ty ts v u (database (snd s))))
  /\ (forall ty v st,
        database (snd (fst (TelemetryLogger.log_command ty v st s)))
        = database (snd s)
        \/ exists ts sid,
             database (snd (fst (TelemetryLogger.log_command ty v st s)))
             = fst (db_insert_command sid ty ts v st (database (snd s))))
  /\ (forall ty sev msg,
        database (snd (fst (TelemetryLogger.log_event ty sev msg s)))
        = database (snd s)
        \/ exists ts sid,
             database (snd (fst (TelemetryLogger.log_event ty sev msg s)))
             = fst (db_insert_event sid ts ty sev msg (database (snd s)))).
Proof.
  destruct s as [[p [c|] [i|]] w]; repeat split; intros;
    try (left; reflexivity).
  - right. exists (clock w).
    unfold TelemetryLogger.start_session, TelemetryLogger.assert_conn,
      bind, gets, py_assert, ret, on_world, on_self, sql, zoom, utcnow, modify.
    simpl. destruct (db_insert_session v (clock w) "running" (database w))
      as [d' [id|e]]; reflexivity.
  - right. exists (clock w), i.
    unfold TelemetryLogger.end_session, TelemetryLogger.assert_active,
      TelemetryLogger.assert_conn,
      bind, gets, py_assert, ret, on_world, on_self, sql, zoom, utcnow.
    simpl. destruct (db_update_session (clock w) st i (database w))
      as [d' [u|e]]; reflexivity.
  - right. exists (clock w), i.
    unfold TelemetryLogger.log_sensor, TelemetryLogger.assert_active,
      TelemetryLogger.assert_conn,
      bind, gets, py_assert, ret, on_world, on_self, sql, zoom, utcnow.
    simpl. destruct (db_insert_sensor i ty (clock w) v u (database w))
      as [d' [x|e]]; reflexivity.
  - right. exists (clock w), i.
    unfold TelemetryLogger.log_command, TelemetryLogger.assert_active,
      TelemetryLogger.assert_conn,
      bind, gets, py_assert, ret, on_world, on_self, sql, zoom, utcnow.
    simpl. destruct (db_insert_command i ty (clock w) v st (database w))
      as [d' [x|e]]; reflexivity.
  - right. exists (clock w), i.
    unfold TelemetryLogger.log_event, TelemetryLogger.assert_active,
      TelemetryLogger.assert_conn,
      bind, gets, py_assert, ret, on_world, on_self, sql, zoom, utcnow.
    simpl. destruct (db_insert_event i (clock w) ty sev msg (database w))
      as [d' [x|e]]; reflexivity.
  - right. exists (clock w).
    unfold TelemetryLogger.start_session, TelemetryLogger.assert_conn,
      bind, gets, py_assert, ret, on_world, on_self, sql, zoom, utcnow, modify.
    simpl. destruct (db_insert_session v (clock w) "running" (database w))
      as [d' [id|e]]; reflexivity.
Qed.

(** Every recording method of the logger keeps the integrity of the
    store, whether it returns or raises. *)
Lemma logger_methods_store_ok (s : TelemetryLogger.t * World) :
  store_ok (database (snd s)) ->
  (forall v,
     store_ok (database (snd (fst (TelemetryLogger.start_session v s)))))
  /\ (forall st,
        store_ok (database (snd (fst (TelemetryLogger.end_session st s)))))
  /\ (forall ty v u,
        store_ok (database (snd (fst (TelemetryLogger.log_sensor ty v u s)))))
  /\ (forall ty v st,
        store_ok
          (database (snd (fst (TelemetryLogger.log_command ty v st s)))))
  /\ (forall ty sev msg,
        store_ok
          (database (snd (fst (TelemetryLogger.log_event ty sev msg s))))).
Proof.
  intro K. destruct (logger_method_store s) as (H1 & H2 & H3 & H4 & H5).
  split; [|split; [|split; [|split]]].
  - intro v. destruct (H1 v) as [-> | (ts & ->)];
      [exact K | apply db_insert_session_ok, K].
  - intro st. destruct (H2 st) as [-> | (ts & sid & ->)];
      [exact K | apply db_update_session_ok, K].
  - intros ty v u. destruct (H3 ty v u) as [-> | (ts & sid & ->)];
      [exact K | apply db_insert_sensor_ok, K].
  - intros ty v st. destruct (H4 ty v st) as [-> | (ts & sid & ->)];
      [exact K | apply db_insert_command_ok, K].
  - intros ty sev msg. destruct (H5 ty sev msg) as [-> | (ts & sid & ->)];
      [exact K | apply db_insert_event_ok, K].
Qed.

(** What a lifted call leaves in each part of the state. *)
Lemma tele_world {A} (m : M (TelemetryLogger.t * World) A) r g :
  world (snd (fst (LineFollowerRobot.tele m (r, g))))
  = snd (fst (m (telemetry g, world g)))
  /\ fst (fst (LineFollowerRobot.tele m (r, g))) = r
  /\ telemetry (snd (fst (LineFollowerRobot.tele m (r, g))))
     = fst (fst (m (telemetry g, world g))).
Proof.
  unfold LineFollowerRobot.tele, on_globals, on_telemetry, zoom. simpl.
  destruct (m (telemetry g, world g)) as [[tl w'] res]. simpl.
  repeat split; reflexivity.
Qed.

Lemma glob_world {A} (m : M World A) r g :
  world (snd (fst (LineFollowerRobot.glob m (r, g)))) = fst (m (world g))
  /\ fst (fst (LineFollowerRobot.glob m (r, g))) = r
  /\ telemetry (snd (fst (LineFollowerRobot.glob m (r, g)))) = telemetry g.
Proof.
  unfold LineFollowerRobot.glob, on_globals, in_world, zoom. simpl.
  destruct (m (world g)) as [w' res]. simpl. repeat split; reflexivity.
Qed.

Lemma self_sensor_world_parts {A} (m : M (IRLineSensor.t * World) A) r g :
  world (snd (fst (LineFollowerRobot.self_sensor_world m (r, g))))
  = snd (fst (m (LineFollowerRobot.sensor r, world g)))
  /\ telemetry (snd (fst (LineFollowerRobot.self_sensor_world m (r, g))))
     = telemetry g
  /\ LineFollowerRobot.sensor
       (fst (fst (LineFollowerRobot.self_sensor_world m (r, g))))
     = fst (fst (m (LineFollowerRobot.sensor r, world g)))
  /\ LineFollowerRobot.pid
       (fst (fst (LineFollowerRobot.self_sensor_world m (r, g))))
     = LineFollowerRobot.pid r.
Proof.
  unfold LineFollowerRobot.self_sensor_world, zoom. simpl.
  destruct (m (LineFollowerRobot.sensor r, world g)) as [[sens w'] res].
  simpl. repeat split; reflexivity.
Qed.

(** [IRLineSensor.calibrate] only draws random numbers from the world,
    whether it returns or raises. *)
Lemma sensor_calibrate_quiet wl bl s :
  quiet [] (snd s) (snd (fst (IRLineSensor.calibrate wl bl s))).
Proof.
  set (R := fun a b : IRLineSensor.t * World => quiet [] (snd a) (snd b)).
  assert (Rr : forall a, R a a) by (intro; apply quiet_nil).
  assert (Rt : forall a b c, R a b -> R b c -> R a c).
  { intros a b c H1 H2. exact (quiet_trans [] [] _ _ _ H1 H2). }
  assert (Hrand : forall lo hi, keeps R (on_world (random_uniform lo hi))).
  { intros lo hi [x w].
    destruct (random_uniform_quiet lo hi w) as (w' & v & E & Q).
    rewrite (on_world_run _ x _ _ _ E). exact Q. }
  assert (Hmod : forall f : IRLineSensor.t -> IRLineSensor.t,
            keeps R (on_self (modify f))).
  { intros f [x w]. apply quiet_nil. }
  revert s. change (keeps R (IRLineSensor.calibrate wl bl)).
  unfold IRLineSensor.calibrate.
  apply keeps_bind; [exact Rt | apply keeps_gets, Rr | intro n_].
  apply keeps_for_each; [exact Rr | exact Rt | intro i].
  apply keeps_bind; [exact Rt | apply Hrand | intro nw].
  apply keeps_bind; [exact Rt | apply Hrand | intro nb].
  apply keeps_bind; [exact Rt | apply keeps_lift, Rr | intro wl_i].
  apply keeps_bind; [exact Rt | apply keeps_gets, Rr | intro w0].
  apply keeps_bind; [exact Rt | apply keeps_lift, Rr | intro w1].
  apply keeps_bind; [exact Rt | apply Hmod | intros _].
  apply keeps_bind; [exact Rt | apply keeps_lift, Rr | intro bl_i].
  apply keeps_bind; [exact Rt | apply keeps_gets, Rr | intro b0].
  apply keeps_bind; [exact Rt | apply keeps_lift, Rr | intro b1].
  apply Hmod.
Qed.

Section ScriptKeeps.
Variable R : LineFollowerRobot.t * Globals ->
             LineFollowerRobot.t * Globals -> Prop.
Hypothesis R_refl : forall s, R s s.
Hypothesis R_trans : forall s1 s2 s3, R s1 s2 -> R s2 s3 -> R s1 s3.
Hypothesis R_start :
  forall v, keeps R (LineFollowerRobot.tele (TelemetryLogger.start_session v)).
Hypothesis R_end :
  forall st, keeps R (LineFollowerRobot.tele (TelemetryLogger.end_session st)).
Hypothesis R_log_event :
  forall ty sev msg,
    keeps R (LineFollowerRobot.tele (TelemetryLogger.log_event ty sev msg)).
Hypothesis R_close : keeps R (LineFollowerRobot.tele TelemetryLogger.close).
Hypothesis R_calibrate :
  forall wl bl,
    keeps R (LineFollowerRobot.self_sensor_world
               (IRLineSensor.calibrate wl bl)).
Hypothesis R_follow :
  forall ms label, keeps R (LineFollowerRobot.follow_line ms label).

Lemma script_keeps_calibrate : keeps R LineFollowerRobot.calibrate.
Proof.
  unfold LineFollowerRobot.calibrate.
  apply keeps_bind; [exact R_trans | apply R_start | intro sid].
  apply keeps_bind; [exact R_trans | apply keeps_gets, R_refl | intro n_].
  cbv zeta.
  apply keeps_bind; [exact R_trans | apply R_calibrate | intros _].
  apply keeps_bind; [exact R_trans | apply R_log_event | intros _].
  apply R_end.
Qed.

Lemma script_keeps_main : keeps R main.
Proof.
  unfold main.
  apply keeps_bind; [exact R_trans | apply script_keeps_calibrate | intros _].
  apply keeps_bind; [exact R_trans | apply R_follow | intros _].
  apply keeps_bind; [exact R_trans | apply R_follow | intros _].
  apply R_close.
Qed.
End ScriptKeeps.

Lemma store_kept_refl s : store_kept s s.
Proof. intro H. exact H. Qed.

Lemma store_kept_trans s1 s2 s3 :
  store_kept s1 s2 -> store_kept s2 s3 -> store_kept s1 s3.
Proof. unfold store_kept. auto. Qed.

Lemma store_kept_tele {A} (m : M (TelemetryLogger.t * World) A) :
  (forall s, store_ok (database (snd s)) ->
             store_ok (database (snd (fst (m s))))) ->
  keeps store_kept (LineFollowerRobot.tele m).
Proof.
  intros H [r g] K. simpl in K.
  destruct (tele_world m r g) as (E & _). rewrite E.
  apply (H (telemetry g, world g)). exact K.
Qed.

Lemma store_kept_same_db {A} (m : M (LineFollowerRobot.t * Globals) A) :
  (forall s, database (world (snd (fst (m s)))) = database (world (snd s))) ->
  keeps store_kept m.
Proof. intros H s K. rewrite H. exact K. Qed.

Lemma store_kept_glob {A} (m : M World A) :
  (forall w, exists sent, quiet sent w (fst (m w))) ->
  keeps store_kept (LineFollowerRobot.glob m).
Proof.
  intro H. apply store_kept_same_db. intros [r g].
  destruct (glob_world m r g) as (E & _). rewrite E.
  destruct (H (world g)) as (sent & Q & _). exact Q.
Qed.

Lemma store_kept_follow_line ms label :
  keeps store_kept (LineFollowerRobot.follow_line ms label).
Proof.
  apply run_keeps_follow_line.
  - apply store_kept_refl.
  - apply store_kept_trans.
  - intro v. apply store_kept_tele. intros s K.
    apply (logger_methods_store_ok s K).
  - intro st. apply store_kept_tele. intros s K.
    apply (logger_methods_store_ok s K).
  - intros ty v u. apply store_kept_tele. intros s K.
    apply (logger_methods_store_ok s K).
  - intros ty v st. apply store_kept_tele. intros s K.
    apply (logger_methods_store_ok s K).
  - intros ty sev msg. apply store_kept_tele. intros s K.
    apply (logger_methods_store_ok s K).
  - intros A m. apply store_kept_glob.
  - intros e dt. apply store_kept_same_db. intro s.
    rewrite self_pid_same_globals. reflexivity.
  - intro raw. apply store_kept_same_db. intro s.
    rewrite self_sensor_same_globals. reflexivity.
Qed.

Lemma close_same_world s :
  snd (fst (TelemetryLogger.close s)) = snd s.
Proof. destruct s as [[p [c|] i] w]; reflexivity. Qed.

Lemma store_kept_main : keeps store_kept main.
Proof.
  apply script_keeps_main.
  - apply store_kept_refl.
  - apply store_kept_trans.
  - intro v. apply store_kept_tele. intros s K.
    apply (logger_methods_store_ok s K).
  - intro st. apply store_kept_tele. intros s K.
    apply (logger_methods_store_ok s K).
  - intros ty sev msg. apply store_kept_tele. intros s K.
    apply (logger_methods_store_ok s K).
  - apply store_kept_tele. intros s K. rewrite close_same_world. exact K.
  - intros wl bl. apply store_kept_same_db. intros [r g].
    destruct (self_sensor_world_parts (IRLineSensor.calibrate wl bl) r g)
      as (E & _).
    rewrite E.
    destruct (sensor_calibrate_quiet wl bl (LineFollowerRobot.sensor r, world g))
      as (Q & _).
    exact Q.
  - apply store_kept_follow_line.
Qed.

(** X5: the recorder never leaves the store unsound.  If session ids are
    unique, statuses and severities are among the allowed values and every
    reading, command and event belongs to a session of the store, the same
    holds after each recording method and after [follow_line],
    [calibrate] and the whole [__main__] block, whether they return or
    raise. *)
Theorem store_integrity_is_kept
    (r : LineFollowerRobot.t) (g : Globals) :
  store_ok (database (world g)) ->
  (forall v,
     store_ok (database (snd (fst (TelemetryLogger.start_session v
                                     (telemetry g, world g))))))
  /\ (forall st,
        store_ok (database (snd (fst (TelemetryLogger.end_session st
                                        (telemetry g, world g))))))
  /\ (forall ty v u,
        store_ok (database (snd (fst (TelemetryLogger.log_sensor ty v u
                                        (telemetry g, world g))))))
  /\ (forall ty v st,
        store_ok (database (snd (fst (TelemetryLogger.log_command ty v st
                                        (telemetry g, world g))))))
  /\ (forall ty sev msg,
        store_ok (database (snd (fst (TelemetryLogger.log_event ty sev msg
                                        (telemetry g, world g))))))
  /\ (forall ms label,
        store_ok
          (database (world (snd (fst (LineFollowerRobot.follow_line ms label
                                        (r, g)))))))
  /\ store_ok
       (database (world (snd (fst (LineFollowerRobot.calibrate (r, g))))))
  /\ store_ok (database (world (snd (fst (main (r, g)))))).
Proof.
  intro K.
  destruct (logger_methods_store_ok (telemetry g, world g) K)
    as (H1 & H2 & H3 & H4 & H5).
  repeat (split; [assumption|]).
  split; [|split].
  - intros ms label. exact (store_kept_follow_line ms label (r, g) K).
  - refine (script_keeps_calibrate store_kept store_kept_refl store_kept_trans
              _ _ _ _ (r, g) K).
    + intro v. apply store_kept_tele. intros s K'.
      apply (logger_methods_store_ok s K').
    + intro st. apply store_kept_tele. intros s K'.
      apply (logger_methods_store_ok s K').
    + intros ty sev msg. apply store_kept_tele. intros s K'.
      apply (logger_methods_store_ok s K').
    + intros wl bl. apply store_kept_same_db. intros [r0 g0].
      destruct (self_sensor_world_parts (IRLineSensor.calibrate wl bl) r0 g0)
        as (E & _).
      rewrite E.
      destruct (sensor_calibrate_quiet wl bl
                  (LineFollowerRobot.sensor r0, world g0)) as (Q & _).
      exact Q.
  - exact (store_kept_main (r, g) K).
Qed.

Lemma store_ok_empty : store_ok empty_db.
Proof.
  unfold store_ok, empty_db; simpl. repeat split; constructor.
Qed.

Lemma store_integrity_is_kept_witness :
  store_ok
    (database (world (snd (fst (main (LineFollowerRobot.init 5,
                                      fresh_globals reachable)))))).
Proof.
  apply (store_integrity_is_kept (LineFollowerRobot.init 5)
           (fresh_globals reachable) store_ok_empty).
Defined.

(** ** Session ids *)

Lemma fold_max_nonneg (ids : list Z) : (0 <= fold_right Z.max 0%Z ids)%Z.
Proof. induction ids as [|i ids IH]; simpl; lia. Qed.

Lemma next_rowid_app (ids : list Z) :
  next_rowid (ids ++ [next_rowid ids]) = (next_rowid ids + 1)%Z.
Proof.
  unfold next_rowid.
  assert (H : forall (l : list Z) (x : Z),
            (fold_right Z.max 0 (l ++ [x])
             = Z.max (fold_right Z.max 0 l) (Z.max x 0))%Z).
  { induction l as [|a l IH]; intro x; simpl.
    - lia.
    - rewrite IH. lia. }
  rewrite H. assert (B := fold_max_nonneg ids). lia.
Qed.

Lemma fold_max_attained (ids : list Z) :
  ids <> [] -> Forall (fun i => (1 <= i)%Z) ids ->
  In (fold_right Z.max 0%Z ids) ids.
Proof.
  induction ids as [|i ids IH]; intros Hne Hpos; [congruence|].
  inversion Hpos as [|? ? Hi Hrest]; subst. simpl.
  destruct ids as [|j ids].
  - left. simpl. lia.
  - assert (Hin := IH ltac:(discriminate) Hrest).
    destruct (Z.max_spec i (fold_right Z.max 0%Z (j :: ids))) as [[_ ->]|[_ ->]];
      [right; exact Hin | left; reflexivity].
Qed.

(** X6: on a store whose session ids are positive 64-bit row ids with
    room for two more, [start_session] gives the new session the id 1
    when the table is empty and otherwise one more than the largest id
    in the table, so an id larger than every id there; the next
    [start_session] gives the id after it, and the logger is then bound
    to the newer session. *)
Theorem start_session_ids_increase (g : Globals) (v1 v2 : Z) :
  connected g = true ->
  Forall (fun r => (1 <= s_id r < 2 ^ 63 - 2)%Z)
         (sessions (database (world g))) ->
  let sid := next_session_id g in
  (1 <= sid)%Z /\ (sid + 1 <= 2 ^ 63 - 1)%Z
  /\ (sessions (database (world g)) = [] -> sid = 1%Z)
  /\ (sessions (database (world g)) <> [] ->
      exists r, In r (sessions (database (world g)))
                /\ sid = (s_id r + 1)%Z)
  /\ Forall (fun r => (s_id r < sid)%Z) (sessions (database (world g)))
  /\ exists tl w2 t1 t2,
       (TelemetryLogger.start_session v1;;
        TelemetryLogger.start_session v2) (telemetry g, world g)
       = ((tl, w2), Ok (sid + 1)%Z)
       /\ TelemetryLogger.session_id tl = Some (sid + 1)%Z
       /\ sessions (database w2)
          = sessions (database (world g))
            ++ [{| s_id := sid; s_variant_id := v1; s_started_at := t1;
                   s_ended_at := None; s_status := "running" |};
                {| s_id := (sid + 1)%Z; s_variant_id := v2;
                   s_started_at := t2; s_ended_at := None;
                   s_status := "running" |}].
Proof.
  intros Hc Hids sid.
  assert (Hpos : Forall (fun i => (1 <= i)%Z)
                   (map s_id (sessions (database (world g))))).
  { rewrite Forall_map. eapply Forall_impl; [|exact Hids].
    simpl. intros r Hr. lia. }
  assert (Hlast : sessions (database (world g)) <> [] ->
            exists r, In r (sessions (database (world g)))
                      /\ sid = (s_id r + 1)%Z).
  { intro Hne.
    assert (Hin := fold_max_attained
                     (map s_id (sessions (database (world g))))
                     ltac:(destruct (sessions (database (world g)));
                           [congruence | discriminate]) Hpos).
    apply in_map_iff in Hin. destruct Hin as (r & Er & Hr).
    exists r. split; [exact Hr|].
    unfold sid, next_session_id, next_rowid. rewrite Er. reflexivity. }
  split; [|split; [|split; [|split; [|split]]]].
  - unfold sid, next_session_id, next_rowid.
    assert (B := fold_max_nonneg (map s_id (sessions (database (world g))))).
    lia.
  - destruct (sessions (database (world g))) as [|r0 rs] eqn:Es.
    + unfold sid, next_session_id, next_rowid. rewrite Es. simpl. lia.
    + destruct (Hlast ltac:(discriminate)) as (r & Hr & ->).
      rewrite Forall_forall in Hids. specialize (Hids r Hr). lia.
  - intro Es. unfold sid, next_session_id, next_rowid. rewrite Es.
    reflexivity.
  - exact Hlast.
  - assert (B := fold_max_bound (map s_id (sessions (database (world g))))).
    rewrite Forall_map in B. eapply Forall_impl; [|exact B].
    intros r Hr. unfold sid, next_session_id, next_rowid. simpl in Hr. lia.
  - destruct g as [[p c i] w]. unfold connected in Hc; simpl in Hc.
    destruct c as [c|]; [|discriminate].
    unfold sid, next_session_id. simpl.
    unfold TelemetryLogger.start_session, TelemetryLogger.assert_conn,
      bind, gets, py_assert, ret, on_world, on_self, sql, zoom, utcnow,
      modify, db_insert_session. simpl.
    rewrite map_app. simpl. rewrite next_rowid_app.
    do 4 eexists. split; [reflexivity|]. split; [reflexivity|].
    rewrite <- app_assoc. reflexivity.
Qed.

Lemma start_session_ids_increase_witness :
  exists tl w2,
    (TelemetryLogger.start_session 1;; TelemetryLogger.start_session 2)
      (telemetry (fresh_globals unreachable),
       set_database
         {| sessions := [{| s_id := 5; s_variant_id := 1;
                            s_started_at := 0%nat; s_ended_at := None;
                            s_status := "running" |}];
            sensor_readings := []; actuator_commands := [];
            events := []; sql_log := [] |}
         (world (fresh_globals unreachable)))
    = ((tl, w2), Ok 7%Z).
Proof.
  destruct (start_session_ids_increase
              {| telemetry := telemetry (fresh_globals unreachable);
                 world :=
                   set_database
                     {| sessions := [{| s_id := 5; s_variant_id := 1;
                                        s_started_at := 0%nat;
                                        s_ended_at := None;
                                        s_status := "running" |}];
                        sensor_readings := []; actuator_commands := [];
                        events := []; sql_log := [] |}
                     (world (fresh_globals unreachable)) |} 1 2 eq_refl)
    as (_ & _ & _ & _ & _ & tl & w2 & t1 & t2 & E & _).
  - repeat constructor; simpl; lia.
  - exists tl, w2. exact E.
Defined.

(** ** The controller *)

(** X7: with [dt = 0] [update] raises [ZeroDivisionError]; the gains and
    the previous error are untouched and the integral keeps its value
    (the term added before the division is [error * 0]). *)
Theorem pid_update_zero_dt (self : PIDController.t) (error dt : Q) :
  dt == 0 ->
  exists self',
    PIDController.update error dt self = (self', Raise ZeroDivisionError)
    /\ PIDController.kp self' = PIDController.kp self
    /\ PIDController.ki self' = PIDController.ki self
    /\ PIDController.kd self' = PIDController.kd self
    /\ PIDController.prev_error self' = PIDController.prev_error self
    /\ PIDController.integral self' == PIDController.integral self.
Proof.
  intro Hdt.
  unfold PIDController.update, bind, modify, gets, lift, ret. simpl.
  rewrite (py_div_zero _ _ Hdt).
  eexists. split; [reflexivity|]. simpl.
  repeat (split; [reflexivity|]). rewrite Hdt. ring.
Qed.

Lemma pid_update_zero_dt_witness :
  snd (PIDController.update 0.3 0 (PIDController.init 0.8 0.0 0.2))
  = Raise ZeroDivisionError.
Proof.
  destruct (pid_update_zero_dt (PIDController.init 0.8 0.0 0.2) 0.3 0
              (Qeq_refl 0)) as (self' & E & _).
  rewrite E. reflexivity.
Defined.

Lemma py_clamp_odd (x y : Q) :
  y == - x ->
  py_max (-1) (py_min 1 y) == - py_max (-1) (py_min 1 x).
Proof.
  intro E.
  rewrite (py_clamp_spec (-1) 1 y) by lra.
  rewrite (py_clamp_spec (-1) 1 x) by lra.
  unfold clamp.
  destruct (Qle_bool y (-1)) eqn:A1; destruct (Qle_bool x (-1)) eqn:B1;
    destruct (Qle_bool 1 y) eqn:A2; destruct (Qle_bool 1 x) eqn:B2;
    try apply Qle_bool_iff in A1; try apply Qle_bool_iff in B1;
    try apply Qle_bool_iff in A2; try apply Qle_bool_iff in B2;
    try (assert (~ y <= -1) by (intro H0; apply Qle_bool_iff in H0; congruence));
    try (assert (~ x <= -1) by (intro H1; apply Qle_bool_iff in H1; congruence));
    try (assert (~ 1 <= y) by (intro H2; apply Qle_bool_iff in H2; congruence));
    try (assert (~ 1 <= x) by (intro H3; apply Qle_bool_iff in H3; congruence));
    lra.
Qed.

(** X8: the controller is odd: from the mirrored state (previous error and
    integral negated, same gains) the mirrored error gives the negated
    output and the mirrored new state. *)
Theorem pid_update_is_odd (self : PIDController.t) (error dt : Q) :
  ~ dt == 0 ->
  let mirror := fun p =>
    {| PIDController.kp := PIDController.kp p;
       PIDController.ki := PIDController.ki p;
       PIDController.kd := PIDController.kd p;
       PIDController.prev_error := - PIDController.prev_error p;
       PIDController.integral := - PIDController.integral p |} in
  exists s1 out1 s2 out2,
    PIDController.update error dt self = (s1, Ok out1)
    /\ PIDController.update (- error) dt (mirror self) = (s2, Ok out2)
    /\ out2 == - out1
    /\ PIDController.prev_error s2 == - PIDController.prev_error s1
    /\ PIDController.integral s2 == - PIDController.integral s1.
Proof.
  intros Hdt mirror.
  do 4 eexists.
  split; [apply pid_update_run; exact Hdt|].
  split; [apply pid_update_run; exact Hdt|].
  simpl. split; [|split].
  - apply py_clamp_odd. field. exact Hdt.
  - reflexivity.
  - ring.
Qed.

Lemma pid_update_is_odd_witness :
  exists s1 out1 s2 out2,
    PIDController.update 0.4 0.1 (PIDController.init 0.8 0.0 0.2)
    = (s1, Ok out1)
    /\ PIDController.update (- 0.4) 0.1
         {| PIDController.kp := 0.8; PIDController.ki := 0.0;
            PIDController.kd := 0.2; PIDController.prev_error := - 0;
            PIDController.integral := - 0 |} = (s2, Ok out2)
    /\ out2 == - out1.
Proof.
  destruct (pid_update_is_odd (PIDController.init 0.8 0.0 0.2) 0.4 0.1
              ltac:(discriminate))
    as (s1 & out1 & s2 & out2 & E1 & E2 & H & _).
  exists s1, out1, s2, out2. split; [exact E1|]. split; [exact E2 | exact H].
Defined.

Lemma last_default_irrelevant {A} (l : list A) (d d' : A) :
  l <> [] -> last l d = last l d'.
Proof.
  induction l as [|a l IH]; intro H; [contradiction|].
  destruct l as [|b l]; [reflexivity|].
  change (last (b :: l) d = last (b :: l) d'). apply IH. discriminate.
Qed.

(** X9: a run of updates with one [dt] accumulates: the integral grows by
    [dt] times the sum of the errors, the previous error is the last
    error fed, the gains are untouched, and every output lies in
    [-1, 1]. *)
Theorem pid_updates_accumulate (es : list Q) (dt : Q) :
  ~ dt == 0 ->
  forall self,
  exists self' outs,
    list_comp es (fun e => PIDController.update e dt) self = (self', Ok outs)
    /\ List.length outs = List.length es
    /\ Forall (fun o => -1 <= o /\ o <= 1) outs
    /\ PIDController.integral self'
       == PIDController.integral self + dt * fold_right Qplus 0 es
    /\ PIDController.prev_error self'
       = last es (PIDController.prev_error self)
    /\ PIDController.kp self' = PIDController.kp self
    /\ PIDController.ki self' = PIDController.ki self
    /\ PIDController.kd self' = PIDController.kd self.
Proof.
  intro Hdt. induction es as [|e es IH]; intro self; cbn [list_comp].
  - exists self, []. split; [reflexivity|]. split; [reflexivity|].
    split; [constructor|]. split; [simpl; ring|]. repeat split; reflexivity.
  - rewrite (bind_ok _ _ _ _ _ (pid_update_run self e dt Hdt)).
    match goal with
    | |- context [bind (list_comp es _) _ ?s1] =>
        destruct (IH s1) as (self' & outs & E & L & F & I & P & G1 & G2 & G3)
    end.
    rewrite (bind_ok _ _ _ _ _ E). unfold ret.
    do 2 eexists. split; [reflexivity|].
    split; [simpl; rewrite L; reflexivity|].
    split; [constructor; [|exact F]; apply py_clamp_range; lra|].
    simpl in I, P, G1, G2, G3.
    split; [rewrite I; simpl; ring|].
    split; [|repeat split; assumption].
    rewrite P. destruct es as [|q es']; [reflexivity|].
    change (last (e :: q :: es') (PIDController.prev_error self))
      with (last (q :: es') (PIDController.prev_error self)).
    apply last_default_irrelevant. discriminate.
Qed.

Lemma pid_updates_accumulate_witness :
  exists self' outs,
    list_comp [0.5; -0.25; 0.1]
      (fun e => PIDController.update e PIDController.default_dt)
      (PIDController.init 0.8 0.0 0.2) = (self', Ok outs)
    /\ PIDController.prev_error self' = 0.1.
Proof.
  destruct (pid_updates_accumulate [0.5; -0.25; 0.1] PIDController.default_dt
              ltac:(discriminate) (PIDController.init 0.8 0.0 0.2))
    as (self' & outs & E & _ & _ & _ & P & _).
  exists self', outs. split; [exact E | exact P].
Defined.

(** ** Calibration of the sensor *)

Lemma py_setitem_nth {A} (xs : list A) (i : nat) (v : A) (ys : list A) :
  py_setitem xs i v = Ok ys ->
  forall j d, nth j ys d = if (j =? i)%nat then v else nth j xs d.
Proof.
  revert i ys. induction xs as [|x xs IH]; intros i ys E; simpl in E;
    [discriminate|].
  destruct i as [|i].
  - inversion E; subst. intros [|j] d; reflexivity.
  - destruct (py_setitem xs i v) as [zs|e] eqn:E'; [|discriminate].
    inversion E; subst. intros [|j] d; [reflexivity|].
    simpl. apply (IH i zs E').
Qed.

Lemma random_uniform_run (a b : Q) (w : World) :
  exists w',
    random_uniform a b w = (w', Ok (drawn_uniform a b w 0))
    /\ random_source w' = random_source w
    /\ random_draws w' = S (random_draws w)
    /\ quiet [] w w'.
Proof.
  eexists. split; [|split; [|split]].
  - unfold drawn_uniform. rewrite Nat.add_0_r. reflexivity.
  - reflexivity.
  - reflexivity.
  - unfold quiet; simpl. rewrite app_nil_r. repeat split; reflexivity.
Qed.

Lemma calibrate_loop_values (wl bl : list Q) (w0 : World) (m : nat) :
  forall k sens w,
  (k + m <= IRLineSensor.n sens)%nat ->
  sensor_shaped sens = true ->
  (k + m <= List.length wl)%nat ->
  (k + m <= List.length bl)%nat ->
  random_source w = random_source w0 ->
  random_draws w = (random_draws w0 + 2 * k)%nat ->
  exists sens' w',
    for_each (seq k m) (fun i =>
      noise_w <- on_world (random_uniform (-0.05) 0);;
      noise_b <- on_world (random_uniform 0 0.05);;
      wl_i <- lift (py_index wl i);;
      w0 <- gets (fun s => IRLineSensor.white (fst s));;
      w1 <- lift (py_setitem w0 i (py_min 1 (py_max 0 (wl_i + noise_w))));;
      on_self (modify (IRLineSensor.set_white w1));;
      bl_i <- lift (py_index bl i);;
      b0 <- gets (fun s => IRLineSensor.black (fst s));;
      b1 <- lift (py_setitem b0 i (py_min 1 (py_max 0 (bl_i + noise_b))));;
      on_self (modify (IRLineSensor.set_black b1))) (sens, w)
    = ((sens', w'), Ok tt)
    /\ sensor_shaped sens' = true
    /\ IRLineSensor.n sens' = IRLineSensor.n sens
    /\ random_source w' = random_source w0
    /\ random_draws w' = (random_draws w0 + 2 * (k + m))%nat
    /\ quiet [] w w'
    /\ (forall j, (j < k)%nat ->
          nth j (IRLineSensor.white sens') 0 = nth j (IRLineSensor.white sens) 0
          /\ nth j (IRLineSensor.black sens') 0
             = nth j (IRLineSensor.black sens) 0)
    /\ (forall j, (k <= j < k + m)%nat ->
          nth j (IRLineSensor.white sens') 0 = calibrated_white wl w0 j
          /\ nth j (IRLineSensor.black sens') 0 = calibrated_black bl w0 j)
    /\ (forall j, (k + m <= j)%nat ->
          nth j (IRLineSensor.white sens') 0 = nth j (IRLineSensor.white sens) 0
          /\ nth j (IRLineSensor.black sens') 0
             = nth j (IRLineSensor.black sens) 0).
Proof.
  induction m as [|m IH]; intros k sens w Hk Hs Hwl Hbl Hsrc Hdr.
  - exists sens, w. split; [reflexivity|]. split; [exact Hs|].
    split; [reflexivity|]. split; [exact Hsrc|].
    split; [rewrite Hdr; f_equal; lia|]. split; [apply quiet_nil|].
    split; [intros; split; reflexivity|].
    split; [intros; lia | intros; split; reflexivity].
  - assert (Hs0 := Hs).
    apply sensor_shaped_parts in Hs. destruct Hs as [Hw Hb].
    destruct (random_uniform_run (-0.05) 0 w) as (w1 & E1 & S1 & D1 & Q1).
    destruct (random_uniform_run 0 0.05 w1) as (w2 & E2 & S2 & D2 & Q2).
    assert (X1 : drawn_uniform (-0.05) 0 w 0
                 = drawn_uniform (-0.05) 0 w0 (2 * k)).
    { unfold drawn_uniform. rewrite Hsrc, Hdr, Nat.add_0_r. reflexivity. }
    assert (X2 : drawn_uniform 0 0.05 w1 0
                 = drawn_uniform 0 0.05 w0 (2 * k + 1)).
    { unfold drawn_uniform. rewrite S1, D1, Hsrc, Hdr, Nat.add_0_r.
      do 3 f_equal. lia. }
    rewrite X1 in E1. rewrite X2 in E2.
    destruct (py_setitem_ok (IRLineSensor.white sens) k
                (calibrated_white wl w0 k) ltac:(lia)) as (ws & Ew & Lw).
    destruct (py_setitem_ok (IRLineSensor.black sens) k
                (calibrated_black bl w0 k) ltac:(lia)) as (bs & Eb & Lb).
    set (sens1 := IRLineSensor.set_black bs (IRLineSensor.set_white ws sens)).
    change (seq k (S m)) with (k :: seq (S k) m).
    match goal with
    | |- context [for_each (k :: _) ?f _] =>
        assert (Ebody : f k (sens, w) = ((sens1, w2), Ok tt))
    end.
    { cbv beta.
      rewrite (bind_ok _ _ _ _ _ (on_world_run _ sens _ _ _ E1)).
      rewrite (bind_ok _ _ _ _ _ (on_world_run _ sens _ _ _ E2)).
      rewrite (bind_ok _ _ _ _ _
                 (lift_ok _ _ _ (py_index_nth wl k 0 ltac:(lia)))).
      rewrite (bind_ok _ _ _ _ _ (gets_run _ _)). cbn [fst].
      rewrite (bind_ok _ _ _ _ _ (lift_ok _ _ _ Ew)).
      rewrite (bind_ok _ _ _ _ _ (on_self_modify _ _ _)).
      rewrite (bind_ok _ _ _ _ _
                 (lift_ok _ _ _ (py_index_nth bl k 0 ltac:(lia)))).
      rewrite (bind_ok _ _ _ _ _ (gets_run _ _)).
      cbn [fst IRLineSensor.set_white IRLineSensor.black].
      rewrite (bind_ok _ _ _ _ _ (lift_ok _ _ _ Eb)).
      apply on_self_modify. }
    rewrite for_each_cons. cbv beta in Ebody |- *.
    rewrite (bind_ok _ _ _ _ _ Ebody).
    assert (Hs1 : sensor_shaped sens1 = true).
    { apply sensor_shaped_parts. unfold sens1; simpl. split; congruence. }
    destruct (IH (S k) sens1 w2 ltac:(unfold sens1; simpl; lia) Hs1
                ltac:(lia) ltac:(lia)
                ltac:(rewrite S2, S1; exact Hsrc)
                ltac:(rewrite D2, D1, Hdr; lia))
      as (sens' & w' & E & Hs' & Hn' & Hsrc' & Hdr' & Q' & Hlow & Hnew & Hup).
    rewrite E. exists sens', w'. split; [reflexivity|].
    split; [exact Hs'|]. split; [exact Hn'|]. split; [exact Hsrc'|].
    split; [rewrite Hdr'; f_equal; lia|].
    split; [exact (quiet_trans [] [] _ _ _ (quiet_trans [] [] _ _ _ Q1 Q2) Q')|].
    assert (Hw1 : forall j, nth j (IRLineSensor.white sens1) 0
                   = if (j =? k)%nat then calibrated_white wl w0 k
                     else nth j (IRLineSensor.white sens) 0).
    { intro j. exact (py_setitem_nth _ _ _ _ Ew j 0). }
    assert (Hb1 : forall j, nth j (IRLineSensor.black sens1) 0
                   = if (j =? k)%nat then calibrated_black bl w0 k
                     else nth j (IRLineSensor.black sens) 0).
    { intro j. exact (py_setitem_nth _ _ _ _ Eb j 0). }
    split.
    + intros j Hj. destruct (Hlow j ltac:(lia)) as [A B].
      rewrite A, B, Hw1, Hb1.
      assert (Hne : (j =? k)%nat = false) by (apply Nat.eqb_neq; lia).
      rewrite Hne. split; reflexivity.
    + split.
      * intros j Hj. destruct (Nat.eq_dec j k) as [->|Hne].
        -- destruct (Hlow k ltac:(lia)) as [A B].
           rewrite A, B, Hw1, Hb1, Nat.eqb_refl. split; reflexivity.
        -- apply Hnew. lia.
      * intros j Hj. destruct (Hup j ltac:(lia)) as [A B].
        rewrite A, B, Hw1, Hb1.
        assert (Hne : (j =? k)%nat = false) by (apply Nat.eqb_neq; lia).
        rewrite Hne. split; reflexivity.
Qed.

Lemma unit_clamp_range (x : Q) : 0 <= py_min 1 (py_max 0 x) <= 1.
Proof.
  unfold py_min, py_max.
  destruct (py_lt 0 x) eqn:E1.
  - apply py_lt_true in E1. destruct (py_lt x 1) eqn:E2.
    + apply py_lt_true in E2. lra.
    + lra.
  - destruct (py_lt 0 1) eqn:E2; lra.
Qed.

Lemma unit_clamp_mono (x y : Q) :
  x <= y -> py_min 1 (py_max 0 x) <= py_min 1 (py_max 0 y).
Proof.
  intro H. unfold py_min, py_max.
  destruct (py_lt 0 x) eqn:E1; destruct (py_lt 0 y) eqn:E2;
    try apply py_lt_true in E1; try apply py_lt_false in E1;
    try apply py_lt_true in E2; try apply py_lt_false in E2.
  - destruct (py_lt x 1) eqn:E3; destruct (py_lt y 1) eqn:E4;
      try apply py_lt_true in E3; try apply py_lt_false in E3;
      try apply py_lt_true in E4; try apply py_lt_false in E4; lra.
  - lra.
  - destruct (py_lt 0 1) eqn:E3; destruct (py_lt y 1) eqn:E4;
      try apply py_lt_true in E3; try apply py_lt_false in E3;
      try apply py_lt_true in E4; try apply py_lt_false in E4; lra.
  - lra.
Qed.

Lemma drawn_uniform_range (a b : Q) (w : World) (i : nat) :
  unit_draws w -> a <= b ->
  a <= drawn_uniform a b w i /\ drawn_uniform a b w i <= b.
Proof.
  intros Hu Hab. unfold drawn_uniform.
  destruct (Hu (random_draws w + i)%nat) as [H0 H1].
  set (u := random_source w (random_draws w + i)) in *.
  split; nra.
Qed.

(** X10: on a sensor holding one pair per channel and with a level for
    every channel, [calibrate] returns; it draws two random numbers per
    channel and stores, for channel [j], the white level plus its noise
    and the black level plus its noise, each clamped to [0, 1]; the sensor
    count and the store are untouched.  When the draws lie in [0, 1) the
    stored white level is between the clamped [level - 0.05] and the
    clamped level, the stored black level between the clamped level and
    the clamped [level + 0.05]. *)
Theorem calibrate_stores_clamped_levels
    (wl bl : list Q) (sens : IRLineSensor.t) (w : World) :
  sensor_shaped sens = true ->
  (IRLineSensor.n sens <= List.length wl)%nat ->
  (IRLineSensor.n sens <= List.length bl)%nat ->
  exists sens' w',
    IRLineSensor.calibrate wl bl (sens, w) = ((sens', w'), Ok tt)
    /\ IRLineSensor.n sens' = IRLineSensor.n sens
    /\ sensor_shaped sens' = true
    /\ random_draws w' = (random_draws w + 2 * IRLineSensor.n sens)%nat
    /\ database w' = database w
    /\ (forall j, (j < IRLineSensor.n sens)%nat ->
          nth j (IRLineSensor.white sens') 0 = calibrated_white wl w j
          /\ nth j (IRLineSensor.black sens') 0 = calibrated_black bl w j
          /\ 0 <= nth j (IRLineSensor.white sens') 0 <= 1
          /\ 0 <= nth j (IRLineSensor.black sens') 0 <= 1)
    /\ (unit_draws w ->
        forall j, (j < IRLineSensor.n sens)%nat ->
          py_min 1 (py_max 0 (nth j wl 0 - 0.05))
          <= nth j (IRLineSensor.white sens') 0
          /\ nth j (IRLineSensor.white sens') 0
             <= py_min 1 (py_max 0 (nth j wl 0))
          /\ py_min 1 (py_max 0 (nth j bl 0))
             <= nth j (IRLineSensor.black sens') 0
          /\ nth j (IRLineSensor.black sens') 0
             <= py_min 1 (py_max 0 (nth j bl 0 + 0.05))).
Proof.
  intros Hs Hwl Hbl. unfold IRLineSensor.calibrate.
  rewrite (bind_ok _ _ _ _ _ (gets_run _ _)). cbn [fst].
  destruct (calibrate_loop_values wl bl w (IRLineSensor.n sens) 0 sens w
              ltac:(lia) Hs ltac:(lia) ltac:(lia) eq_refl ltac:(lia))
    as (sens' & w' & E & Hs' & Hn' & _ & Hdr & Q & _ & Hnew & _).
  exists sens', w'. split; [exact E|]. split; [exact Hn'|].
  split; [exact Hs'|]. split; [rewrite Hdr; f_equal|].
  split; [apply Q|]. split.
  - intros j Hj. destruct (Hnew j ltac:(lia)) as [A B].
    rewrite A, B. split; [reflexivity|]. split; [reflexivity|].
    split; apply unit_clamp_range.
  - intros Hu j Hj. destruct (Hnew j ltac:(lia)) as [A B].
    rewrite A, B. unfold calibrated_white, calibrated_black.
    destruct (drawn_uniform_range (-0.05) 0 w (2 * j) Hu ltac:(lra)).
    destruct (drawn_uniform_range 0 0.05 w (2 * j + 1) Hu ltac:(lra)).
    repeat split; apply unit_clamp_mono; lra.
Qed.

Lemma unit_draws_half : unit_draws (world (fresh_globals unreachable)).
Proof. intro k. simpl. split; [discriminate | reflexivity]. Qed.

Lemma calibrate_stores_clamped_levels_witness :
  exists sens' w',
    IRLineSensor.calibrate [0.9; 0.8] [0.1; 0.2]
      (IRLineSensor.init 2, world (fresh_globals unreachable))
    = ((sens', w'), Ok tt)
    /\ nth 0 (IRLineSensor.white sens') 0 <= py_min 1 (py_max 0 0.9).
Proof.
  destruct (calibrate_stores_clamped_levels [0.9; 0.8] [0.1; 0.2]
              (IRLineSensor.init 2) (world (fresh_globals unreachable))
              eq_refl ltac:(simpl; lia) ltac:(simpl; lia))
    as (sens' & w' & E & _ & _ & _ & _ & _ & H).
  exists sens', w'. split; [exact E|].
  destruct (H unit_draws_half 0%nat ltac:(simpl; lia)) as (_ & H2 & _).
  exact H2.
Defined.

Lemma for_each_app {S A} (xs ys : list A) (body : A -> M S unit) s :
  for_each (xs ++ ys) body s
  = bind (for_each xs body) (fun _ => for_each ys body) s.
Proof.
  revert s. induction xs as [|x xs IH]; intro s.
  - reflexivity.
  - cbn [app for_each]. unfold bind.
    destruct (body x s) as [s1 [u|e]]; [|reflexivity].
    rewrite IH. reflexivity.
Qed.

Lemma lift_raise {S A} (r : result A) (e : exn) (s : S) :
  r = Raise e -> lift r s = (s, Raise e).
Proof. intros ->. reflexivity. Qed.

(** X11: when one of the two level lists has fewer entries than the
    sensor has channels, [calibrate] raises [IndexError] at the first
    channel for which a level is missing, after having drawn the two
    noise values for it.  The channels before it have already been
    recalibrated, the channels after it keep their levels and so does
    the black level of that channel; its white level is kept when the
    white level is the missing one, and has already been overwritten
    when only the black level is missing. *)
Theorem calibrate_short_levels_raises
    (wl bl : list Q) (sens : IRLineSensor.t) (w : World) :
  sensor_shaped sens = true ->
  (Nat.min (List.length wl) (List.length bl) < IRLineSensor.n sens)%nat ->
  let L := Nat.min (List.length wl) (List.length bl) in
  exists sens' w',
    IRLineSensor.calibrate wl bl (sens, w) = ((sens', w'), Raise IndexError)
    /\ random_draws w' = (random_draws w + 2 * L + 2)%nat
    /\ (forall j, (j < L)%nat ->
          nth j (IRLineSensor.white sens') 0 = calibrated_white wl w j
          /\ nth j (IRLineSensor.black sens') 0 = calibrated_black bl w j)
    /\ (forall j, (L <= j)%nat ->
          nth j (IRLineSensor.black sens') 0
          = nth j (IRLineSensor.black sens) 0)
    /\ (forall j, (L < j)%nat ->
          nth j (IRLineSensor.white sens') 0
          = nth j (IRLineSensor.white sens) 0)
    /\ ((List.length wl <= List.length bl)%nat ->
        nth L (IRLineSensor.white sens') 0
        = nth L (IRLineSensor.white sens) 0)
    /\ ((List.length bl < List.length wl)%nat ->
        nth L (IRLineSensor.white sens') 0 = calibrated_white wl w L).
Proof.
  intros Hs Hlt L. fold L in Hlt. unfold IRLineSensor.calibrate.
  rewrite (bind_ok _ _ _ _ _ (gets_run _ _)). cbn [fst].
  assert (Hsplit : seq 0 (IRLineSensor.n sens)
                   = seq 0 L ++ L :: seq (S L) (IRLineSensor.n sens - L - 1)).
  { replace (IRLineSensor.n sens)
      with (L + S (IRLineSensor.n sens - L - 1))%nat at 1 by lia.
    rewrite seq_app. reflexivity. }
  rewrite Hsplit, for_each_app.
  destruct (calibrate_loop_values wl bl w L 0 sens w
              ltac:(lia) Hs ltac:(unfold L; lia) ltac:(unfold L; lia)
              eq_refl ltac:(lia))
    as (sens1 & w1 & E & Hs1 & Hn1 & Hsrc & Hdr & Q & _ & Hnew & Hup).
  rewrite (bind_ok _ _ _ _ _ E).
  rewrite for_each_cons.
  destruct (random_uniform_run (-0.05) 0 w1) as (w2 & E1 & S1 & D1 & Q1).
  destruct (random_uniform_run 0 0.05 w2) as (w3 & E2 & S2 & D2 & Q2).
  destruct (Nat.le_gt_cases (List.length wl) (List.length bl)) as [Hc|Hc].
  - (* the white level is missing *)
    assert (HL : L = List.length wl) by (unfold L; lia).
    erewrite bind_raise.
    2:{ rewrite (bind_ok _ _ _ _ _ (on_world_run _ sens1 _ _ _ E1)).
        rewrite (bind_ok _ _ _ _ _ (on_world_run _ sens1 _ _ _ E2)).
        apply bind_raise. apply lift_raise. apply py_index_out. lia. }
    exists sens1, w3. split; [reflexivity|].
    split; [rewrite D2, D1, Hdr; lia|].
    split; [intros j Hj; apply Hnew; lia|].
    split; [intros j Hj; apply Hup; lia|].
    split; [intros j Hj; apply Hup; lia|].
    split; [intros _; apply Hup; lia | intro; lia].
  - (* only the black level is missing *)
    assert (HL : L = List.length bl) by (unfold L; lia).
    apply sensor_shaped_parts in Hs1. destruct Hs1 as [Lw1 Lb1].
    set (v := py_min 1 (py_max 0 (nth L wl 0 + drawn_uniform (-0.05) 0 w1 0))).
    destruct (py_setitem_ok (IRLineSensor.white sens1) L v
                ltac:(rewrite Lw1, Hn1; lia)) as (ys & Ey & Ly).
    erewrite bind_raise.
    2:{ rewrite (bind_ok _ _ _ _ _ (on_world_run _ sens1 _ _ _ E1)).
        rewrite (bind_ok _ _ _ _ _ (on_world_run _ sens1 _ _ _ E2)).
        rewrite (bind_ok _ _ _ _ _
                   (lift_ok _ _ _ (py_index_nth wl L 0 ltac:(lia)))).
        rewrite (bind_ok _ _ _ _ _ (gets_run _ _)). cbn [fst].
        fold v.
        rewrite (bind_ok _ _ _ _ _ (lift_ok _ _ _ Ey)).
        rewrite (bind_ok _ _ _ _ _ (on_self_modify _ _ _)).
        apply bind_raise. apply lift_raise. apply py_index_out. lia. }
    exists (IRLineSensor.set_white ys sens1), w3. split; [reflexivity|].
    split; [rewrite D2, D1, Hdr; lia|].
    assert (Hy := py_setitem_nth _ _ _ _ Ey). cbn [IRLineSensor.set_white
      IRLineSensor.white IRLineSensor.black].
    split.
    { intros j Hj. rewrite Hy.
      assert (Ej : (j =? L)%nat = false) by (apply Nat.eqb_neq; lia).
      rewrite Ej. apply Hnew. lia. }
    split; [intros j Hj; apply Hup; lia|].
    split.
    { intros j Hj. rewrite Hy.
      assert (Ej : (j =? L)%nat = false) by (apply Nat.eqb_neq; lia).
      rewrite Ej. apply Hup. lia. }
    split; [intro; lia|].
    intros _. rewrite Hy, Nat.eqb_refl. unfold v, calibrated_white,
      drawn_uniform. rewrite Hsrc, Hdr.
    replace (random_draws w + 2 * (0 + L) + 0)%nat
      with (random_draws w + 2 * L)%nat by lia.
    reflexivity.
Qed.

Lemma calibrate_short_levels_raises_witness :
  exists sens' w',
    IRLineSensor.calibrate [0.9; 0.8] [0.1]
      (IRLineSensor.init 2, world (fresh_globals unreachable))
    = ((sens', w'), Raise IndexError)
    /\ nth 1 (IRLineSensor.black sens') 0 = 0.
Proof.
  destruct (calibrate_short_levels_raises [0.9; 0.8] [0.1]
              (IRLineSensor.init 2) (world (fresh_globals unreachable))
              eq_refl ltac:(simpl; lia))
    as (sens' & w' & E & _ & _ & H & _).
  exists sens', w'. split; [exact E|].
  exact (H 1%nat ltac:(simpl; lia)).
Defined.

Lemma nth_repeat_lt {A} (a d : A) (n j : nat) :
  (j < n)%nat -> nth j (repeat a n) d = a.
Proof.
  revert j. induction n as [|n IH]; intros j Hj; [lia|].
  destruct j; simpl; [reflexivity | apply IH; lia].
Qed.

Lemma robot_calibrate_levels
    (r : LineFollowerRobot.t) (g : Globals) :
  connected g = true ->
  sensor_shaped (LineFollowerRobot.sensor r) = true ->
  unit_draws (world g) ->
  exists r' g',
    LineFollowerRobot.calibrate (r, g) = ((r', g'), Ok tt)
    /\ IRLineSensor.n (LineFollowerRobot.sensor r')
       = IRLineSensor.n (LineFollowerRobot.sensor r)
    /\ LineFollowerRobot.pid r' = LineFollowerRobot.pid r
    /\ (forall j, (j < IRLineSensor.n (LineFollowerRobot.sensor r))%nat ->
          0.95 <= nth j (IRLineSensor.white (LineFollowerRobot.sensor r')) 0
          /\ nth j (IRLineSensor.white (LineFollowerRobot.sensor r')) 0 <= 1
          /\ 0 <= nth j (IRLineSensor.black (LineFollowerRobot.sensor r')) 0
          /\ nth j (IRLineSensor.black (LineFollowerRobot.sensor r')) 0 <= 0.05)
    /\ sensor_regular (LineFollowerRobot.sensor r') = true
    /\ (forall raw,
          (IRLineSensor.n (LineFollowerRobot.sensor r) <= List.length raw)%nat ->
          exists norm,
            IRLineSensor.read_normalized raw (LineFollowerRobot.sensor r')
            = (LineFollowerRobot.sensor r', Ok norm)).
Proof.
  intros Hc Hs Hu. set (sid := next_session_id g).
  destruct (tele_start_session r g Hc) as (g1 & E1 & T1 & Ha1 & R1 & S1 & L1).
  fold sid in E1, T1, Ha1, S1.
  unfold LineFollowerRobot.calibrate.
  rewrite (bind_ok _ _ _ _ _ E1).
  rewrite (bind_ok _ _ _ _ _ (gets_run _ _)). cbn [fst]. cbv zeta.
  set (n_ := IRLineSensor.n (LineFollowerRobot.sensor r)).
  destruct (calibrate_loop_values (repeat 1 n_) (repeat 0 n_) (world g1) n_ 0
              (LineFollowerRobot.sensor r) (world g1)
              ltac:(fold n_; lia) Hs
              ltac:(rewrite repeat_length; lia)
              ltac:(rewrite repeat_length; lia) eq_refl ltac:(lia))
    as (sens' & w2 & E2 & Hs2 & Hn2 & _ & _ & Q2 & _ & Hnew & _).
  assert (E2' : IRLineSensor.calibrate (repeat 1 n_) (repeat 0 n_)
                  (LineFollowerRobot.sensor r, world g1)
                = ((sens', w2), Ok tt)).
  { unfold IRLineSensor.calibrate.
    rewrite (bind_ok _ _ _ _ _ (gets_run _ _)). exact E2. }
  rewrite (bind_ok _ _ _ _ _ (self_sensor_world_run _ r g1 _ _ _ E2')).
  set (r' := LineFollowerRobot.set_sensor sens' r).
  assert (H2 := quiet_effect sid [] g1 w2 Q2).
  assert (Ha2 := active_effect sid _ _ _ Ha1 H2).
  destruct (tele_log_event sid r' _ "calibration" "info"
              "Калибровка завершена" Ha2 eq_refl) as (g3 & E3 & H3).
  rewrite (bind_ok _ _ _ _ _ E3).
  assert (Ha3 := active_effect sid _ _ _ Ha2 H3).
  destruct (tele_end_session sid r' g3 "completed" Ha3 eq_refl)
    as (g4 & E4 & _).
  rewrite E4. exists r', g4. split; [reflexivity|].
  split; [exact Hn2|]. split; [reflexivity|].
  assert (Hu1 : unit_draws (world g1)).
  { intro k. destruct R1 as (_ & _ & _ & _ & _ & Rs). rewrite Rs. apply Hu. }
  assert (Hbounds : forall j, (j < n_)%nat ->
            0.95 <= nth j (IRLineSensor.white sens') 0
            /\ nth j (IRLineSensor.white sens') 0 <= 1
            /\ 0 <= nth j (IRLineSensor.black sens') 0
            /\ nth j (IRLineSensor.black sens') 0 <= 0.05).
  { intros j Hj. destruct (Hnew j ltac:(lia)) as [A B]. rewrite A, B.
    unfold calibrated_white, calibrated_black.
    rewrite !nth_repeat_lt by exact Hj.
    destruct (drawn_uniform_range (-0.05) 0 (world g1) (2 * j) Hu1
                ltac:(lra)) as [N1 N2].
    destruct (drawn_uniform_range 0 0.05 (world g1) (2 * j + 1) Hu1
                ltac:(lra)) as [N3 N4].
    split; [|split; [|split]].
    - apply (Qle_trans _ (py_min 1 (py_max 0 0.95)));
        [vm_compute; discriminate | apply unit_clamp_mono; lra].
    - apply unit_clamp_range.
    - apply unit_clamp_range.
    - apply (Qle_trans _ (py_min 1 (py_max 0 0.05)));
        [apply unit_clamp_mono; lra | vm_compute; discriminate]. }
  split; [exact Hbounds|].
  assert (Hreg : sensor_regular sens' = true).
  { unfold sensor_regular. rewrite Hs2. simpl.
    apply sensor_shaped_parts in Hs2. destruct Hs2 as [Lw Lb].
    apply (all2_from_nth regular_channel 0 0); [congruence|].
    intros j Hj. rewrite Lw, Hn2 in Hj.
    destruct (Hbounds j Hj) as (B1 & B2 & B3 & B4).
    unfold regular_channel. apply negb_true_iff.
    destruct (Qeq_bool _ 0) eqn:Eq; [|reflexivity].
    apply Qeq_bool_iff in Eq. exfalso.
    assert (Ee : IRLineSensor.epsilon == 1 # 1000000) by reflexivity.
    rewrite Ee in Eq. lra. }
  split; [exact Hreg|].
  intros raw Hraw. eexists.
  apply (read_normalized_regular raw sens' Hreg). rewrite Hn2. exact Hraw.
Qed.

(** X12: the robot's own [calibrate] (white 1.0, black 0.0) leaves, when
    the random draws lie in [0, 1), every white level in [0.95, 1] and
    every black level in [0, 0.05]: no channel can divide by zero, and
    [read_normalized] returns on every frame with a value per channel.
    The controller is not touched; the session of the calibration ends
    as completed with one [calibration] event and no reading or
    command. *)
Theorem robot_calibrate_makes_sensor_regular
    (r : LineFollowerRobot.t) (g : Globals) :
  connected g = true ->
  sensor_shaped (LineFollowerRobot.sensor r) = true ->
  unit_draws (world g) ->
  exists r' g',
    LineFollowerRobot.calibrate (r, g) = ((r', g'), Ok tt)
    /\ IRLineSensor.n (LineFollowerRobot.sensor r')
       = IRLineSensor.n (LineFollowerRobot.sensor r)
    /\ LineFollowerRobot.pid r' = LineFollowerRobot.pid r
    /\ (forall j, (j < IRLineSensor.n (LineFollowerRobot.sensor r))%nat ->
          0.95 <= nth j (IRLineSensor.white (LineFollowerRobot.sensor r')) 0
          /\ nth j (IRLineSensor.white (LineFollowerRobot.sensor r')) 0 <= 1
          /\ 0 <= nth j (IRLineSensor.black (LineFollowerRobot.sensor r')) 0
          /\ nth j (IRLineSensor.black (LineFollowerRobot.sensor r')) 0 <= 0.05)
    /\ sensor_regular (LineFollowerRobot.sensor r') = true
    /\ (forall raw,
          (IRLineSensor.n (LineFollowerRobot.sensor r) <= List.length raw)%nat ->
          exists norm,
            IRLineSensor.read_normalized raw (LineFollowerRobot.sensor r')
            = (LineFollowerRobot.sensor r', Ok norm))
    /\ exists ts,
         run_summary g g' (next_session_id g) (clock (world g)) ts "completed"
           {| d_sensors := []; d_commands := [];
              d_events := [("calibration", "info")]%string; d_sent := [] |}.
Proof.
  intros Hc Hs Hu.
  destruct (robot_calibrate_levels r g Hc Hs Hu)
    as (r' & g' & E & Hn & Hp & Hb & Hreg & Hread).
  destruct (robot_calibrate_summary r g Hc Hs) as (r2 & g2 & ts & E2 & S & _).
  rewrite E in E2. inversion E2; subst r2 g2.
  exists r', g'. repeat (split; [assumption|]).
  exists ts. exact S.
Qed.

Lemma robot_calibrate_makes_sensor_regular_witness :
  exists r' g',
    LineFollowerRobot.calibrate
      (LineFollowerRobot.init 5, fresh_globals unreachable)
    = ((r', g'), Ok tt)
    /\ sensor_regular (LineFollowerRobot.sensor r') = true.
Proof.
  destruct (robot_calibrate_makes_sensor_regular (LineFollowerRobot.init 5)
              (fresh_globals unreachable) eq_refl eq_refl unit_draws_half)
    as (r' & g' & E & _ & _ & _ & H & _).
  exists r', g'. split; [exact E | exact H].
Defined.

(** ** [read_normalized]: levels, order and short frames *)

Lemma nth_map_seq (f : nat -> Q) (n i : nat) :
  (i < n)%nat -> nth i (map f (seq 0 n)) 0 = f i.
Proof.
  intro Hi.
  rewrite (nth_indep _ 0 (f 0%nat)) by (rewrite length_map, length_seq; lia).
  rewrite map_nth, seq_nth by lia. reflexivity.
Qed.

Lemma unit_clamp_cases (v : Q) :
  (v <= 0 -> py_max 0 (py_min 1 v) == 0)
  /\ (1 <= v -> py_max 0 (py_min 1 v) == 1)
  /\ (0 <= v <= 1 -> py_max 0 (py_min 1 v) == v).
Proof.
  unfold py_max, py_min.
  destruct (py_lt v 1) eqn:E1.
  - apply py_lt_true in E1. destruct (py_lt 0 v) eqn:E2.
    + apply py_lt_true in E2. repeat split; intros; lra.
    + apply py_lt_false in E2. repeat split; intros; lra.
  - apply py_lt_false in E1. destruct (py_lt 0 1) eqn:E2.
    + repeat split; intros; lra.
    + apply py_lt_false in E2. lra.
Qed.

Lemma unit_clamp_max_mono (x y : Q) :
  x <= y -> py_max 0 (py_min 1 x) <= py_max 0 (py_min 1 y).
Proof.
  intro H.
  destruct (unit_clamp_cases x) as (X1 & X2 & X3).
  destruct (unit_clamp_cases y) as (Y1 & Y2 & Y3).
  destruct (Qlt_le_dec x 0) as [Hx|Hx]; destruct (Qlt_le_dec 1 x) as [Hx'|Hx'];
    destruct (Qlt_le_dec y 0) as [Hy|Hy]; destruct (Qlt_le_dec 1 y) as [Hy'|Hy'];
    try lra;
    try (rewrite X1 by lra); try (rewrite X2 by lra);
    try (rewrite X3 by lra); try (rewrite Y1 by lra);
    try (rewrite Y2 by lra); try (rewrite Y3 by lra); lra.
Qed.

(** X13: when no black level exceeds its white level, [read_normalized]
    returns one value per channel and leaves the sensor as it was; a raw
    value at or below the black level gives 0, one at or above the white
    level plus 1e-6 gives 1, and a raw value above black and up to the
    white level gives a value strictly between 0 and 1: the white level
    itself is never normalised to exactly 1. *)
Theorem read_normalized_levels (raw : list Q) (self : IRLineSensor.t) :
  sensor_shaped self = true ->
  (forall i, (i < IRLineSensor.n self)%nat ->
     nth i (IRLineSensor.black self) 0 <= nth i (IRLineSensor.white self) 0) ->
  (IRLineSensor.n self <= List.length raw)%nat ->
  exists norm,
    IRLineSensor.read_normalized raw self = (self, Ok norm)
    /\ List.length norm = IRLineSensor.n self
    /\ forall i, (i < IRLineSensor.n self)%nat ->
         let w := nth i (IRLineSensor.white self) 0 in
         let b := nth i (IRLineSensor.black self) 0 in
         let r := nth i raw 0 in
         (r <= b -> nth i norm 0 == 0)
         /\ (w + IRLineSensor.epsilon <= r -> nth i norm 0 == 1)
         /\ (b < r -> r <= w -> 0 < nth i norm 0 /\ nth i norm 0 < 1).
Proof.
  intros Hs Hord Hraw.
  assert (Hreg := ordered_levels_regular self Hs Hord).
  eexists. split; [apply read_normalized_regular; assumption|].
  split; [rewrite length_map, length_seq; reflexivity|].
  intros i Hi w b r. rewrite nth_map_seq by exact Hi.
  fold w b r. specialize (Hord i Hi). fold w b in Hord.
  assert (Ee : IRLineSensor.epsilon == 1 # 1000000) by reflexivity.
  set (d := w - b + IRLineSensor.epsilon).
  assert (Hd : 0 < d) by (unfold d; rewrite Ee; lra).
  destruct (unit_clamp_cases ((r - b) / d)) as (K1 & K2 & K3).
  split; [|split].
  - intro H. apply K1. apply Qle_shift_div_r; [exact Hd | lra].
  - intro H. apply K2. apply Qle_shift_div_l; [exact Hd | unfold d; lra].
  - intros H1 H2.
    assert (A : 0 < (r - b) / d) by (apply Qlt_shift_div_l; [exact Hd | lra]).
    assert (B : (r - b) / d < 1).
    { apply Qlt_shift_div_r; [exact Hd | unfold d; rewrite Ee; lra]. }
    rewrite K3 by lra. split; assumption.
Qed.

Lemma read_normalized_levels_witness :
  exists norm,
    IRLineSensor.read_normalized [0; 0.5; 2] (IRLineSensor.init 3)
    = (IRLineSensor.init 3, Ok norm)
    /\ nth 0 norm 0 == 0 /\ nth 2 norm 0 == 1
    /\ 0 < nth 1 norm 0 /\ nth 1 norm 0 < 1.
Proof.
  destruct (read_normalized_levels [0; 0.5; 2] (IRLineSensor.init 3) eq_refl)
    as (norm & E & _ & H).
  - intros i Hi. simpl in Hi.
    destruct i as [|[|[|i]]]; simpl; try lia; discriminate.
  - simpl. lia.
  - exists norm. split; [exact E|].
    destruct (H 0%nat ltac:(simpl; lia)) as (A0 & _ & _).
    destruct (H 2%nat ltac:(simpl; lia)) as (_ & A2 & _).
    destruct (H 1%nat ltac:(simpl; lia)) as (_ & _ & A1).
    split; [apply A0; simpl; discriminate|].
    split; [apply A2; vm_compute; discriminate|].
    apply A1; vm_compute; first [reflexivity | discriminate].
Defined.

(** X14: when no black level exceeds its white level, [read_normalized]
    is monotone: raising raw values channel by channel never lowers a
    normalised value. *)
Theorem read_normalized_monotone (raw1 raw2 : list Q) (self : IRLineSensor.t) :
  sensor_shaped self = true ->
  (forall i, (i < IRLineSensor.n self)%nat ->
     nth i (IRLineSensor.black self) 0 <= nth i (IRLineSensor.white self) 0) ->
  (IRLineSensor.n self <= List.length raw1)%nat ->
  (IRLineSensor.n self <= List.length raw2)%nat ->
  (forall i, (i < IRLineSensor.n self)%nat -> nth i raw1 0 <= nth i raw2 0) ->
  exists norm1 norm2,
    IRLineSensor.read_normalized raw1 self = (self, Ok norm1)
    /\ IRLineSensor.read_normalized raw2 self = (self, Ok norm2)
    /\ forall i, (i < IRLineSensor.n self)%nat ->
         nth i norm1 0 <= nth i norm2 0.
Proof.
  intros Hs Hord H1 H2 Hle.
  assert (Hreg := ordered_levels_regular self Hs Hord).
  eexists. eexists.
  split; [apply read_normalized_regular; assumption|].
  split; [apply read_normalized_regular; assumption|].
  intros i Hi. rewrite !nth_map_seq by exact Hi.
  apply unit_clamp_max_mono.
  specialize (Hord i Hi). specialize (Hle i Hi).
  assert (Ee : IRLineSensor.epsilon == 1 # 1000000) by reflexivity.
  set (d := _ - _ + IRLineSensor.epsilon).
  assert (Hd : 0 < d) by (unfold d; rewrite Ee; lra).
  unfold Qdiv. apply Qmult_le_compat_r; [lra|].
  apply Qlt_le_weak, Qinv_lt_0_compat, Hd.
Qed.

Lemma read_normalized_monotone_witness :
  exists norm1 norm2,
    IRLineSensor.read_normalized [0.2; 0.4] (IRLineSensor.init 2)
    = (IRLineSensor.init 2, Ok norm1)
    /\ IRLineSensor.read_normalized [0.3; 0.4] (IRLineSensor.init 2)
       = (IRLineSensor.init 2, Ok norm2)
    /\ nth 0 norm1 0 <= nth 0 norm2 0.
Proof.
  destruct (read_normalized_monotone [0.2; 0.4] [0.3; 0.4]
              (IRLineSensor.init 2) eq_refl)
    as (n1 & n2 & E1 & E2 & H).
  - intros i Hi. simpl in Hi.
    destruct i as [|[|i]]; simpl; try lia; discriminate.
  - simpl. lia.
  - simpl. lia.
  - intros i Hi. simpl in Hi.
    destruct i as [|[|i]]; simpl; try lia; discriminate.
  - exists n1, n2. split; [exact E1|]. split; [exact E2|].
    apply H. simpl. lia.
Defined.

Lemma list_comp_raise_at {S A B} (xs ys : list A) (x : A) (f : A -> M S B)
    (g : A -> B) (s : S) (e : exn) :
  (forall y, In y xs -> f y s = (s, Ok (g y))) ->
  f x s = (s, Raise e) ->
  list_comp (xs ++ x :: ys) f s = (s, Raise e).
Proof.
  intros Hxs Hx. induction xs as [|y xs IH]; cbn [list_comp app].
  - apply bind_raise. exact Hx.
  - rewrite (bind_ok _ _ _ _ _ (Hxs y (or_introl eq_refl))).
    apply bind_raise. apply IH. intros z Hz. apply Hxs. right. exact Hz.
Qed.

Lemma read_normalized_short_run (raw : list Q) (self : IRLineSensor.t) :
  sensor_regular self = true ->
  (List.length raw < IRLineSensor.n self)%nat ->
  IRLineSensor.read_normalized raw self = (self, Raise IndexError).
Proof.
  intros Hreg Hraw.
  destruct (sensor_regular_parts self Hreg) as (Hw & Hb & Hall).
  unfold IRLineSensor.read_normalized. unfold bind at 1, gets at 1.
  set (L := List.length raw) in *.
  assert (Hsplit : seq 0 (IRLineSensor.n self)
                   = seq 0 L ++ L :: seq (S L) (IRLineSensor.n self - L - 1)).
  { replace (IRLineSensor.n self)
      with (L + S (IRLineSensor.n self - L - 1))%nat at 1 by lia.
    rewrite seq_app. reflexivity. }
  rewrite Hsplit.
  apply (list_comp_raise_at _ _ _ _
           (fun i => py_max 0 (py_min 1
              ((nth i raw 0 - nth i (IRLineSensor.black self) 0)
               / (nth i (IRLineSensor.white self) 0
                  - nth i (IRLineSensor.black self) 0
                  + IRLineSensor.epsilon))))).
  - intros i Hi. apply in_seq in Hi.
    unfold bind, gets, lift, ret.
    rewrite (py_index_nth (IRLineSensor.white self) i 0) by lia.
    rewrite (py_index_nth (IRLineSensor.black self) i 0) by lia.
    rewrite (py_index_nth raw i 0) by (fold L; lia).
    rewrite py_div_ok; [reflexivity|].
    assert (Hr := all2_nth regular_channel _ _ i 0 0 Hall ltac:(lia)).
    unfold regular_channel in Hr. apply negb_true_iff in Hr.
    apply Qeq_bool_neq. exact Hr.
  - unfold bind, gets, lift, ret.
    rewrite (py_index_nth (IRLineSensor.white self) L 0) by lia.
    rewrite (py_index_nth (IRLineSensor.black self) L 0) by lia.
    rewrite (py_index_out raw L) by (fold L; lia). reflexivity.
Qed.

(** X15: a frame with fewer values than the sensor has channels makes
    [read_normalized] raise [IndexError] (at the first channel without a
    raw value), whatever the values are, and so does every shorter
    frame; the sensor is unchanged. *)
Theorem read_normalized_short_frame (raw : list Q) (self : IRLineSensor.t) :
  sensor_regular self = true ->
  (List.length raw < IRLineSensor.n self)%nat ->
  IRLineSensor.read_normalized raw self = (self, Raise IndexError)
  /\ forall k,
       IRLineSensor.read_normalized (firstn k raw) self
       = (self, Raise IndexError).
Proof.
  intros Hreg Hraw. split.
  - apply read_normalized_short_run; assumption.
  - intro k. apply read_normalized_short_run; [exact Hreg|].
    rewrite length_firstn. lia.
Qed.

Lemma read_normalized_short_frame_witness :
  IRLineSensor.read_normalized [0.5] (IRLineSensor.init 3)
  = (IRLineSensor.init 3, Raise IndexError).
Proof.
  refine (proj1 (read_normalized_short_frame [0.5] (IRLineSensor.init 3) _ _)).
  - reflexivity.
  - simpl. lia.
Defined.

(** ** [MotorPair.drive] *)

(** X16: with the logger bound to a session, [drive] returns the two
    speeds clamped to [-1, 1] and appends exactly two command rows under
    that session, [Motor_L] then [Motor_R], holding the returned values
    with status [sent]; no other table changes.  When neither speed is
    clamped, left + right is twice the base speed and right - left is
    twice the difference. *)
Theorem drive_records_clamped_commands (sid : Z) (g : Globals) (base diff : Q) :
  active sid g ->
  exists g' c1 c2,
    MotorPair.drive base diff g = (g', Ok (c_command c1, c_command c2))
    /\ actuator_commands (database (world g'))
       = actuator_commands (database (world g)) ++ [c1; c2]
    /\ (c_session_id c1, c_actuator_type c1, c_status c1)
       = (sid, "Motor_L"%string, "sent"%string)
    /\ (c_session_id c2, c_actuator_type c2, c_status c2)
       = (sid, "Motor_R"%string, "sent"%string)
    /\ (c_timestamp c1 < c_timestamp c2)%nat
    /\ (c_id c1 < c_id c2)%Z
    /\ c_command c1 == clamp (-1) 1 (base - diff)
    /\ c_command c2 == clamp (-1) 1 (base + diff)
    /\ -1 <= c_command c1 <= 1
    /\ -1 <= c_command c2 <= 1
    /\ (-1 <= base - diff <= 1 -> -1 <= base + diff <= 1 ->
        c_command c1 + c_command c2 == 2 * base
        /\ c_command c2 - c_command c1 == 2 * diff)
    /\ telemetry g' = telemetry g
    /\ sessions (database (world g')) = sessions (database (world g))
    /\ sensor_readings (database (world g'))
       = sensor_readings (database (world g))
    /\ events (database (world g')) = events (database (world g)).
Proof.
  intro H. open_active g H.
  unfold MotorPair.drive, on_telemetry. run_logger.
  unfold has_session in *. simpl. rewrite Hh. simpl. rewrite Hh. simpl.
  eexists.
  match goal with
  | |- context [(_ ++ [?a]) ++ [?b]] => exists a, b
  end.
  split; [reflexivity|]. simpl.
  split; [rewrite <- app_assoc; reflexivity|].
  split; [reflexivity|]. split; [reflexivity|].
  split; [lia|].
  split.
  { unfold next_rowid. rewrite map_app, fold_right_app. simpl.
    set (ids := map c_id _).
    assert (Hm : forall (l : list Z) (a : Z),
               (a <= fold_right Z.max a l)%Z).
    { induction l as [|x l IH]; intro a; simpl; [lia|].
      specialize (IH a). lia. }
    specialize (Hm ids (Z.max (fold_right Z.max 0 ids + 1) 0)%Z). lia. }
  assert (C1 := py_clamp_spec (-1) 1 (base - diff) ltac:(lra)).
  assert (C2 := py_clamp_spec (-1) 1 (base + diff) ltac:(lra)).
  assert (R1 := py_clamp_range (-1) 1 (base - diff) ltac:(lra)).
  assert (R2 := py_clamp_range (-1) 1 (base + diff) ltac:(lra)).
  split; [exact C1|]. split; [exact C2|].
  split; [exact R1|]. split; [exact R2|].
  split.
  { intros B1 B2. rewrite C1, C2. unfold clamp.
    destruct (Qle_bool (base - diff) (-1)) eqn:E1;
      [apply Qle_bool_iff in E1|];
      (destruct (Qle_bool 1 (base - diff)) eqn:E2;
        [apply Qle_bool_iff in E2|]);
      (destruct (Qle_bool (base + diff) (-1)) eqn:E3;
        [apply Qle_bool_iff in E3|]);
      (destruct (Qle_bool 1 (base + diff)) eqn:E4;
        [apply Qle_bool_iff in E4|]);
      split; lra. }
  repeat split; reflexivity.
Qed.

Lemma drive_records_clamped_commands_witness :
  exists g' c1 c2,
    MotorPair.drive 0.5 0.25
      {| telemetry := {| TelemetryLogger.db_path := "telemetry.db";
                         TelemetryLogger._conn := Some (Connect "telemetry.db");
                         TelemetryLogger.session_id := Some 1%Z |};
         world := set_database
                    {| sessions := [{| s_id := 1; s_variant_id := 1;
                                       s_started_at := 0%nat;
                                       s_ended_at := None;
                                       s_status := "running" |}];
                       sensor_readings := []; actuator_commands := [];
                       events := []; sql_log := [] |}
                    (world (fresh_globals unreachable)) |}
    = (g', Ok (c_command c1, c_command c2))
    /\ c_command c1 == clamp (-1) 1 (0.5 - 0.25).
Proof.
  destruct (drive_records_clamped_commands 1
    {| telemetry := {| TelemetryLogger.db_path := "telemetry.db";
                       TelemetryLogger._conn := Some (Connect "telemetry.db");
                       TelemetryLogger.session_id := Some 1%Z |};
       world := set_database
                  {| sessions := [{| s_id := 1; s_variant_id := 1;
                                     s_started_at := 0%nat;
                                     s_ended_at := None;
                                     s_status := "running" |}];
                     sensor_readings := []; actuator_commands := [];
                     events := []; sql_log := [] |}
                  (world (fresh_globals unreachable)) |} 0.5 0.25)
    as (g' & c1 & c2 & E & _ & _ & _ & _ & _ & C & _).
  - repeat split; reflexivity.
  - exists g', c1, c2. split; [exact E | exact C].
Defined.

(** ** The lateral error *)

Lemma inject_nat_succ (n : nat) :
  inject_Z (Z.of_nat (S n)) == inject_Z (Z.of_nat n) + 1.
Proof.
  rewrite Nat2Z.inj_succ. unfold Z.succ. rewrite inject_Z_plus. reflexivity.
Qed.

Lemma inject_nat_add (n m : nat) :
  inject_Z (Z.of_nat (n + m)) == inject_Z (Z.of_nat n) + inject_Z (Z.of_nat m).
Proof. rewrite Nat2Z.inj_add, inject_Z_plus. reflexivity. Qed.

Lemma weighted_sum_app (c : Q) (xs ys : list Q) (i0 : nat) :
  weighted_sum c i0 (xs ++ ys)
  == weighted_sum c i0 xs + weighted_sum c (i0 + List.length xs) ys.
Proof.
  revert i0. induction xs as [|x xs IH]; intro i0; cbn [app weighted_sum].
  - rewrite Nat.add_0_r. lra.
  - rewrite IH. cbn [List.length].
    replace (i0 + S (List.length xs))%nat with (S i0 + List.length xs)%nat
      by lia.
    lra.
Qed.

Lemma weighted_sum_rev (xs : list Q) :
  forall (i0 j0 : nat) (c c' : Q),
  c' - inject_Z (Z.of_nat j0)
  == inject_Z (Z.of_nat i0) - c + inject_Z (Z.of_nat (List.length xs)) - 1 ->
  weighted_sum c i0 (rev xs) == - weighted_sum c' j0 xs.
Proof.
  induction xs as [|x xs IH]; intros i0 j0 c c' H.
  - simpl. lra.
  - cbn [rev weighted_sum]. rewrite weighted_sum_app.
    cbn [weighted_sum]. rewrite length_rev.
    cbn [List.length] in H. rewrite inject_nat_succ in H.
    rewrite (IH i0 (S j0) c c') by (rewrite inject_nat_succ; lra).
    rewrite inject_nat_add. nra.
Qed.

Lemma weighted_sum_ones (c : Q) (k i0 : nat) :
  weighted_sum c i0 (repeat 1 k) == 0.
Proof.
  revert i0. induction k as [|k IH]; intro i0; cbn [repeat weighted_sum].
  - reflexivity.
  - rewrite IH. lra.
Qed.

(** X19: mirroring the frame negates the lateral error: on a frame with
    a value per sensor, the error of the reversed frame is the opposite
    of the error of the frame; so a frame that reads the same in both
    directions has error 0. *)
Theorem lateral_error_mirror (S : Type) (N : nat) (norm : list Q) (s : S) :
  List.length norm = N ->
  exists e e',
    LineFollowerRobot.lateral_error N norm s = (s, Ok e)
    /\ LineFollowerRobot.lateral_error N (rev norm) s = (s, Ok e')
    /\ e' == - e
    /\ (rev norm = norm -> e == 0).
Proof.
  intro Hn.
  assert (Hr : List.length (rev norm) = N) by (rewrite length_rev; exact Hn).
  eexists. eexists.
  split; [apply lateral_error_run; lia|].
  split; [apply lateral_error_run; lia|].
  destruct (Z.of_nat N - 1 =? 0)%Z eqn:Ez.
  - split; [lra | intros _; lra].
  - apply Z.eqb_neq in Ez.
    assert (Hh : ~ LineFollowerRobot.half_span N == 0)
      by (apply half_span_nonzero; lia).
    rewrite (position_value N norm Hn), (position_value N (rev norm) Hr).
    set (c := (inject_Z (Z.of_nat N) - 1) / 2).
    assert (M : weighted_sum c 0 (rev norm) == - weighted_sum c 0 norm).
    { apply weighted_sum_rev. rewrite Hn. unfold c. simpl. field. }
    split.
    + rewrite M. field. exact Hh.
    + intro P. rewrite P in M.
      assert (Z0 : weighted_sum c 0 norm == 0) by lra.
      rewrite Z0. field. exact Hh.
Qed.

Lemma lateral_error_mirror_witness :
  exists e e',
    LineFollowerRobot.lateral_error 3 [0.9; 0.5; 0.1] tt = (tt, Ok e)
    /\ LineFollowerRobot.lateral_error 3 [0.1; 0.5; 0.9] tt = (tt, Ok e')
    /\ e' == - e.
Proof.
  destruct (lateral_error_mirror unit 3 [0.9; 0.5; 0.1] tt eq_refl)
    as (e & e' & E1 & E2 & H & _).
  exists e, e'. repeat split; assumption.
Defined.

(** X20: when one sensor alone sees something darker than white (value
    [x] at index [j], every other value 1), the lateral error is
    [(j - c) * (1 - x) / c] with [c = (N - 1)/2]: a fully dark reading
    gives -1 at the leftmost sensor, +1 at the rightmost and 0 at the
    centre one. *)
Theorem lateral_error_single_sensor
    (S : Type) (j k : nat) (x : Q) (s : S) :
  (0 < j + k)%nat ->
  let N := (j + 1 + k)%nat in
  let norm := repeat 1 j ++ x :: repeat 1 k in
  let c := (inject_Z (Z.of_nat N) - 1) / 2 in
  exists e,
    LineFollowerRobot.lateral_error N norm s = (s, Ok e)
    /\ e == (inject_Z (Z.of_nat j) - c) * (1 - x) / c
    /\ (j = 0%nat -> x == 0 -> e == -1)
    /\ (k = 0%nat -> x == 0 -> e == 1)
    /\ (j = k -> e == 0).
Proof.
  intros Hjk N norm c.
  assert (Hn : List.length norm = N).
  { unfold norm, N. rewrite length_app. cbn [List.length].
    rewrite !repeat_length. lia. }
  eexists. split; [apply lateral_error_run; lia|].
  assert (Ez : (Z.of_nat N - 1 =? 0)%Z = false)
    by (apply Z.eqb_neq; unfold N; lia).
  rewrite Ez.
  assert (Hh : ~ LineFollowerRobot.half_span N == 0)
    by (apply half_span_nonzero; unfold N; lia).
  assert (Hc : LineFollowerRobot.half_span N == c) by apply half_span_spec.
  assert (Hc0 : ~ c == 0) by (rewrite <- Hc; exact Hh).
  rewrite (position_value N norm Hn). fold c. rewrite Hc.
  assert (W : weighted_sum c 0 norm
              == (inject_Z (Z.of_nat j) - c) * (1 - x)).
  { unfold norm. rewrite weighted_sum_app. cbn [weighted_sum].
    rewrite !weighted_sum_ones, repeat_length. simpl. lra. }
  assert (Cv : c == (inject_Z (Z.of_nat j) + inject_Z (Z.of_nat k)) / 2).
  { unfold c, N. rewrite !inject_nat_add. simpl. field. }
  rewrite W. split; [reflexivity|].
  split; [|split].
  - intros -> Hx. rewrite Hx. simpl. field. exact Hc0.
  - intros -> Hx. rewrite Hx.
    assert (Cj : inject_Z (Z.of_nat j) == 2 * c).
    { rewrite Cv. simpl. field. }
    rewrite Cj. field. exact Hc0.
  - intros <-.
    assert (Cj : inject_Z (Z.of_nat j) == c).
    { rewrite Cv. field. }
    rewrite Cj. field. exact Hc0.
Qed.

Lemma lateral_error_single_sensor_witness :
  exists e,
    LineFollowerRobot.lateral_error 5 [0; 1; 1; 1; 1] tt = (tt, Ok e)
    /\ e == -1.
Proof.
  destruct (lateral_error_single_sensor unit 0 4 0 tt ltac:(lia))
    as (e & E & _ & H & _).
  exists e. split; [exact E | apply H; reflexivity].
Defined.

(** ** [_make_line] *)

Section LineDisplay.
Import Floats.

Lemma clamp_int_spec (t : Z) :
  py_max_int 0 (py_min_int 8 t) = Z.max 0 (Z.min 8 t).
Proof.
  unfold py_max_int, py_min_int.
  destruct (Z.ltb_spec t 8); destruct (Z.ltb_spec 0 t);
    try destruct (Z.ltb_spec 0 8); lia.
Qed.

Lemma make_line_at (error : float) (t : Z) (o : nat) :
  Float64.py_int (4 + error * 4)%float = Ok t ->
  Z.of_nat o = Z.max 0 (Z.min 8 t) ->
  _make_line error = Ok (bar_at o).
Proof.
  intros Et H. unfold _make_line. cbv zeta.
  change (9 - 1)%Z with 8%Z. change (9 / 2)%Z with 4%Z.
  change (Float64.of_Z 4) with 4%float.
  rewrite Et, clamp_int_spec, <- H.
  assert (Ho : (o <= 8)%nat) by lia.
  do 9 (destruct o as [|o]; [reflexivity|]). lia.
Qed.

Lemma bar_at_shape (o : nat) :
  (o <= 8)%nat ->
  String.length (bar_at o) = 9%nat
  /\ count_char "|"%char (bar_at o) = 1%nat
  /\ String.get o (bar_at o) = Some "|"%char.
Proof.
  intro Ho.
  do 9 (destruct o as [|o]; [repeat split; reflexivity|]). lia.
Qed.

(** X21: [_make_line] computes [4 + error * 4] in double precision and
    truncates the rounded sum.  When that sum is finite the result is a
    line of nine characters, exactly one of them the bar, in column
    [max(0, min(8, int(sum)))]; when it is infinite [int] raises
    [OverflowError], and [ValueError] when it is not a number.  The sum
    is rounded before it is truncated: the error -2^-54 shows in the
    middle column 4 (the sum rounds to 4.0) and 0.24999999999999997 in
    column 5. *)
Theorem make_line_shape (error : float) :
  match Prim2SF (4 + error * 4)%float with
  | S754_nan => _make_line error = Raise ValueError
  | S754_infinity _ => _make_line error = Raise OverflowError
  | _ =>
      exists t o,
        Float64.py_int (4 + error * 4)%float = Ok t
        /\ Z.of_nat o = Z.max 0 (Z.min 8 t)
        /\ _make_line error = Ok (bar_at o)
        /\ String.length (bar_at o) = 9%nat
        /\ count_char "|"%char (bar_at o) = 1%nat
        /\ String.get o (bar_at o) = Some "|"%char
  end
  /\ _make_line 0 = Ok "    |    "%string
  /\ _make_line 1 = Ok "        |"%string
  /\ _make_line (-1) = Ok "|        "%string
  /\ _make_line (-0x1p-54) = Ok "    |    "%string
  /\ _make_line 0.24999999999999997 = Ok "     |   "%string
  /\ _make_line 1e308 = Raise OverflowError
  /\ _make_line nan = Raise ValueError.
Proof.
  split; [|repeat split; vm_compute; reflexivity].
  assert (Hfin : forall t,
            Float64.py_int (4 + error * 4)%float = Ok t ->
            exists t' o,
              Float64.py_int (4 + error * 4)%float = Ok t'
              /\ Z.of_nat o = Z.max 0 (Z.min 8 t')
              /\ _make_line error = Ok (bar_at o)
              /\ String.length (bar_at o) = 9%nat
              /\ count_char "|"%char (bar_at o) = 1%nat
              /\ String.get o (bar_at o) = Some "|"%char).
  { intros t Et. exists t, (Z.to_nat (Z.max 0 (Z.min 8 t))).
    assert (E : Z.of_nat (Z.to_nat (Z.max 0 (Z.min 8 t)))
                = Z.max 0 (Z.min 8 t)) by lia.
    split; [exact Et|]. split; [exact E|].
    split; [apply (make_line_at error t); [exact Et | exact E]|].
    apply bar_at_shape. lia. }
  assert (Hraise : forall e,
            Float64.py_int (4 + error * 4)%float = Raise e ->
            _make_line error = Raise e).
  { intros e Ee. unfold _make_line. cbv zeta.
    change (9 / 2)%Z with 4%Z. change (Float64.of_Z 4) with 4%float.
    rewrite Ee. reflexivity. }
  destruct (Prim2SF (4 + error * 4)%float) as [s|s| |s m e] eqn:E.
  - eapply Hfin. unfold Float64.py_int. rewrite E. reflexivity.
  - apply Hraise. unfold Float64.py_int. rewrite E. reflexivity.
  - apply Hraise. unfold Float64.py_int. rewrite E. reflexivity.
  - eapply Hfin. unfold Float64.py_int. rewrite E. reflexivity.
Qed.

End LineDisplay.

(** ** Forwarding to the remote collector *)

Lemma post_only_sent rq w :
  exists w',
    try_except (requests_post rq;; ret tt) (fun _ => ret tt) w = (w', Ok tt)
    /\ only_sent [rq] w w'.
Proof.
  unfold try_except, bind, requests_post, ret.
  destruct (server w (List.length (http_sent w)) rq); simpl;
    (eexists; split; [reflexivity|]); unfold only_sent; simpl;
    repeat split; reflexivity.
Qed.

Lemma only_sent_nil w : only_sent [] w w.
Proof. unfold only_sent. rewrite app_nil_r. repeat split; reflexivity. Qed.

(** X23: the four forwarding helpers never raise, whatever the collector
    does (refuses the connection, answers with an error or with
    success): with a remote session id each sends exactly one request,
    to the route of that session with the values it was given, and
    without one it sends nothing; the store, the clock and the random
    generator are not touched. *)
Theorem http_loggers_best_effort (sid : option Z) (w : World) :
  (forall ty v u, exists w',
     http_log_sensor sid ty v u w = (w', Ok tt)
     /\ only_sent
          (sent_for sid (fun i =>
             {| url := BASE ++ "/sessions/" ++ str_Z i ++ "/sensors";
                payload := [("sensor_type"%string, JStr ty);
                            ("value"%string, JNum v);
                            ("unit"%string, JStr u)] |})) w w')
  /\ (forall ty c st, exists w',
        http_log_actuator sid ty c st w = (w', Ok tt)
        /\ only_sent
             (sent_for sid (fun i =>
                {| url := BASE ++ "/sessions/" ++ str_Z i ++ "/actuators";
                   payload := [("actuator_type"%string, JStr ty);
                               ("command"%string, JNum c);
                               ("status"%string, JStr st)] |})) w w')
  /\ (forall ty sev msg, exists w',
        http_log_event sid ty sev msg w = (w', Ok tt)
        /\ only_sent
             (sent_for sid (fun i =>
                {| url := BASE ++ "/sessions/" ++ str_Z i ++ "/events";
                   payload := [("event_type"%string, JStr ty);
                               ("severity"%string, JStr sev);
                               ("message"%string, JStr msg)] |})) w w')
  /\ (forall st, exists w',
        http_end_session sid st w = (w', Ok tt)
        /\ only_sent
             (sent_for sid (fun i =>
                {| url := BASE ++ "/sessions/" ++ str_Z i ++ "/end";
                   payload := [("status"%string, JStr st)] |})) w w').
Proof.
  destruct sid as [i|]; cbn [sent_for].
  - repeat split; intros; apply post_only_sent.
  - repeat split; intros; exists w; (split; [reflexivity | apply only_sent_nil]).
Qed.

(** X24: [http_create_session] never raises and always sends the one
    session-creation request; it returns the remote id exactly when the
    collector answers with success and a body holding an id, and [None]
    when the connection fails, the answer is not a success, or the body
    has no id. *)
Theorem http_create_session_result (w : World) :
  exists w' remote,
    http_create_session w = (w', Ok remote)
    /\ only_sent [create_request] w w'
    /\ (forall id,
          remote = Some id
          <-> server w (List.length (http_sent w)) create_request
              = Response true (Some id)).
Proof.
  unfold http_create_session, try_except, bind, requests_post.
  fold create_request.
  destruct (server w (List.length (http_sent w)) create_request)
    as [|ok [id|]]; simpl.
  - do 2 eexists. split; [reflexivity|].
    split; [unfold only_sent; simpl; repeat split; reflexivity|].
    intro id. split; discriminate.
  - destruct ok; simpl; do 2 eexists; (split; [reflexivity|]);
      (split; [unfold only_sent; simpl; repeat split; reflexivity |]);
      intro id'; split; intro E; try discriminate; congruence.
  - destruct ok; simpl; do 2 eexists; (split; [reflexivity|]);
      (split; [unfold only_sent; simpl; repeat split; reflexivity |]);
      intro id'; split; discriminate.
Qed.

(** ** One step of the loop: the values it computes *)

Lemma half_speed_range (out : Q) :
  -1 <= out <= 1 ->
  - (1 # 2) <= py_max (-1) (py_min 1 (0.5 - out)) <= 1
  /\ - (1 # 2) <= py_max (-1) (py_min 1 (0.5 + out)) <= 1
  /\ py_max (-1) (py_min 1 (0.5 - out))
     + py_max (-1) (py_min 1 (0.5 + out)) <= 1.
Proof.
  intro H.
  assert (C1 := py_clamp_spec (-1) 1 (0.5 - out) ltac:(lra)).
  assert (C2 := py_clamp_spec (-1) 1 (0.5 + out) ltac:(lra)).
  rewrite C1, C2. unfold clamp.
  destruct (Qle_bool (0.5 - out) (-1)) eqn:E1;
    [apply Qle_bool_iff in E1; lra|].
  destruct (Qle_bool (0.5 + out) (-1)) eqn:E3;
    [apply Qle_bool_iff in E3; lra|].
  destruct (Qle_bool 1 (0.5 - out)) eqn:E2;
    [apply Qle_bool_iff in E2|
     assert (E2' : ~ 1 <= 0.5 - out)
       by (intro X; apply Qle_bool_iff in X; congruence)];
    (destruct (Qle_bool 1 (0.5 + out)) eqn:E4;
      [apply Qle_bool_iff in E4|
       assert (E4' : ~ 1 <= 0.5 + out)
         by (intro X; apply Qle_bool_iff in X; congruence)]);
    repeat split; lra.
Qed.

(** X25: one step of [follow_line] on a sensor whose channels cannot
    divide by zero, in an active session, on a frame with a value per
    channel: the step returns; the normalised values are one per channel
    and lie in [0, 1]; the on-track flag is the verdict of
    [TrackState.update] on them and exactly one of the two counters goes
    up by one; the PID output lies in [-1, 1]; both motor commands lie
    in [-0.5, 1] and their sum never exceeds 1: around the base speed
    0.5 the robot never reverses faster than half speed.  The sensor
    and the gains are unchanged and the controller remembers the error
    of the step. *)
Theorem follow_step_ranges (sid : Z) (remote : option Z) (counts : nat * nat)
    (step : nat) (raw : list Q) (r : LineFollowerRobot.t) (g : Globals) :
  active sid g ->
  sensor_regular (LineFollowerRobot.sensor r) = true ->
  (1 <= IRLineSensor.n (LineFollowerRobot.sensor r))%nat ->
  (IRLineSensor.n (LineFollowerRobot.sensor r) <= List.length raw)%nat ->
  exists r' g' counts' loc,
    LineFollowerRobot.follow_step remote counts step raw (r, g)
    = ((r', g'), Ok (counts', loc))
    /\ List.length (l_norm loc) = IRLineSensor.n (LineFollowerRobot.sensor r)
    /\ Forall (fun v => 0 <= v <= 1) (l_norm loc)
    /\ TrackState.update (l_norm loc) = Ok (l_on_track loc)
    /\ counts' = (if l_on_track loc then (S (fst counts), snd counts)
                  else (fst counts, S (snd counts)))
    /\ -1 <= l_pid_out loc <= 1
    /\ - (1 # 2) <= l_left loc <= 1
    /\ - (1 # 2) <= l_right loc <= 1
    /\ l_left loc + l_right loc <= 1
    /\ LineFollowerRobot.sensor r' = LineFollowerRobot.sensor r
    /\ PIDController.kp (LineFollowerRobot.pid r')
       = PIDController.kp (LineFollowerRobot.pid r)
    /\ PIDController.ki (LineFollowerRobot.pid r')
       = PIDController.ki (LineFollowerRobot.pid r)
    /\ PIDController.kd (LineFollowerRobot.pid r')
       = PIDController.kd (LineFollowerRobot.pid r)
    /\ PIDController.prev_error (LineFollowerRobot.pid r') = l_error loc.
Proof.
  intros Ha Hreg Hn1 Hraw.
  unfold LineFollowerRobot.follow_step. cbv zeta.
  destruct (noisy_run sid r g raw) as (g1 & noisy & E1 & L1 & H1).
  rewrite (bind_ok _ _ _ _ _ E1).
  assert (Ha1 := active_effect sid _ _ _ Ha H1).
  assert (Hnoisy : (IRLineSensor.n (LineFollowerRobot.sensor r)
                    <= List.length noisy)%nat) by lia.
  assert (E2 := read_normalized_regular noisy _ Hreg Hnoisy).
  set (norm := map _ (seq 0 _)) in E2.
  assert (Hlen : List.length norm = IRLineSensor.n (LineFollowerRobot.sensor r)).
  { unfold norm. rewrite length_map, length_seq. reflexivity. }
  assert (Hunit : Forall (fun v => 0 <= v <= 1) norm).
  { unfold norm. apply Forall_map, Forall_forall. intros i _.
    apply py_clamp_range. lra. }
  rewrite (bind_ok _ _ _ _ _ (self_sensor_run _ r g1 _ E2)).
  destruct (log_batch sid remote r g1 norm 0 Ha1) as (g2 & sent2 & E3 & H2 & N2).
  cbv zeta in E3. rewrite (bind_ok _ _ _ _ _ E3).
  assert (Ha2 := active_effect sid _ _ _ Ha1 H2).
  unfold bind at 1, gets at 1. cbn [fst].
  assert (E4 := lateral_error_run _ (IRLineSensor.n (LineFollowerRobot.sensor r))
                  norm (r, g2) ltac:(lia)).
  set (e := if (_ =? 0)%Z then _ else _) in E4.
  rewrite (bind_ok _ _ _ _ _ E4).
  assert (Hdt : ~ PIDController.default_dt == 0) by discriminate.
  assert (E5 := pid_update_run (LineFollowerRobot.pid r) e _ Hdt).
  set (out := py_max (-1) (py_min 1 _)) in E5.
  assert (Hout : -1 <= out <= 1) by (apply py_clamp_range; lra).
  destruct (half_speed_range out Hout) as (HL & HR & HS).
  rewrite (bind_ok _ _ _ _ _ (self_pid_run _ r g2 _ _ E5)).
  set (r' := LineFollowerRobot.set_pid _ r).
  destruct (update_nonempty norm ltac:(lia)) as (b & E6).
  unfold bind at 1, lift at 1. rewrite E6.
  destruct b.
  - unfold bind at 1, ret at 1.
    destruct (drive_active sid r' g2 0.5 out Ha2) as (g3 & E7 & H3).
    rewrite (bind_ok _ _ _ _ _ E7). cbn [fst snd].
    destruct (http_log_actuator_quiet remote "Motor_L"
                (py_max (-1) (py_min 1 (0.5 - out))) "sent" (world g3))
      as (w4 & sent4 & E8 & Q4 & N4).
    destruct (glob_quiet _ sid r' g3 w4 _ sent4 E8 Q4) as (g4 & E8' & H4).
    rewrite (bind_ok _ _ _ _ _ E8').
    destruct (http_log_actuator_quiet remote "Motor_R"
                (py_max (-1) (py_min 1 (0.5 + out))) "sent" (world g4))
      as (w5 & sent5 & E9 & Q5 & N5).
    destruct (glob_quiet _ sid r' g4 w5 _ sent5 E9 Q5) as (g5 & E9' & H5).
    rewrite (bind_ok _ _ _ _ _ E9'). unfold ret.
    exists r', g5. do 2 eexists.
    split; [reflexivity|]. cbn [l_norm l_on_track l_pid_out l_left l_right
                               l_error].
    repeat (split; [first [ exact Hlen | exact Hunit | exact E6
                          | reflexivity | apply Hout | apply HL | apply HR
                          | exact HS ]|]).
    reflexivity.
  - destruct (tele_log_event sid r' g2 "line_tracking" "warning"
                ("Сошёл с линии на шаге " ++ str_nat step) Ha2 eq_refl)
      as (g3 & E7 & H3).
    assert (Ha3 := active_effect sid _ _ _ Ha2 H3).
    destruct (http_log_event_quiet remote "line_tracking" "warning"
                ("Сошёл с линии на шаге " ++ str_nat step) (world g3))
      as (w4 & sent4 & E8 & Q4 & N4).
    destruct (glob_quiet _ sid r' g3 w4 _ sent4 E8 Q4) as (g4 & E8' & H4).
    assert (Ha4 := active_effect sid _ _ _ Ha3 H4).
    unfold bind at 1. unfold bind at 1. rewrite E7.
    unfold bind at 1. rewrite E8'. unfold ret at 1.
    destruct (drive_active sid r' g4 0.5 out Ha4) as (g5 & E9 & H5).
    rewrite (bind_ok _ _ _ _ _ E9). cbn [fst snd].
    destruct (http_log_actuator_quiet remote "Motor_L"
                (py_max (-1) (py_min 1 (0.5 - out))) "sent" (world g5))
      as (w6 & sent6 & E10 & Q6 & N6).
    destruct (glob_quiet _ sid r' g5 w6 _ sent6 E10 Q6) as (g6 & E10' & H6).
    rewrite (bind_ok _ _ _ _ _ E10').
    destruct (http_log_actuator_quiet remote "Motor_R"
                (py_max (-1) (py_min 1 (0.5 + out))) "sent" (world g6))
      as (w7 & sent7 & E11 & Q7 & N7).
    destruct (glob_quiet _ sid r' g6 w7 _ sent7 E11 Q7) as (g7 & E11' & H7).
    rewrite (bind_ok _ _ _ _ _ E11'). unfold ret.
    exists r', g7. do 2 eexists.
    split; [reflexivity|]. cbn [l_norm l_on_track l_pid_out l_left l_right
                               l_error].
    repeat (split; [first [ exact Hlen | exact Hunit | exact E6
                          | reflexivity | apply Hout | apply HL | apply HR
                          | exact HS ]|]).
    reflexivity.
Qed.

Lemma follow_step_ranges_witness :
  exists r' g' counts' loc,
    LineFollowerRobot.follow_step None (0, 0)%nat 1 frame1
      (LineFollowerRobot.init 5,
       snd (fst (LineFollowerRobot.tele
                   (TelemetryLogger.start_session VARIANT_ID)
                   (LineFollowerRobot.init 5, fresh_globals unreachable))))
    = ((r', g'), Ok (counts', loc))
    /\ l_left loc + l_right loc <= 1.
Proof.
  destruct (follow_step_ranges 1 None (0, 0)%nat 1 frame1
              (LineFollowerRobot.init 5)
              (snd (fst (LineFollowerRobot.tele
                           (TelemetryLogger.start_session VARIANT_ID)
                           (LineFollowerRobot.init 5,
                            fresh_globals unreachable)))))
    as (r' & g' & c' & loc & E & _ & _ & _ & _ & _ & _ & _ & H & _).
  - repeat split; reflexivity.
  - reflexivity.
  - simpl. lia.
  - simpl. lia.
  - exists r', g', c', loc. split; [exact E | exact H].
Defined.

(** ** Runs the [try] does not protect, and runs it does *)

(** X26: without a connection, [calibrate] and [follow_line] raise
    [AssertionError] from their first statement, which is outside the
    [try]: the error reaches the caller, nothing is written and no
    request is sent. *)
Theorem runs_need_connection (r : LineFollowerRobot.t) (g : Globals) :
  connected g = false ->
  LineFollowerRobot.calibrate (r, g) = ((r, g), Raise AssertionError)
  /\ forall ms label,
       LineFollowerRobot.follow_line ms label (r, g)
       = ((r, g), Raise AssertionError).
Proof.
  intro Hc. destruct g as [tl w]. destruct tl as [p c s].
  unfold connected in Hc. simpl in Hc. destruct c; [discriminate|].
  destruct r as [se pi mo tr].
  split; [|intros ms label]; reflexivity.
Qed.

Lemma runs_need_connection_witness :
  LineFollowerRobot.calibrate
    (LineFollowerRobot.init 5,
     {| telemetry := TelemetryLogger.init "robot_telemetry.db";
        world := world (fresh_globals unreachable) |})
  = ((LineFollowerRobot.init 5,
      {| telemetry := TelemetryLogger.init "robot_telemetry.db";
         world := world (fresh_globals unreachable) |}),
     Raise AssertionError).
Proof.
  apply (runs_need_connection (LineFollowerRobot.init 5)
           {| telemetry := TelemetryLogger.init "robot_telemetry.db";
              world := world (fresh_globals unreachable) |}).
  reflexivity.
Defined.

Lemma follow_step_short sid remote counts step raw r g :
  active sid g ->
  sensor_regular (LineFollowerRobot.sensor r) = true ->
  (List.length raw < IRLineSensor.n (LineFollowerRobot.sensor r))%nat ->
  exists g',
    LineFollowerRobot.follow_step remote counts step raw (r, g)
    = ((r, g'), Raise IndexError)
    /\ effect sid d_nil g g'.
Proof.
  intros Ha Hreg Hraw.
  unfold LineFollowerRobot.follow_step. cbv zeta.
  destruct (noisy_run sid r g raw) as (g1 & noisy & E1 & L1 & H1).
  rewrite (bind_ok _ _ _ _ _ E1).
  assert (E2 := read_normalized_short_run noisy _ Hreg ltac:(lia)).
  exists g1. split; [|exact H1].
  apply bind_raise. apply (self_sensor_run _ r g1 _ E2).
Qed.

Lemma follow_steps_short sid remote bad ms2 ms1 :
  forall k counts r g,
  active sid g ->
  sensor_regular (LineFollowerRobot.sensor r) = true ->
  (1 <= IRLineSensor.n (LineFollowerRobot.sensor r))%nat ->
  frames_fit (IRLineSensor.n (LineFollowerRobot.sensor r)) ms1 = true ->
  (List.length bad < IRLineSensor.n (LineFollowerRobot.sensor r))%nat ->
  exists r' g' evs sent,
    LineFollowerRobot.follow_steps remote counts
      (enumerate k (ms1 ++ bad :: ms2)) (r, g)
    = ((r', g'), Raise IndexError)
    /\ LineFollowerRobot.sensor r' = LineFollowerRobot.sensor r
    /\ effect sid
         {| d_sensors :=
              List.concat (repeat (ir_names (IRLineSensor.n
                                          (LineFollowerRobot.sensor r)))
                             (List.length ms1));
            d_commands :=
              List.concat (repeat ["Motor_L"; "Motor_R"]%string
                                  (List.length ms1));
            d_events := evs; d_sent := sent |} g g'
    /\ (remote = None -> sent = [])
    /\ Forall (fun e => e = ("line_tracking", "warning")%string) evs.
Proof.
  induction ms1 as [|raw ms1 IH]; intros k counts r g Ha Hreg Hn Hfit Hbad;
    cbn [app enumerate LineFollowerRobot.follow_steps].
  - destruct (follow_step_short sid remote counts k bad r g Ha Hreg Hbad)
      as (g1 & E1 & H1).
    exists r, g1, [], [].
    split; [apply bind_raise; exact E1|]. split; [reflexivity|].
    split; [exact H1|]. split; [reflexivity | constructor].
  - apply frames_fit_cons in Hfit. destruct Hfit as [Hraw Hfit].
    destruct (follow_step_regular sid remote counts k raw r g Ha Hreg Hn Hraw)
      as (r1 & g1 & c1 & loc & evs1 & sent1 & E1 & S1 & H1 & N1 & V1 & C1).
    rewrite (bind_ok _ _ _ _ _ E1). cbn [fst].
    assert (Ha1 := active_effect sid _ _ _ Ha H1).
    rewrite <- S1 in Hreg, Hn, Hfit, Hbad.
    destruct (IH (S k) c1 r1 g1 Ha1 Hreg Hn Hfit Hbad)
      as (r2 & g2 & evs2 & sent2 & E2 & S2 & H2 & N2 & V2).
    rewrite E2. exists r2, g2, (evs1 ++ evs2), (sent1 ++ sent2).
    split; [reflexivity|]. split; [congruence|].
    split; [|split].
    + rewrite S1 in H2.
      eapply effect_eq; [exact (effect_trans sid _ _ _ _ _ H1 H2)|].
      unfold d_app; simpl. reflexivity.
    + intro Hr. rewrite (N1 Hr), (N2 Hr). reflexivity.
    + apply Forall_app. split; [|exact V2].
      subst evs1. destruct (l_on_track loc); repeat constructor.
Qed.

(** X27: a frame with too few values stops the run where it stands:
    [follow_line] still returns normally, the session ends with status
    [error] and an [exception] event of severity [error] is the last
    event; the store holds the complete batches of readings and commands
    of the frames before the short one and nothing of the frames after
    it, and no [scenario_end] event is logged. *)
Theorem follow_line_short_frame
    (ms1 ms2 : list (list Q)) (bad : list Q) (label : string)
    (r : LineFollowerRobot.t) (g : Globals) :
  connected g = true ->
  sensor_regular (LineFollowerRobot.sensor r) = true ->
  (1 <= IRLineSensor.n (LineFollowerRobot.sensor r))%nat ->
  frames_fit (IRLineSensor.n (LineFollowerRobot.sensor r)) ms1 = true ->
  (List.length bad < IRLineSensor.n (LineFollowerRobot.sensor r))%nat ->
  exists r' g' ts remote trk sent,
    LineFollowerRobot.follow_line (ms1 ++ bad :: ms2) label (r, g)
    = ((r', g'), Ok tt)
    /\ run_summary g g' (next_session_id g) (clock (world g)) ts "error"
         {| d_sensors :=
              List.concat
                (repeat (ir_names (IRLineSensor.n (LineFollowerRobot.sensor r)))
                        (List.length ms1));
            d_commands :=
              List.concat (repeat ["Motor_L"; "Motor_R"]%string
                                  (List.length ms1));
            d_events := entry_events remote ++ trk
                        ++ [("exception", "error")]%string;
            d_sent := create_request :: sent |}
    /\ Forall (fun e => e = ("line_tracking", "warning")%string) trk
    /\ LineFollowerRobot.sensor r' = LineFollowerRobot.sensor r.
Proof.
  intros Hc Hreg Hn Hfit Hbad.
  destruct (follow_line_summary (ms1 ++ bad :: ms2) label r g Hc)
    as (g2 & remote & E2 & Ha2 & F2 & Hrun).
  destruct (follow_steps_short (next_session_id g) remote bad ms2 ms1 1
              (0, 0)%nat r g2 Ha2 Hreg Hn Hfit Hbad)
    as (r3 & g3 & trk & sent3 & E3 & S3 & H3 & N3 & V3).
  destruct (Hrun r3 g3 _ _ E3 H3) as (g' & ts & sent0 & sent1 & E & S & N).
  exists r3, g', ts, remote, trk, (sent0 ++ sent3 ++ sent1).
  split; [exact E|]. split; [exact S|]. split; [exact V3 | exact S3].
Qed.

Lemma follow_line_short_frame_witness :
  exists r' g',
    LineFollowerRobot.follow_line ([frame1] ++ [0.5; 0.5] :: [frame1]) "x"
      (LineFollowerRobot.init 5, fresh_globals unreachable)
    = ((r', g'), Ok tt).
Proof.
  destruct (follow_line_short_frame [frame1] [frame1] [0.5; 0.5] "x"
              (LineFollowerRobot.init 5) (fresh_globals unreachable)
              eq_refl eq_refl ltac:(simpl; lia) eq_refl ltac:(simpl; lia))
    as (r' & g' & _ & _ & _ & _ & E & _).
  exists r', g'. exact E.
Defined.

(** ** What a run leaves alone *)

Lemma run_kept_refl s : run_kept s s.
Proof. unfold run_kept, tuning_kept, sources_kept. repeat split; reflexivity. Qed.

Lemma run_kept_trans s1 s2 s3 :
  run_kept s1 s2 -> run_kept s2 s3 -> run_kept s1 s3.
Proof.
  unfold run_kept, tuning_kept, sources_kept.
  intros ((A1 & A2 & A3 & A4) & A5 & A6) ((B1 & B2 & B3 & B4) & B5 & B6).
  repeat split; congruence.
Qed.

Lemma logger_sources (s : TelemetryLogger.t * World) :
  forall m : M (TelemetryLogger.t * World) unit,
  (exists st, m = TelemetryLogger.end_session st)
  \/ (exists ty v u, m = TelemetryLogger.log_sensor ty v u)
  \/ (exists ty v st, m = TelemetryLogger.log_command ty v st)
  \/ (exists ty sev msg, m = TelemetryLogger.log_event ty sev msg) ->
  random_source (snd (fst (m s))) = random_source (snd s)
  /\ server (snd (fst (m s))) = server (snd s).
Proof.
  destruct s as [[p c i] w].
  intros m [(st & ->)|[(ty & v & u & ->)|[(ty & v & st & ->)
                                          |(ty & sev & msg & ->)]]];
    destruct c as [c|]; destruct i as [i|]; run_logger;
    try (split; reflexivity);
    repeat match goal with
           | |- context [if ?b then _ else _] => destruct b; simpl
           end;
    split; reflexivity.
Qed.

Lemma start_session_sources v (s : TelemetryLogger.t * World) :
  random_source (snd (fst (TelemetryLogger.start_session v s)))
  = random_source (snd s)
  /\ server (snd (fst (TelemetryLogger.start_session v s))) = server (snd s).
Proof.
  destruct s as [[p c i] w]. destruct c as [c|]; run_logger;
    split; reflexivity.
Qed.

Lemma run_kept_tele {A} (m : M (TelemetryLogger.t * World) A) :
  (forall s, random_source (snd (fst (m s))) = random_source (snd s)
             /\ server (snd (fst (m s))) = server (snd s)) ->
  keeps run_kept (LineFollowerRobot.tele m).
Proof.
  intros H [r g]. destruct (tele_world m r g) as (E1 & E2 & _).
  destruct (H (telemetry g, world g)) as [H1 H2].
  unfold run_kept, tuning_kept, sources_kept. cbn [fst snd].
  rewrite E1, E2. simpl in H1, H2. rewrite H1, H2.
  repeat split; reflexivity.
Qed.

Lemma run_kept_follow_line ms label :
  keeps run_kept (LineFollowerRobot.follow_line ms label).
Proof.
  apply run_keeps_follow_line.
  - apply run_kept_refl.
  - apply run_kept_trans.
  - intro v. apply run_kept_tele. apply start_session_sources.
  - intro st. apply run_kept_tele. intro s. apply logger_sources. eauto.
  - intros ty v u. apply run_kept_tele. intro s. apply logger_sources.
    right; left; eauto.
  - intros ty v st. apply run_kept_tele. intro s. apply logger_sources.
    right; right; left; eauto.
  - intros ty sev msg. apply run_kept_tele. intro s. apply logger_sources.
    right; right; right; eauto.
  - intros A m H [r g]. destruct (glob_world m r g) as (E1 & E2 & _).
    destruct (H (world g)) as (sent & _ & Q2 & Q3 & _).
    unfold run_kept, tuning_kept, sources_kept. cbn [fst snd].
    rewrite E1, E2, Q2, Q3. repeat split; reflexivity.
  - intros e dt [r g].
    unfold LineFollowerRobot.self_pid, on_self, zoom, PIDController.update,
      bind, modify, gets, lift, ret, py_div. simpl.
    destruct (Qeq_bool dt 0); simpl;
      unfold run_kept, tuning_kept, sources_kept; simpl;
      repeat split; reflexivity.
  - intros raw [r g].
    unfold LineFollowerRobot.self_sensor, on_self, zoom. simpl.
    assert (F := read_normalized_frame raw (LineFollowerRobot.sensor r)).
    destruct (IRLineSensor.read_normalized raw (LineFollowerRobot.sensor r))
      as [se res]. simpl in F. subst se.
    unfold run_kept, tuning_kept, sources_kept; simpl.
    repeat split; reflexivity.
Qed.

(** X28: whatever the frames, the collector and the state of the logger,
    and whether it returns or raises, [follow_line] leaves the
    calibration of the sensor and the three gains of the controller as
    they were. *)
Theorem follow_line_keeps_tuning
    (ms : list (list Q)) (label : string) (s : LineFollowerRobot.t * Globals) :
  let s' := fst (LineFollowerRobot.follow_line ms label s) in
  LineFollowerRobot.sensor (fst s') = LineFollowerRobot.sensor (fst s)
  /\ PIDController.kp (LineFollowerRobot.pid (fst s'))
     = PIDController.kp (LineFollowerRobot.pid (fst s))
  /\ PIDController.ki (LineFollowerRobot.pid (fst s'))
     = PIDController.ki (LineFollowerRobot.pid (fst s))
  /\ PIDController.kd (LineFollowerRobot.pid (fst s'))
     = PIDController.kd (LineFollowerRobot.pid (fst s)).
Proof.
  intro s'. destruct (run_kept_follow_line ms label s)
    as ((A1 & A2 & A3 & A4) & _).
  fold s' in A1, A2, A3, A4.
  repeat split; assumption.
Qed.

(** ** The script *)

Lemma close_connected r g :
  connected g = true ->
  LineFollowerRobot.tele TelemetryLogger.close (r, g)
  = ((r, {| telemetry := TelemetryLogger.set_conn None (telemetry g);
            world := world g |}), Ok tt).
Proof.
  intro Hc. destruct g as [[p c i] w]. unfold connected in Hc; simpl in Hc.
  destruct c; [|discriminate]. destruct r. reflexivity.
Qed.

Lemma run_summary_connected g g' sid ts ts' st dl :
  connected g = true -> run_summary g g' sid ts ts' st dl ->
  connected g' = true.
Proof.
  intros Hc (T & _). unfold connected in *. rewrite T. exact Hc.
Qed.

Lemma run_summary_next_id g g' ts ts' st dl :
  run_summary g g' (next_session_id g) ts ts' st dl ->
  next_session_id g' = (next_session_id g + 1)%Z.
Proof.
  intros (_ & S & _). unfold next_session_id in *. rewrite S, map_app.
  cbn [map ended_session_row s_id]. apply next_rowid_app.
Qed.

(** X29: the script ([__main__]) on any store left by earlier runs, with
    random draws in [0, 1) and whatever the collector does: it returns
    without an error; it adds exactly three sessions with consecutive
    ids, all ended as completed (the calibration and the two
    scenarios), 100 sensor readings and 40 motor commands; at the end
    the connection is closed. *)
Theorem script_completes (w : World) :
  unit_draws w ->
  let sid := next_rowid (map s_id (sessions (database w))) in
  exists r' g' t0 t0' t1 t1' t2 t2',
    script w = ((r', g'), Ok tt)
    /\ TelemetryLogger._conn (telemetry g') = None
    /\ sessions (database (world g'))
       = sessions (database w)
         ++ [ended_session_row sid t0 t0' "completed";
             ended_session_row (sid + 1) t1 t1' "completed";
             ended_session_row (sid + 2) t2 t2' "completed"]
    /\ List.length (sensor_readings (database (world g')))
       = (List.length (sensor_readings (database w)) + 100)%nat
    /\ List.length (actuator_commands (database (world g')))
       = (List.length (actuator_commands (database w)) + 40)%nat
    /\ sensor_regular (LineFollowerRobot.sensor r') = true.
Proof.
  intros Hu sid.
  set (g0 := {| telemetry :=
                  {| TelemetryLogger.db_path := "robot_telemetry.db";
                     TelemetryLogger._conn :=
                       Some (Connect "robot_telemetry.db");
                     TelemetryLogger.session_id := None |};
                world := w |}).
  assert (E0 : script w = main (LineFollowerRobot.init 5, g0)) by reflexivity.
  assert (Hc0 : connected g0 = true) by reflexivity.
  (* the calibration *)
  destruct (robot_calibrate_levels (LineFollowerRobot.init 5) g0 Hc0 eq_refl Hu)
    as (r1 & g1 & E1 & Hn1 & _ & _ & Hreg1 & _).
  destruct (robot_calibrate_summary (LineFollowerRobot.init 5) g0 Hc0 eq_refl)
    as (r1' & g1' & t0' & E1' & S1 & _).
  rewrite E1 in E1'. inversion E1'; subst r1' g1'. clear E1'.
  assert (Hc1 := run_summary_connected _ _ _ _ _ _ _ Hc0 S1).
  assert (I1 := run_summary_next_id _ _ _ _ _ _ S1).
  change (IRLineSensor.n (LineFollowerRobot.sensor (LineFollowerRobot.init 5)))
    with 5%nat in Hn1.
  (* the first scenario *)
  destruct (follow_line_regular measurements_normal "Робот идёт по линии"
              r1 g1 Hc1 Hreg1 ltac:(lia) ltac:(rewrite Hn1; reflexivity))
    as (r2 & g2 & t1' & rem2 & trk2 & sent2 & E2 & S2 & _).
  assert (K2 := run_kept_follow_line measurements_normal
                  "Робот идёт по линии" (r1, g1)).
  rewrite E2 in K2. destruct K2 as ((K2 & _) & _). cbn [fst] in K2.
  assert (Hc2 := run_summary_connected _ _ _ _ _ _ _ Hc1 S2).
  assert (I2 := run_summary_next_id _ _ _ _ _ _ S2).
  assert (Hreg2 : sensor_regular (LineFollowerRobot.sensor r2) = true)
    by (rewrite K2; exact Hreg1).
  assert (Hn2 : IRLineSensor.n (LineFollowerRobot.sensor r2) = 5%nat)
    by (rewrite K2; exact Hn1).
  (* the second scenario *)
  destruct (follow_line_regular measurements_offline "Робот сходит с линии"
              r2 g2 Hc2 Hreg2 ltac:(lia) ltac:(rewrite Hn2; reflexivity))
    as (r3 & g3 & t2' & rem3 & trk3 & sent3 & E3 & S3 & _).
  assert (K3 := run_kept_follow_line measurements_offline
                  "Робот сходит с линии" (r2, g2)).
  rewrite E3 in K3. destruct K3 as ((K3 & _) & _). cbn [fst] in K3.
  assert (Hc3 := run_summary_connected _ _ _ _ _ _ _ Hc2 S3).
  (* the whole script *)
  exists r3. eexists.
  exists (clock (world g0)), t0', (clock (world g1)), t1',
         (clock (world g2)), t2'.
  split.
  { rewrite E0. unfold main.
    rewrite (bind_ok _ _ _ _ _ E1), (bind_ok _ _ _ _ _ E2),
      (bind_ok _ _ _ _ _ E3).
    apply close_connected. exact Hc3. }
  cbn [telemetry world].
  split; [reflexivity|].
  destruct S1 as (_ & A1 & _ & B1 & C1 & _).
  destruct S2 as (_ & A2 & _ & B2 & C2 & _).
  destruct S3 as (_ & A3 & _ & B3 & C3 & _).
  split; [|split; [|split]].
  - rewrite A3, A2, A1, I2, I1. cbn [database world g0].
    rewrite <- !app_assoc. cbn [app].
    replace (next_session_id g0 + 1 + 1)%Z with (next_session_id g0 + 2)%Z
      by lia.
    reflexivity.
  - apply keyed_length in B1. apply keyed_length in B2.
    apply keyed_length in B3. cbn [d_sensors] in B1, B2, B3.
    rewrite length_map in B1, B2, B3.
    rewrite length_concat_repeat, ir_names_length in B2, B3.
    rewrite Hn1 in B2. rewrite Hn2 in B3.
    simpl in B1, B2, B3. cbn [database world g0] in B1. lia.
  - apply keyed_length in C1. apply keyed_length in C2.
    apply keyed_length in C3. cbn [d_commands] in C1, C2, C3.
    rewrite length_map in C1, C2, C3.
    rewrite length_concat_repeat in C2, C3.
    simpl in C1, C2, C3. cbn [database world g0] in C1. lia.
  - rewrite K3. exact Hreg2.
Qed.

Lemma script_completes_witness :
  exists r' g',
    script (world (fresh_globals unreachable)) = ((r', g'), Ok tt)
    /\ TelemetryLogger._conn (telemetry g') = None.
Proof.
  destruct (script_completes (world (fresh_globals unreachable))
              unit_draws_half)
    as (r' & g' & _ & _ & _ & _ & _ & _ & E & H & _).
  exists r', g'. split; [exact E | exact H].
Defined.
